(** * Ingestion and validation server: a shallow embedding of [server/server.js]

    The development follows the order of the source file: the JavaScript
    values the XML reader hands to the validator, [validateAgainstXSD],
    [validateXML], [createInvalidExcel], [parseExcelToXML], [saveToMongoDB]
    and the two upload routes.  External collaborators (the XML reader, the
    XML writer, the [Date] parser of the JavaScript engine, the file system
    and the database driver) appear as explicit parameters or as fault
    switches. *)

From Stdlib Require Import String Ascii List ZArith Bool Arith Lia.
From Stdlib Require Import DecimalString DecimalNat.
From Stdlib Require Import Sorted Permutation.
Import ListNotations.

Open Scope list_scope.
Open Scope string_scope.

Set Warnings "-register-all".

(** ** JavaScript values *)

Module Js.

(** The values the XML reader delivers: text, numbers, booleans, arrays for
    repeated tags and objects for nested elements.  [undefined] is not a
    value of this type; a property read returns [option JsValue] and [None]
    stands for [undefined].  A character of a [string] stands for one UTF-16
    code unit, and [JNumber n] for the number whose value is the integer
    [n]; numbers with a fraction are not values of this type. *)
Inductive JsValue : Type :=
| JString (s : string)
| JNumber (n : Z)
| JBoolean (b : bool)
| JArray (xs : list JsValue)
| JObject (props : list (string * JsValue)).

Fixpoint assoc (k : string) (props : list (string * JsValue)) : option JsValue :=
  match props with
  | [] => None
  | (k', v) :: rest => if String.eqb k k' then Some v else assoc k rest
  end.

(** [v.k]: own properties of objects, and [length] of strings and arrays. *)
Definition prop (v : JsValue) (k : string) : option JsValue :=
  match v with
  | JObject props => assoc k props
  | JString s => if String.eqb k "length" then Some (JNumber (Z.of_nat (String.length s))) else None
  | JArray xs => if String.eqb k "length" then Some (JNumber (Z.of_nat (List.length xs))) else None
  | _ => None
  end.

(** [v?.k] *)
Definition optProp (v : option JsValue) (k : string) : option JsValue :=
  match v with
  | Some o => prop o k
  | None => None
  end.

(** ToBoolean *)
Definition truthy (v : option JsValue) : bool :=
  match v with
  | None => false
  | Some (JString s) => negb (String.eqb s "")
  | Some (JNumber n) => negb (Z.eqb n 0)
  | Some (JBoolean b) => b
  | Some (JArray _) => true
  | Some (JObject _) => true
  end.

Definition typeof (v : option JsValue) : string :=
  match v with
  | None => "undefined"
  | Some (JString _) => "string"
  | Some (JNumber _) => "number"
  | Some (JBoolean _) => "boolean"
  | Some (JArray _) => "object"
  | Some (JObject _) => "object"
  end.

Definition Nat_toString (n : nat) : string :=
  NilZero.string_of_uint (Nat.to_uint n).

Definition Z_toString (n : Z) : string :=
  NilZero.string_of_int (Z.to_int n).

(** *** Number::toString *)

(** The distance from the number [a], at least 2^53, to the number above. *)
Definition ulp (a : Z) : Z := (2 ^ (Z.log2 a - 52))%Z.

(** Whether the real [x4 / 4] is rounded to the number [a]: it lies between
    the midpoints to the two neighbours of [a], a midpoint included when the
    significand of [a] is even. *)
Definition roundsTo (a x4 : Z) : bool :=
  let u := ulp a in
  let below := if (a =? 2 ^ Z.log2 a)%Z then (u / 2)%Z else u in
  let lo4 := (4 * a - 2 * below)%Z in
  let hi4 := (4 * a + 2 * u)%Z in
  if Z.even (a / u)
  then (lo4 <=? x4)%Z && (x4 <=? hi4)%Z
  else (lo4 <? x4)%Z && (x4 <? hi4)%Z.

(** The least number of digits [k], from [k] on, and the digits [s] for
    which [s * 10 ^ (n - k)] is rounded to [a]; of two such [s] the closer
    one, and the even one when they are equally close. *)
Fixpoint shortestDigits (fuel : nat) (k n a : Z) : Z * Z :=
  match fuel with
  | O => (a, n)
  | S fuel' =>
      let p := (10 ^ (n - k))%Z in
      let s1 := (a / p)%Z in
      let s2 := (s1 + 1)%Z in
      let in1 := roundsTo a (4 * s1 * p) in
      let in2 := roundsTo a (4 * s2 * p) in
      if in1 && in2 then
        if (a - s1 * p <? s2 * p - a)%Z then (s1, k)
        else if (s2 * p - a <? a - s1 * p)%Z then (s2, k)
        else if Z.even s1 then (s1, k) else (s2, k)
      else if in1 then (s1, k)
      else if in2 then (s2, k)
      else shortestDigits fuel' (k + 1) n a
  end.

(** The text of the number [a], at least 2^53: its shortest digits, filled
    with zeros up to 21 digits and in the form [d.ddde+x] beyond. *)
Definition largeNumber_toString (a : Z) : string :=
  let n := Z.of_nat (String.length (Z_toString a)) in
  let '(s, k) := shortestDigits (Z.to_nat n) 1 n a in
  let '(s, k, n) := if (s =? 10 ^ k)%Z then (1, 1, n + 1)%Z else (s, k, n) in
  if (n <=? 21)%Z then
    Z_toString (s * 10 ^ (n - k))
  else
    match Z_toString s with
    | String d rest =>
        String d (if String.eqb rest "" then "" else "." ++ rest) ++
        "e+" ++ Z_toString (n - 1)
    | EmptyString => ""
    end.

(** Number::toString of the number [n]: below 2^53 in magnitude the digits
    of the integer. *)
Definition Number_toString (n : Z) : string :=
  if (Z.abs n <? 2 ^ 53)%Z then Z_toString n
  else if (n <? 0)%Z then "-" ++ largeNumber_toString (Z.abs n)
  else largeNumber_toString n.

(** ToString, as used by template literals, [RegExp.prototype.test] and
    [toString()]. *)
Fixpoint ToString (v : JsValue) : string :=
  match v with
  | JString s => s
  | JNumber n => Number_toString n
  | JBoolean true => "true"
  | JBoolean false => "false"
  | JArray xs => String.concat "," (List.map ToString xs)
  | JObject _ => "[object Object]"
  end.

Definition ToStringOpt (v : option JsValue) : string :=
  match v with
  | Some x => ToString x
  | None => "undefined"
  end.

(** [s.includes(needle)] *)
Fixpoint includes (s needle : string) : bool :=
  String.prefix needle s ||
  match s with
  | EmptyString => false
  | String _ rest => includes rest needle
  end.

(** [a || b] on values *)
Definition orElse (a : option JsValue) (b : JsValue) : JsValue :=
  match a with
  | Some v => if truthy a then v else b
  | None => b
  end.

(** *** StringToNumber and the comparison of a value with a number *)

(** What a text names as a number: no number, an infinity, or the digits of
    a decimal literal with its power of ten, not yet rounded. *)
Inductive Num : Type :=
| NaN
| Infinite (negative : bool)
| Finite (negative : bool) (digits : Z) (exponent : Z).

(** White space and line terminators among the code units below 256. *)
Definition isWhiteSpace (c : ascii) : bool :=
  let n := nat_of_ascii c in
  ((9 <=? n)%nat && (n <=? 13)%nat) || (n =? 32)%nat || (n =? 160)%nat.

Fixpoint dropWhile (p : ascii -> bool) (cs : list ascii) : list ascii :=
  match cs with
  | c :: rest => if p c then dropWhile p rest else cs
  | [] => []
  end.

Definition trim (s : string) : list ascii :=
  rev (dropWhile isWhiteSpace (rev (dropWhile isWhiteSpace (list_ascii_of_string s)))).

(** The value of [c] as a digit in [base], if it is one. *)
Definition digitIn (base : Z) (c : ascii) : option Z :=
  let n := Z.of_nat (nat_of_ascii c) in
  let d :=
    if (48 <=? n)%Z && (n <=? 57)%Z then Some (n - 48)%Z
    else if (97 <=? n)%Z && (n <=? 102)%Z then Some (n - 87)%Z
    else if (65 <=? n)%Z && (n <=? 70)%Z then Some (n - 55)%Z
    else None in
  match d with
  | Some v => if (v <? base)%Z then Some v else None
  | None => None
  end.

(** Reads the digits at the front of [cs] after the digits [acc]: the value,
    the number of digits read and the characters left. *)
Fixpoint readDigits (base : Z) (cs : list ascii) (acc count : Z) : Z * Z * list ascii :=
  match cs with
  | c :: rest =>
      match digitIn base c with
      | Some d => readDigits base rest (base * acc + d) (count + 1)
      | None => (acc, count, cs)
      end
  | [] => (acc, count, [])
  end.

Definition isChar (c : ascii) (a b : string) : bool :=
  String.eqb (String c "") a || String.eqb (String c "") b.

(** ExponentPart up to the end of the text, or nothing. *)
Definition readExponent (cs : list ascii) : option Z :=
  match cs with
  | [] => Some 0%Z
  | e :: rest =>
      if isChar e "e" "E" then
        let '(negative, ds) :=
          match rest with
          | sign :: ds' =>
              if isChar sign "-" "-" then (true, ds')
              else if isChar sign "+" "+" then (false, ds')
              else (false, rest)
          | [] => (false, rest)
          end in
        match readDigits 10 ds 0 0 with
        | (v, count, []) =>
            if (0 <? count)%Z then Some (if negative then - v else v)%Z else None
        | _ => None
        end
      else None
  end.

(** StrUnsignedDecimalLiteral *)
Definition readUnsignedDecimal (negative : bool) (cs : list ascii) : Num :=
  if String.eqb (string_of_list_ascii cs) "Infinity" then Infinite negative
  else
    let '(whole, nWhole, afterWhole) := readDigits 10 cs 0 0 in
    let '(digits, nFraction, afterFraction) :=
      match afterWhole with
      | c :: rest =>
          if isChar c "." "." then readDigits 10 rest whole 0
          else (whole, 0%Z, afterWhole)
      | [] => (whole, 0%Z, afterWhole)
      end in
    if (nWhole + nFraction =? 0)%Z then NaN
    else
      match readExponent afterFraction with
      | Some e => Finite negative digits (e - nFraction)
      | None => NaN
      end.

(** NonDecimalIntegerLiteral, for a text that starts like one. *)
Definition readNonDecimal (cs : list ascii) : option Num :=
  match cs with
  | z :: x :: ds =>
      let base :=
        if negb (isChar z "0" "0") then None
        else if isChar x "x" "X" then Some 16%Z
        else if isChar x "o" "O" then Some 8%Z
        else if isChar x "b" "B" then Some 2%Z
        else None in
      match base with
      | Some b =>
          match readDigits b ds 0 0 with
          | (v, count, []) => if (0 <? count)%Z then Some (Finite false v 0) else Some NaN
          | _ => Some NaN
          end
      | None => None
      end
  | _ => None
  end.

(** StringToNumber, before the rounding of the value. *)
Definition StringToNumber (s : string) : Num :=
  match trim s with
  | [] => Finite false 0 0
  | c :: rest =>
      match readNonDecimal (c :: rest) with
      | Some n => n
      | None =>
          if isChar c "-" "-" then readUnsignedDecimal true rest
          else if isChar c "+" "+" then readUnsignedDecimal false rest
          else readUnsignedDecimal false (c :: rest)
      end
  end.

(** [x > max] for the number that [x] names, once rounded, and a positive
    integer [max] below 2^52: the value must lie above the midpoint between
    [max] and the number above it. *)
Definition Num_gt (x : Num) (max : Z) : bool :=
  match x with
  | NaN => false
  | Infinite negative => negb negative
  | Finite true _ _ => false
  | Finite false digits exponent =>
      let scale := (2 ^ (53 - Z.log2 max))%Z in
      if (0 <=? exponent)%Z
      then (max * scale + 1 <? digits * 10 ^ exponent * scale)%Z
      else ((max * scale + 1) * 10 ^ (- exponent) <? digits * scale)%Z
  end.

(** [x > max] on a value: ToNumber of [x], an array by way of its text, then
    the comparison of numbers. *)
Definition Number_gt (x : JsValue) (max : Z) : bool :=
  match x with
  | JNumber n => Z.ltb max n
  | JBoolean b => Z.ltb max (if b then 1 else 0)
  | JString s => Num_gt (StringToNumber s) max
  | JArray _ => Num_gt (StringToNumber (ToString x)) max
  | JObject _ => false
  end.

(** [v.length > max]: with the length of a string or of an array, or with
    the child named [length] of an object; [undefined] is not greater. *)
Definition length_gt (v : option JsValue) (max : Z) : bool :=
  match optProp v "length" with
  | Some x => Number_gt x max
  | None => false
  end.

Definition isDigit (c : ascii) : bool :=
  (48 <=? nat_of_ascii c)%nat && (nat_of_ascii c <=? 57)%nat.

Definition isDash (c : ascii) : bool := Ascii.eqb c "-"%char.

End Js.
Import Js.

(** ** The collaborators of the server *)

Inductive ParseResult : Type :=
| Parsed (tree : JsValue)
| ParseThrows (message : string).

(** [XMLParser_parse] is [new XMLParser(...).parse], [js2xmlparser_parse] is
    [js2xmlparser.parse('army_records', _)], and [Date_isNaN s] is
    [isNaN(new Date(s).getTime())]. *)
Record Runtime : Type := {
  XMLParser_parse : string -> ParseResult;
  js2xmlparser_parse : JsValue -> string;
  Date_isNaN : string -> bool
}.

(** ** Schema validation *)

Record Verdict : Type := {
  isValid : bool;
  errors : list string;
  soldiers : list JsValue
}.

Definition push (a : list string) (x : string) : list string := (a ++ [x])%list.

(** The double-quote character, for the root-element message. *)
Definition dquote : string := String (ascii_of_nat 34) EmptyString.

Definition rootElementMessage : string :=
  "XSD VIOLATION: Root element must be " ++ dquote ++ "army_records" ++ dquote.

(** [/^\d{4}-\d{2}-\d{2}$/.test(s)] *)
Definition dateRegex_test (s : string) : bool :=
  match s with
  | String y1 (String y2 (String y3 (String y4 (String d1
      (String m1 (String m2 (String d2 (String a1 (String a2 EmptyString))))))))) =>
      isDigit y1 && isDigit y2 && isDigit y3 && isDigit y4 && isDash d1 &&
      isDigit m1 && isDigit m2 && isDash d2 && isDigit a1 && isDigit a2
  | _ => false
  end.

Definition statusEnum : list string := ["Active"; "Retired"; "Deceased"].

(** [['Active', 'Retired', 'Deceased'].includes(v)] *)
Definition statusEnum_includes (v : option JsValue) : bool :=
  match v with
  | Some (JString s) => existsb (String.eqb s) statusEnum
  | _ => false
  end.

Definition violation (soldierIndex : nat) (what : string) : string :=
  "XSD VIOLATION: Soldier " ++ Nat_toString soldierIndex ++ " - " ++ what.

Section Validator.

Variable rt : Runtime.

(** The six blocks of required-field checks, in source order, then the four
    length rules.  Each takes the error list built so far and returns it with
    what the block pushes. *)

Definition checkString (soldierIndex : nat) (label : string) (v : option JsValue)
    (validationErrors : list string) : list string :=
  if negb (truthy v) then
    push validationErrors (violation soldierIndex ("Missing required field: " ++ label))
  else if negb (String.eqb (typeof v) "string") then
    push validationErrors (violation soldierIndex (label ++ " must be a string"))
  else validationErrors.

(** [new Date(v)] parses the text of [v]: of the values that pass the
    expression, a text is parsed as it is and an array is first converted to
    its text. *)
Definition checkServiceDate (soldierIndex : nat) (v : option JsValue)
    (validationErrors : list string) : list string :=
  if negb (truthy v) then
    push validationErrors (violation soldierIndex "Missing required field: Service Date")
  else if negb (dateRegex_test (ToStringOpt v)) then
    push validationErrors (violation soldierIndex "Service Date must be in YYYY-MM-DD format")
  else if Date_isNaN rt (ToStringOpt v) then
    push validationErrors (violation soldierIndex ("Invalid date: " ++ ToStringOpt v))
  else validationErrors.

Definition checkStatus (soldierIndex : nat) (v : option JsValue)
    (validationErrors : list string) : list string :=
  if negb (truthy v) then
    push validationErrors (violation soldierIndex "Missing required field: Status")
  else if negb (statusEnum_includes v) then
    push validationErrors
      (violation soldierIndex
         ("Status must be one of: Active, Retired, Deceased (got: " ++ ToStringOpt v ++ ")"))
  else validationErrors.

Definition checkLength (soldierIndex : nat) (label : string) (max : Z) (v : option JsValue)
    (validationErrors : list string) : list string :=
  if truthy v && length_gt v max then
    push validationErrors
      (violation soldierIndex
         (label ++ " length exceeds maximum (" ++ Z_toString max ++ " characters)"))
  else validationErrors.

(** The body of [soldiers.forEach((soldier, index) => ...)]. *)
Definition checkSoldier (index : nat) (soldier : JsValue)
    (validationErrors : list string) : list string :=
  let soldierIndex := index + 1 in
  let validationErrors := checkString soldierIndex "ID" (prop soldier "id") validationErrors in
  let validationErrors := checkString soldierIndex "Name" (prop soldier "name") validationErrors in
  let validationErrors := checkString soldierIndex "Rank" (prop soldier "rank") validationErrors in
  let validationErrors := checkString soldierIndex "Unit" (prop soldier "unit") validationErrors in
  let validationErrors := checkServiceDate soldierIndex (prop soldier "service_date") validationErrors in
  let validationErrors := checkStatus soldierIndex (prop soldier "status") validationErrors in
  let validationErrors := checkLength soldierIndex "ID" 50 (prop soldier "id") validationErrors in
  let validationErrors := checkLength soldierIndex "Name" 100 (prop soldier "name") validationErrors in
  let validationErrors := checkLength soldierIndex "Rank" 50 (prop soldier "rank") validationErrors in
  let validationErrors := checkLength soldierIndex "Unit" 100 (prop soldier "unit") validationErrors in
  validationErrors.

Fixpoint forEachSoldier (index : nat) (soldiers : list JsValue)
    (validationErrors : list string) : list string :=
  match soldiers with
  | [] => validationErrors
  | soldier :: rest =>
      forEachSoldier (S index) rest (checkSoldier index soldier validationErrors)
  end.

(** [Array.isArray(x) ? x : x ? [x] : []] on [xmlData.army_records?.soldier] *)
Definition coerceSoldiers (soldier : option JsValue) : list JsValue :=
  match soldier with
  | Some (JArray xs) => xs
  | Some v => if truthy soldier then [v] else []
  | None => []
  end.

Definition validateAgainstXSD (xmlData : JsValue) : Verdict :=
  let validationErrors : list string := [] in
  let soldiers := coerceSoldiers (optProp (prop xmlData "army_records") "soldier") in
  if negb (truthy (prop xmlData "army_records")) then
    {| isValid := false;
       errors := push validationErrors rootElementMessage;
       soldiers := [] |}
  else if (List.length soldiers =? 0)%nat then
    {| isValid := false;
       errors := push validationErrors "XSD VIOLATION: At least one soldier record is required";
       soldiers := [] |}
  else
    let validationErrors := forEachSoldier 0 soldiers validationErrors in
    {| isValid := (List.length validationErrors =? 0)%nat;
       errors := validationErrors;
       soldiers := soldiers |}.

Definition validateXML (xmlContent : string) : Verdict :=
  match XMLParser_parse rt xmlContent with
  | Parsed result => validateAgainstXSD result
  | ParseThrows message =>
      {| isValid := false;
         errors := ["XML PARSE ERROR: " ++ message];
         soldiers := [] |}
  end.

End Validator.

(** ** Worksheets *)

(** A cell holds a value or nothing ([null]); a row is its cells in column
    order; a worksheet is its rows, row 1 first.  A worksheet written to a
    file and read again is taken to hold the same cells. *)
Definition Cell : Type := option JsValue.
Definition Row : Type := list Cell.
Definition Worksheet : Type := list Row.

Definition text (s : string) : Cell := Some (JString s).

Definition headerRow : Row :=
  [text "ID"; text "Name"; text "Rank"; text "Unit"; text "Service Date";
   text "Status"; text "Schema Violations"].

(** The predicate of [validationErrors.filter(...)] for the row of [index]. *)
Definition errorMatchesRow (index : nat) (error : string) : bool :=
  includes error ("Soldier " ++ Nat_toString (index + 1)) ||
  (includes error "Root element" && (index =? 0)%nat) ||
  (includes error "At least one soldier" && (index =? 0)%nat).

Definition remarksFor (index : nat) (validationErrors : list string) : string :=
  let soldierErrors := List.filter (errorMatchesRow index) validationErrors in
  if (0 <? List.length soldierErrors)%nat
  then String.concat "; " soldierErrors
  else "General validation error".

(** The row [worksheet.addRow({...})] adds for one record. *)
Definition recordRow (index : nat) (record : JsValue) (validationErrors : list string) : Row :=
  [Some (orElse (prop record "id") (JString ""));
   Some (orElse (prop record "name") (JString ""));
   Some (orElse (prop record "rank") (JString ""));
   Some (orElse (prop record "unit") (JString ""));
   Some (orElse (prop record "service_date") (JString ""));
   Some (orElse (prop record "status") (JString ""));
   text (remarksFor index validationErrors)].

Fixpoint recordRows (index : nat) (invalidRecords : list JsValue)
    (validationErrors : list string) : list Row :=
  match invalidRecords with
  | [] => []
  | record :: rest =>
      recordRow index record validationErrors :: recordRows (S index) rest validationErrors
  end.

Definition summaryRow (remark : string) : Row :=
  [text ""; text ""; text ""; text ""; text ""; text ""; text remark].

Definition summaryBlock (validationErrors : list string) : list Row :=
  if (0 <? List.length validationErrors)%nat
  then [] :: summaryRow "ALL SCHEMA VIOLATIONS:" :: List.map summaryRow validationErrors
  else [].

(** The worksheet [createInvalidExcel] builds before it writes the file. *)
Definition createInvalidExcel_sheet (invalidRecords : list JsValue)
    (validationErrors : list string) : Worksheet :=
  (headerRow :: recordRows 0 invalidRecords validationErrors
   ++ summaryBlock validationErrors)%list.

Definition excelName (filename : string) : string := filename ++ "_schema_errors.xlsx".

(** [row.getCell(n)], columns counted from 1; a column past the last cell of
    the row is an empty cell. *)
Definition getCell (row : Row) (n : nat) : Cell := List.nth (n - 1) row None.

(** [cell.value?.toString() || ''] *)
Definition cellText (c : Cell) : string :=
  match c with
  | Some v => if String.eqb (ToString v) "" then "" else ToString v
  | None => ""
  end.

Definition rowRecord (row : Row) : JsValue :=
  JObject
    [("id", JString (cellText (getCell row 1)));
     ("name", JString (cellText (getCell row 2)));
     ("rank", JString (cellText (getCell row 3)));
     ("unit", JString (cellText (getCell row 4)));
     ("service_date", JString (cellText (getCell row 5)));
     ("status", JString (cellText (getCell row 6)))].

(** [row.hasValues]: [eachRow] visits only rows with a non-null cell. *)
Definition hasValues (row : Row) : bool :=
  existsb (fun c : Cell => match c with Some _ => true | None => false end) row.

(** [worksheet.eachRow((row, rowNumber) => ...)] of [parseExcelToXML]:
    [records] is the array built so far. *)
Fixpoint eachRow (rowNumber : nat) (rows : list Row) (records : list JsValue) : list JsValue :=
  match rows with
  | [] => records
  | row :: rest =>
      let records :=
        if hasValues row && (1 <? rowNumber)%nat then
          let record := rowRecord row in
          if truthy (prop record "id") && truthy (prop record "name")
          then (records ++ [record])%list
          else records
        else records in
      eachRow (S rowNumber) rest records
  end.

Definition parseExcel_records (worksheet : Worksheet) : list JsValue :=
  eachRow 1 worksheet [].

(** The object [parseExcelToXML] hands to the XML writer. *)
Definition parseExcel_xmlData (worksheet : Worksheet) : JsValue :=
  JObject [("army_records", JObject [("soldier", JArray (parseExcel_records worksheet))])].

(** ** The document store and the ledger *)

Module Soldier.

(** The six paths of [soldierSchema].  [service_date] keeps the text the
    [Date] was built from. *)
Record Fields : Type := {
  id : string;
  name : string;
  rank : string;
  unit : string;
  service_date : string;
  status : string
}.

Record Doc : Type := {
  fields : Fields;
  created_at : nat;
  updated_at : nat
}.

End Soldier.

Record ProcessingLog : Type := {
  log_filename : string;
  log_status : string;
  valid_count : nat;
  invalid_count : nat;
  log_errors : list string;
  processed_at : nat
}.

(** What a request can see and change: the two collections, the holding
    areas, the generated spreadsheets, the error console and the clock.
    [now] is what [new Date()] and the schema default [Date.now] read during
    the request. *)
Record World : Type := {
  soldiersDb : list Soldier.Doc;
  logsDb : list ProcessingLog;
  uploadsDir : list string;
  correctedDir : list string;
  invalidDir : list string;
  excelExports : list (string * Worksheet);
  console : list string;
  now : nat
}.

(** Which external operations throw during a request.  [storeFails k] is a
    fault of [findOne] or [save] for the [k]-th candidate of the batch (from
    0); a failed operation leaves the collection as it was. *)
Record Faults : Type := {
  readFileFails : bool;
  writeFileFails : bool;
  moveFails : bool;
  logCreateFails : bool;
  storeFails : nat -> bool
}.

(** ** Requests as computations on the world *)

Inductive Outcome (A : Type) : Type :=
| Returned (a : A)
| Thrown (error : string).

Arguments Returned {A} a.
Arguments Thrown {A} error.

(** An [async] function: it changes the world and returns or throws.  What it
    changed before it threw stays changed. *)
Definition IO (A : Type) : Type := World -> Outcome A * World.

Definition ret {A : Type} (a : A) : IO A := fun w => (Returned a, w).

Definition throw {A : Type} (error : string) : IO A := fun w => (Thrown error, w).

Definition bind {A B : Type} (m : IO A) (k : A -> IO B) : IO B :=
  fun w =>
    match m w with
    | (Returned a, w') => k a w'
    | (Thrown e, w') => (Thrown e, w')
    end.

Definition tryCatch {A : Type} (m : IO A) (handler : string -> IO A) : IO A :=
  fun w =>
    match m w with
    | (Returned a, w') => (Returned a, w')
    | (Thrown e, w') => handler e w'
    end.

Declare Scope io_scope.
Delimit Scope io_scope with io.
Notation "x <- m ;; k" := (bind m (fun x => k))
  (at level 61, m at next level, right associativity) : io_scope.
Notation "m ;;; k" := (bind m (fun _ => k))
  (at level 61, right associativity) : io_scope.

Definition getWorld : IO World := fun w => (Returned w, w).

Definition console_error (line : string) : IO unit :=
  fun w =>
    (Returned tt,
     {| soldiersDb := soldiersDb w; logsDb := logsDb w; uploadsDir := uploadsDir w;
        correctedDir := correctedDir w; invalidDir := invalidDir w;
        excelExports := excelExports w; console := (console w ++ [line])%list;
        now := now w |}).

Definition setSoldiersDb (db : list Soldier.Doc) : IO unit :=
  fun w =>
    (Returned tt,
     {| soldiersDb := db; logsDb := logsDb w; uploadsDir := uploadsDir w;
        correctedDir := correctedDir w; invalidDir := invalidDir w;
        excelExports := excelExports w; console := console w; now := now w |}).

Definition removeName (n : string) (l : list string) : list string :=
  List.filter (fun x => negb (String.eqb x n)) l.

Inductive HoldingArea : Type := Corrected | Invalid.

(** The file of a request, as the upload middleware stores it. *)
Record UploadedFile (A : Type) : Type := {
  filename : string;
  originalname : string;
  content : A
}.

Arguments filename {A} _.
Arguments originalname {A} _.
Arguments content {A} _.

Inductive Response : Type :=
| NoFileUploaded
| Success (message file status : string) (valid invalid : nat)
| ValidationFailed (message file status : string) (counts : option (nat * nat))
    (errs : list string) (excel_file : string)
| InternalServerError.


Section Server.

Variable rt : Runtime.
Variable faults : Faults.

Open Scope io_scope.

(** [fs.move(filePath, path.join(__dirname, area, filename))] from uploads. *)
Definition fs_move (filename : string) (area : HoldingArea) : IO unit :=
  if moveFails faults then throw "fs.move failed" else
  fun w =>
    (Returned tt,
     {| soldiersDb := soldiersDb w; logsDb := logsDb w;
        uploadsDir := removeName filename (uploadsDir w);
        correctedDir :=
          match area with
          | Corrected => (correctedDir w ++ [filename])%list
          | Invalid => correctedDir w
          end;
        invalidDir :=
          match area with
          | Corrected => invalidDir w
          | Invalid => (invalidDir w ++ [filename])%list
          end;
        excelExports := excelExports w; console := console w; now := now w |}).

(** [workbook.xlsx.writeFile(excelPath)] into [excel_exports]. *)
Definition xlsx_writeFile (excelFile : string) (worksheet : Worksheet) : IO unit :=
  if writeFileFails faults then throw "writeFile failed" else
  fun w =>
    (Returned tt,
     {| soldiersDb := soldiersDb w; logsDb := logsDb w; uploadsDir := uploadsDir w;
        correctedDir := correctedDir w; invalidDir := invalidDir w;
        excelExports := (excelExports w ++ [(excelFile, worksheet)])%list;
        console := console w; now := now w |}).

(** [ProcessingLog.create({...})]; [processed_at] defaults to the clock. *)
Definition ProcessingLog_create (filename status : string) (valid invalid : nat)
    (errs : list string) : IO unit :=
  if logCreateFails faults then throw "ProcessingLog.create failed" else
  fun w =>
    (Returned tt,
     {| soldiersDb := soldiersDb w;
        logsDb := (logsDb w ++
                   [{| log_filename := filename; log_status := status;
                       valid_count := valid; invalid_count := invalid;
                       log_errors := errs; processed_at := now w |}])%list;
        uploadsDir := uploadsDir w; correctedDir := correctedDir w;
        invalidDir := invalidDir w; excelExports := excelExports w;
        console := console w; now := now w |}).

Definition createInvalidExcel (invalidRecords : list JsValue) (filename : string)
    (validationErrors : list string) : IO string :=
  let worksheet := createInvalidExcel_sheet invalidRecords validationErrors in
  let excelPath := excelName filename in
  xlsx_writeFile excelPath worksheet ;;;
  ret excelPath.

(** [parseExcelToXML]: [None] is a file that is no workbook or has no first
    worksheet, for which reading throws. *)
Definition parseExcelToXML (file : option Worksheet) : IO string :=
  if readFileFails faults then throw "readFile failed" else
  match file with
  | None => throw "cannot read worksheet"
  | Some worksheet => ret (js2xmlparser_parse rt (parseExcel_xmlData worksheet))
  end.

(** *** Schema casting of the store *)

(** Casting to the schema type [String]: text, numbers and booleans have a
    text form, arrays and nested elements are a cast error. *)
Definition castString (v : JsValue) : option string :=
  match v with
  | JString s => Some s
  | JNumber _ => Some (ToString v)
  | JBoolean _ => Some (ToString v)
  | JArray _ => None
  | JObject _ => None
  end.

(** A [String] path after [Object.assign]/construction from the candidate:
    a property the candidate has replaces the old value, a property it lacks
    leaves it.  [required] rejects a missing or empty value. *)
Definition assignString (old : option string) (v : option JsValue) : option string :=
  match v with
  | Some x => castString x
  | None => old
  end.

Definition assignDate (old : option string) (v : option JsValue) : option string :=
  match v with
  | Some x => if Date_isNaN rt (ToString x) then None else Some (ToString x)
  | None => old
  end.

Definition required (s : option string) : option string :=
  match s with
  | Some t => if String.eqb t "" then None else Some t
  | None => None
  end.

Definition inEnum (s : option string) : option string :=
  match s with
  | Some t => if existsb (String.eqb t) statusEnum then Some t else None
  | None => None
  end.

(** The document's six paths after the candidate's properties are assigned
    over [old] ([None] for a new document), or [None] when validation on
    [save()] fails.  The schema has two more paths, [created_at] and
    [updated_at]: a candidate with children of these names assigns them as
    well, and the time stamps of [saveSoldier] are those of a candidate
    without such children.  Other properties of a candidate are not stored;
    one that makes the document unusable, as a child named [save] does,
    makes the store operation fail, which is a fault of [storeFails]. *)
Definition castDoc (old : option Soldier.Fields) (soldier : JsValue) : option Soldier.Fields :=
  match required (assignString (option_map Soldier.id old) (prop soldier "id")),
        required (assignString (option_map Soldier.name old) (prop soldier "name")),
        required (assignString (option_map Soldier.rank old) (prop soldier "rank")),
        required (assignString (option_map Soldier.unit old) (prop soldier "unit")),
        required (assignDate (option_map Soldier.service_date old) (prop soldier "service_date")),
        inEnum (required (assignString (option_map Soldier.status old) (prop soldier "status")))
  with
  | Some i, Some n, Some r, Some u, Some d, Some s =>
      Some {| Soldier.id := i; Soldier.name := n; Soldier.rank := r;
              Soldier.unit := u; Soldier.service_date := d; Soldier.status := s |}
  | _, _, _, _, _, _ => None
  end.

(** Position and document of the first stored record with this identifier. *)
Fixpoint findIndex (key : string) (db : list Soldier.Doc) : option nat :=
  match db with
  | [] => None
  | d :: rest =>
      if String.eqb (Soldier.id (Soldier.fields d)) key then Some 0
      else option_map S (findIndex key rest)
  end.

Fixpoint replaceAt (i : nat) (d : Soldier.Doc) (db : list Soldier.Doc) : list Soldier.Doc :=
  match db, i with
  | [], _ => []
  | _ :: rest, O => d :: rest
  | x :: rest, S j => x :: replaceAt j d rest
  end.

(** [Soldier.findOne({ id: soldier.id })] for candidate [k]: the position of
    the match, if any. *)
Definition Soldier_findOne (k : nat) (key : option JsValue) : IO (option nat) :=
  if storeFails faults k then throw "store operation failed" else
  match key with
  | None => ret None
  | Some v =>
      match castString v with
      | None => throw "CastError"
      | Some s => w <- getWorld ;; ret (findIndex s (soldiersDb w))
      end
  end.

(** The [try] block of the loop of [saveToMongoDB] for candidate [k]. *)
Definition saveSoldier (k : nat) (soldier : JsValue) : IO Soldier.Doc :=
  existingSoldier <- Soldier_findOne k (prop soldier "id") ;;
  w <- getWorld ;;
  match existingSoldier with
  | Some i =>
      match List.nth_error (soldiersDb w) i with
      | None => throw "document vanished"
      | Some existing =>
          match castDoc (Some (Soldier.fields existing)) soldier with
          | None => throw "ValidationError"
          | Some f =>
              let updated :=
                {| Soldier.fields := f;
                   Soldier.created_at := Soldier.created_at existing;
                   Soldier.updated_at := now w |} in
              setSoldiersDb (replaceAt i updated (soldiersDb w)) ;;;
              ret updated
          end
      end
  | None =>
      match castDoc None soldier with
      | None => throw "ValidationError"
      | Some f =>
          let newSoldier :=
            {| Soldier.fields := f;
               Soldier.created_at := now w;
               Soldier.updated_at := now w |} in
          setSoldiersDb (soldiersDb w ++ [newSoldier])%list ;;;
          ret newSoldier
      end
  end.

Definition savingError (soldier : JsValue) : string :=
  "Error saving soldier " ++ ToStringOpt (prop soldier "id") ++ ":".

(** The [for (const soldier of soldiers)] loop, from candidate [k] on. *)
Fixpoint saveLoop (k : nat) (soldiers : list JsValue) (savedRecords : list Soldier.Doc)
    : IO (list Soldier.Doc) :=
  match soldiers with
  | [] => ret savedRecords
  | soldier :: rest =>
      savedRecords <-
        tryCatch
          (saved <- saveSoldier k soldier ;; ret (savedRecords ++ [saved])%list)
          (fun error => console_error (savingError soldier) ;;; ret savedRecords) ;;
      saveLoop (S k) rest savedRecords
  end.

(** [saveToMongoDB]; both routes pass it the array [validation.soldiers]. *)
Definition saveToMongoDB (validRecords : list JsValue) : IO (list Soldier.Doc) :=
  saveLoop 0 validRecords [].

(** *** The two routes *)

Definition fs_readFile (file : UploadedFile string) : IO string :=
  if readFileFails faults then throw "readFile failed" else ret (content file).

(** [app.post('/api/upload-xml', ...)] *)
Definition upload_xml (req_file : option (UploadedFile string)) : IO Response :=
  tryCatch
    (match req_file with
     | None => ret NoFileUploaded
     | Some file =>
         xmlContent <- fs_readFile file ;;
         let validation := validateXML rt xmlContent in
         if isValid validation then
           savedRecords <- saveToMongoDB (soldiers validation) ;;
           fs_move (filename file) Corrected ;;;
           ProcessingLog_create (originalname file) "corrected"
             (List.length savedRecords) 0 [] ;;;
           ret (Success "File validated against XSD schema successfully"
                  (filename file) "corrected" (List.length savedRecords) 0)
         else
           excelPath <- createInvalidExcel (soldiers validation) (filename file)
                          (errors validation) ;;
           fs_move (filename file) Invalid ;;;
           ProcessingLog_create (originalname file) "invalid"
             0 (List.length (soldiers validation)) (errors validation) ;;;
           ret (ValidationFailed "XSD Schema validation failed"
                  (filename file) "invalid"
                  (Some (0, List.length (soldiers validation)))
                  (errors validation) excelPath)
     end)
    (fun error => console_error "Upload error:" ;;; ret InternalServerError).

(** [app.post('/api/reupload-corrected', ...)] *)
Definition reupload_corrected (req_file : option (UploadedFile (option Worksheet)))
    : IO Response :=
  tryCatch
    (match req_file with
     | None => ret NoFileUploaded
     | Some file =>
         xmlContent <- parseExcelToXML (content file) ;;
         let validation := validateXML rt xmlContent in
         if isValid validation then
           savedRecords <- saveToMongoDB (soldiers validation) ;;
           fs_move (filename file) Corrected ;;;
           ProcessingLog_create (originalname file) "corrected"
             (List.length savedRecords) 0 [] ;;;
           ret (Success "Corrected file validated against XSD schema successfully"
                  (filename file) "corrected" (List.length savedRecords) 0)
         else
           excelPath <- createInvalidExcel (soldiers validation) (filename file)
                          (errors validation) ;;
           fs_move (filename file) Invalid ;;;
           ret (ValidationFailed "Corrected file still has XSD schema violations"
                  (filename file) "invalid" None
                  (errors validation) excelPath)
     end)
    (fun error => console_error "Re-upload error:" ;;; ret InternalServerError).

End Server.

(** ** Vocabulary of the properties *)

(** What one candidate contributes to the error list: the ten blocks of
    [checkSoldier], each started from the empty list. *)
Definition soldierViolations (rt : Runtime) (index : nat) (soldier : JsValue) : list string :=
  let soldierIndex := index + 1 in
  (checkString soldierIndex "ID" (prop soldier "id") [] ++
   checkString soldierIndex "Name" (prop soldier "name") [] ++
   checkString soldierIndex "Rank" (prop soldier "rank") [] ++
   checkString soldierIndex "Unit" (prop soldier "unit") [] ++
   checkServiceDate rt soldierIndex (prop soldier "service_date") [] ++
   checkStatus soldierIndex (prop soldier "status") [] ++
   checkLength soldierIndex "ID" 50 (prop soldier "id") [] ++
   checkLength soldierIndex "Name" 100 (prop soldier "name") [] ++
   checkLength soldierIndex "Rank" 50 (prop soldier "rank") [] ++
   checkLength soldierIndex "Unit" 100 (prop soldier "unit") [])%list.

Fixpoint violationsFrom (rt : Runtime) (index : nat) (soldiers : list JsValue) : list string :=
  match soldiers with
  | [] => []
  | soldier :: rest =>
      (soldierViolations rt index soldier ++ violationsFrom rt (S index) rest)%list
  end.

(** The candidates [validateAgainstXSD] extracts from a tree. *)
Definition candidates (xmlData : JsValue) : list JsValue :=
  coerceSoldiers (optProp (prop xmlData "army_records") "soldier").

Inductive Field : Type := FId | FName | FRank | FUnit | FServiceDate | FStatus.

Definition fieldKey (f : Field) : string :=
  match f with
  | FId => "id" | FName => "name" | FRank => "rank" | FUnit => "unit"
  | FServiceDate => "service_date" | FStatus => "status"
  end.

Definition fieldLabel (f : Field) : string :=
  match f with
  | FId => "ID" | FName => "Name" | FRank => "Rank" | FUnit => "Unit"
  | FServiceDate => "Service Date" | FStatus => "Status"
  end.

Definition Field_eqb (f g : Field) : bool :=
  match f, g with
  | FId, FId | FName, FName | FRank, FRank | FUnit, FUnit
  | FServiceDate, FServiceDate | FStatus, FStatus => true
  | _, _ => false
  end.

Definition allFields : list Field := [FId; FName; FRank; FUnit; FServiceDate; FStatus].

(** A present text within its length ceiling. *)
Definition validText (max : Z) (v : option JsValue) : bool :=
  match v with
  | Some (JString s) => negb (String.eqb s "") && (Z.of_nat (String.length s) <=? max)%Z
  | _ => false
  end.

(** The rule of the data model for one field of a record. *)
Definition fieldValid (rt : Runtime) (f : Field) (soldier : JsValue) : bool :=
  let v := prop soldier (fieldKey f) in
  match f with
  | FId => validText 50 v
  | FName => validText 100 v
  | FRank => validText 50 v
  | FUnit => validText 100 v
  | FServiceDate =>
      truthy v && dateRegex_test (ToStringOpt v) && negb (Date_isNaN rt (ToStringOpt v))
  | FStatus => statusEnum_includes v
  end.

Definition othersValid (rt : Runtime) (f : Field) (soldier : JsValue) : bool :=
  forallb (fun g => Field_eqb g f || fieldValid rt g soldier) allFields.

(** Violations of the other candidates that the filter of row [k] lets
    through. *)
Fixpoint crossMatches (rt : Runtime) (k index : nat) (soldiers : list JsValue) : list string :=
  match soldiers with
  | [] => []
  | soldier :: rest =>
      ((if (index =? k)%nat then []
        else List.filter (errorMatchesRow k) (soldierViolations rt index soldier))
       ++ crossMatches rt k (S index) rest)%list
  end.

(** A text that contains none of the three texts the row filter looks for. *)
Definition plainText (t : string) : bool :=
  negb (includes t "Soldier") && negb (includes t "Root element") &&
  negb (includes t "At least one soldier").

(** A candidate whose status, as echoed in a violation, is plain. *)
Definition plainStatus (soldier : JsValue) : bool :=
  plainText (ToStringOpt (prop soldier "status")).

(** [c] occurs in [s]. *)
Fixpoint occurs (c : ascii) (s : string) : bool :=
  match s with
  | EmptyString => false
  | String a rest => Ascii.eqb c a || occurs c rest
  end.

(** The six texts of a candidate, as the store keeps them. *)
Definition candidateFields (soldier : JsValue) : Soldier.Fields :=
  {| Soldier.id := ToStringOpt (prop soldier "id");
     Soldier.name := ToStringOpt (prop soldier "name");
     Soldier.rank := ToStringOpt (prop soldier "rank");
     Soldier.unit := ToStringOpt (prop soldier "unit");
     Soldier.service_date := ToStringOpt (prop soldier "service_date");
     Soldier.status := ToStringOpt (prop soldier "status") |}.

(** Two worlds that differ at most in the soldier collection. *)
Definition sameOutsideStore (w w' : World) : Prop :=
  logsDb w' = logsDb w /\ uploadsDir w' = uploadsDir w /\
  correctedDir w' = correctedDir w /\ invalidDir w' = invalidDir w /\
  excelExports w' = excelExports w /\ console w' = console w /\ now w' = now w.

(** The outcome of the loop of [saveToMongoDB] for one candidate is the saved
    document or nothing.  [stored] lists the saved documents, and
    [loggedFailures] the console lines of the candidates without one. *)
Definition stored (outcomes : list (option Soldier.Doc)) : list Soldier.Doc :=
  List.flat_map (fun o => match o with Some d => [d] | None => [] end) outcomes.

Definition loggedFailures (soldiers : list JsValue) (outcomes : list (option Soldier.Doc))
    : list string :=
  List.flat_map
    (fun p : JsValue * option Soldier.Doc =>
       match snd p with
       | None => [savingError (fst p)]
       | Some _ => []
       end)
    (List.combine soldiers outcomes).

(** The record read back from the row written for [record]. *)
Definition reread (record : JsValue) : JsValue := rowRecord (recordRow 0 record []).

(** ** A concrete runtime *)

Definition digitValue (c : ascii) : nat := nat_of_ascii c - 48.

(** [isNaN(new Date(s).getTime())] in Node.js for a text of the shape
    YYYY-MM-DD: the month must lie in 01..12 and the day in 01..31.  Texts
    of another shape are outside this model and count as not parsable. *)
Definition V8_Date_isNaN (s : string) : bool :=
  match s with
  | String _ (String _ (String _ (String _ (String _
      (String m1 (String m2 (String _ (String a1 (String a2 EmptyString))))))))) =>
      if dateRegex_test s then
        let month := 10 * digitValue m1 + digitValue m2 in
        let day := 10 * digitValue a1 + digitValue a2 in
        negb ((1 <=? month)%nat && (month <=? 12)%nat && (1 <=? day)%nat && (day <=? 31)%nat)
      else true
  | _ => true
  end.

(** A runtime with the [Date] of Node.js, for a given XML reader and writer. *)
Definition nodeRuntime (reader : string -> ParseResult) (writer : JsValue -> string) : Runtime :=
  {| XMLParser_parse := reader; js2xmlparser_parse := writer; Date_isNaN := V8_Date_isNaN |}.

Definition mkSoldier (i n r u d s : string) : JsValue :=
  JObject [("id", JString i); ("name", JString n); ("rank", JString r);
           ("unit", JString u); ("service_date", JString d); ("status", JString s)].

Definition mkBatch (records : list JsValue) : JsValue :=
  JObject [("army_records", JObject [("soldier", JArray records)])].

Definition smith : JsValue :=
  mkSoldier "A-001" "John Smith" "Sergeant" "Alpha Company" "2020-01-15" "Active".

Definition jones : JsValue :=
  mkSoldier "A-002" "Mary Jones" "Captain" "Bravo Company" "2019-06-30" "Retired".

(** Jones with a status outside the enumeration. *)
Definition jonesMissing : JsValue :=
  mkSoldier "A-002" "Mary Jones" "Captain" "Bravo Company" "2019-06-30" "Missing in Action".

(** Smith with month 13. *)
Definition smithMonth13 : JsValue :=
  mkSoldier "A-001" "John Smith" "Sergeant" "Alpha Company" "2021-13-01" "Active".

(** Smith with day 30 of February. *)
Definition smithFebruary30 : JsValue :=
  mkSoldier "A-001" "John Smith" "Sergeant" "Alpha Company" "2021-02-30" "Active".

(** Smith without a rank. *)
Definition smithNoRank : JsValue :=
  JObject [("id", JString "A-001"); ("name", JString "John Smith");
           ("unit", JString "Alpha Company"); ("service_date", JString "2020-01-15");
           ("status", JString "Active")].

(** Smith promoted. *)
Definition smithPromoted : JsValue :=
  mkSoldier "A-001" "John Smith" "Lieutenant" "Alpha Company" "2020-01-15" "Active".

(** Nine times Smith, then Smith without a rank as the tenth record. *)
Definition tenRecords : list JsValue := (List.repeat smith 9 ++ [smithNoRank])%list.

(** A reader that delivers [tree] for every text, and a writer that writes
    the same text for every object. *)
Definition fixedRuntime (tree : JsValue) : Runtime :=
  nodeRuntime (fun _ => Parsed tree) (fun _ => "<army_records/>").

Definition noFaults : Faults :=
  {| readFileFails := false; writeFileFails := false; moveFails := false;
     logCreateFails := false; storeFails := fun _ => false |}.

(** Only the store operation for candidate [k] fails. *)
Definition storeFaultAt (k : nat) : Faults :=
  {| readFileFails := false; writeFileFails := false; moveFails := false;
     logCreateFails := false; storeFails := fun j => (j =? k)%nat |}.

Definition emptyWorld : World :=
  {| soldiersDb := []; logsDb := []; uploadsDir := ["upload-1"]; correctedDir := [];
     invalidDir := []; excelExports := []; console := []; now := 100 |}.

Definition smithDoc : Soldier.Doc :=
  {| Soldier.fields :=
       {| Soldier.id := "A-001"; Soldier.name := "John Smith"; Soldier.rank := "Sergeant";
          Soldier.unit := "Alpha Company"; Soldier.service_date := "2020-01-15";
          Soldier.status := "Active" |};
     Soldier.created_at := 7; Soldier.updated_at := 7 |}.

Definition worldWithSmith : World :=
  {| soldiersDb := [smithDoc]; logsDb := []; uploadsDir := ["upload-1"]; correctedDir := [];
     invalidDir := []; excelExports := []; console := []; now := 100 |}.

Definition xmlUpload : UploadedFile string :=
  {| filename := "upload-1"; originalname := "records.xml"; content := "<army_records>...</army_records>" |}.

Definition excelUpload (sheet : Worksheet) : UploadedFile (option Worksheet) :=
  {| filename := "upload-1"; originalname := "records.xlsx"; content := Some sheet |}.

(** A data row of a spreadsheet with the six columns. *)
Definition sheetRow (i n r u d s : string) : Row :=
  [text i; text n; text r; text u; text d; text s].

(** A row with an identifier and an empty name cell. *)
Definition rowWithoutName : Row :=
  sheetRow "A-003" "" "Major" "Charlie Company" "2018-03-01" "Active".

(** The runtime of the examples: Node.js dates, and a reader that is not
    consulted when the validator is given a tree. *)
Definition sampleRuntime : Runtime := fixedRuntime (mkBatch []).

(** ** The other routes *)

(** *** Download of an annotated spreadsheet *)

(** The file of [excel_exports] under a name: the one written last. *)
Fixpoint findExport (name : string) (exports : list (string * Worksheet)) : option Worksheet :=
  match exports with
  | [] => None
  | (n, sheet) :: rest =>
      match findExport name rest with
      | Some later => Some later
      | None => if String.eqb n name then Some sheet else None
      end
  end.

Inductive DownloadResponse : Type :=
| Download (sheet : Worksheet)
| FileNotFound.

(** [app.get('/api/download-invalid/:filename', ...)] for the plain name of a
    file, without a path in it. *)
Definition download_invalid (name : string) (w : World) : DownloadResponse :=
  match findExport name (excelExports w) with
  | Some sheet => Download sheet
  | None => FileNotFound
  end.

(** *** Listings *)

(** [sort({ key: -1 })]: greatest key first; documents with equal keys keep
    the order of the collection. *)
Fixpoint insertDesc {A : Type} (key : A -> nat) (x : A) (l : list A) : list A :=
  match l with
  | [] => [x]
  | y :: rest =>
      if (key y <=? key x)%nat then x :: y :: rest else y :: insertDesc key x rest
  end.

Fixpoint sortDesc {A : Type} (key : A -> nat) (l : list A) : list A :=
  match l with
  | [] => []
  | x :: rest => insertDesc key x (sortDesc key rest)
  end.

(** A list in the order of such a sort. *)
Definition descending {A : Type} (key : A -> nat) (l : list A) : Prop :=
  StronglySorted (fun a b => (key b <= key a)%nat) l.

Inductive LogsResponse : Type :=
| LogsList (logs : list ProcessingLog)
| LogsError.

(** [app.get('/api/logs', ...)]: [findFails] is a fault of the query. *)
Definition logs_route (findFails : bool) (w : World) : LogsResponse :=
  if findFails then LogsError
  else LogsList (firstn 50 (sortDesc processed_at (logsDb w))).

(** The query string of [/api/soldiers], [page] and [limit] given as
    non-negative numbers or left out. *)
Record SoldiersQuery : Type := {
  q_page : option nat;
  q_limit : option nat;
  q_status : option string;
  q_unit : option string
}.

(** [if (x) query.x = ...]: a parameter that is given and not empty. *)
Definition givenText (p : option string) : option string :=
  match p with
  | Some s => if String.eqb s "" then None else Some s
  | None => None
  end.

(** The documents of [Soldier.find(query)]: [unitTest] is the compiled
    [{ $regex: unit, $options: 'i' }]. *)
Definition matchesQuery (statusFilter : option string) (unitTest : option (string -> bool))
    (d : Soldier.Doc) : bool :=
  match statusFilter with
  | Some s => String.eqb (Soldier.status (Soldier.fields d)) s
  | None => true
  end &&
  match unitTest with
  | Some test => test (Soldier.unit (Soldier.fields d))
  | None => true
  end.

(** [Math.ceil(total / limit)] for a positive [limit]. *)
Definition ceilDiv (total limit : nat) : nat := (total + limit - 1) / limit.

Inductive SoldiersResponse : Type :=
| SoldiersPage (page : list Soldier.Doc) (totalPages : option nat) (currentPage : nat)
    (total : nat)
| SoldiersError.

(** [page = 1] and [limit = 10] when the query leaves them out. *)
Definition queryPage (q : SoldiersQuery) : nat :=
  match q_page q with Some p => p | None => 1 end.

Definition queryLimit (q : SoldiersQuery) : nat :=
  match q_limit q with Some l => l | None => 10 end.

(** The test of [query].  [regex pattern] compiles the unit pattern, [None]
    for a pattern the store refuses. *)
Definition queryFilter (regex : string -> option (string -> bool)) (q : SoldiersQuery)
    : option (Soldier.Doc -> bool) :=
  match givenText (q_unit q) with
  | Some pattern =>
      match regex pattern with
      | Some test => Some (matchesQuery (givenText (q_status q)) (Some test))
      | None => None
      end
  | None => Some (matchesQuery (givenText (q_status q)) None)
  end.

(** [app.get('/api/soldiers', ...)].  A negative skip is refused by the
    store; a limit of 0 is no limit, and the page count is then no number. *)
Definition soldiers_route (regex : string -> option (string -> bool)) (findFails : bool)
    (q : SoldiersQuery) (w : World) : SoldiersResponse :=
  let page := queryPage q in
  let limit := queryLimit q in
  match queryFilter regex q with
  | None => SoldiersError
  | Some matches =>
      if findFails then SoldiersError
      else if (page =? 0)%nat && (0 <? limit)%nat then SoldiersError
      else
        let found := List.filter matches (soldiersDb w) in
        let sorted := sortDesc Soldier.created_at found in
        let skipped := skipn ((page - 1) * limit) sorted in
        let soldiers := if (limit =? 0)%nat then skipped else firstn limit skipped in
        SoldiersPage soldiers
          (if (limit =? 0)%nat then None else Some (ceilDiv (List.length found) limit))
          page (List.length found)
  end.

Record RecordsSummary : Type := {
  r_validated : list string;
  r_invalid : list string;
  r_corrected : list string;
  r_excel_exports : list string;
  r_total : nat;
  r_total_soldiers : nat;
  r_active_soldiers : nat
}.

(** [app.get('/api/records', ...)] when no read fails.  [validatedFiles] is
    the listing of [validated_records], a directory no route writes to.  The
    listings are in the order of writing; [readdir] gives the names in the
    order of the file system. *)
Definition records_route (validatedFiles : list string) (w : World) : RecordsSummary :=
  {| r_validated := validatedFiles;
     r_invalid := invalidDir w;
     r_corrected := correctedDir w;
     r_excel_exports := List.nodup string_dec (List.map fst (excelExports w));
     r_total := List.length validatedFiles + List.length (invalidDir w) +
                List.length (correctedDir w);
     r_total_soldiers := List.length (soldiersDb w);
     r_active_soldiers :=
       List.length
         (List.filter (fun d => String.eqb (Soldier.status (Soldier.fields d)) "Active")
            (soldiersDb w)) |}.

(** The ledger entries with one outcome. *)
Definition ledgerCount (status : string) (logs : list ProcessingLog) : nat :=
  List.length (List.filter (fun e => String.eqb (log_status e) status) logs).

(** Every ledger entry has its file: the ledger has no more entries of an
    outcome than the holding area of that outcome has files, and no other
    outcome. *)
Definition ledgerHeld (w : World) : Prop :=
  (ledgerCount "invalid" (logsDb w) <= List.length (invalidDir w))%nat /\
  (ledgerCount "corrected" (logsDb w) <= List.length (correctedDir w))%nat /\
  Forall (fun e => log_status e = "invalid" \/ log_status e = "corrected") (logsDb w).

(** *** Export of the store *)






(** *** Connection status *)

Module Db.

(** [dbConnectionStatus] *)
Record Status : Type := {
  connected : bool;
  lastChecked : option nat;
  error : option string
}.

Definition initialStatus : Status :=
  {| connected := false; lastChecked := None; error := None |}.

(** What the driver does when asked: [Some message] is an operation that
    throws with that message. *)
Record Driver : Type := {
  pingError : option string;
  findOneError : option string;
  countError : option string
}.

(** [mongoose.connection.readyState] and the status object. *)
Record State : Type := {
  readyState : nat;
  status : Status
}.

(** [updateDbStatus] at time [clock]. *)
Definition updateDbStatus (drv : Driver) (clock : nat) (s : State) : State :=
  if negb (readyState s =? 1)%nat then
    {| readyState := readyState s;
       status := {| connected := false; lastChecked := Some clock;
                    error := Some "Mongoose not connected" |} |}
  else
    match pingError drv with
    | None =>
        {| readyState := readyState s;
           status := {| connected := true; lastChecked := Some clock; error := None |} |}
    | Some _ =>
        match findOneError drv with
        | None =>
            {| readyState := readyState s;
               status := {| connected := true; lastChecked := Some clock; error := None |} |}
        | Some _ =>
            {| readyState := readyState s;
               status := {| connected := false; lastChecked := Some clock;
                            error := Some "Database connection test failed" |} |}
        end
    end.

(** [app.get('/api/db-status', ...)]: the status after the update. *)
Definition db_status (drv : Driver) (clock : nat) (s : State) : Status * State :=
  let s' := updateDbStatus drv clock s in (status s', s').

Record TestResponse : Type := {
  t_connected : bool;
  t_error : option string;
  t_readyState : nat
}.

(** [app.get('/api/test-db', ...)] *)
Definition test_db (drv : Driver) (s : State) : TestResponse :=
  if negb (readyState s =? 1)%nat then
    {| t_connected := false;
       t_error := Some ("Mongoose not ready. State: " ++ Nat_toString (readyState s));
       t_readyState := readyState s |}
  else
    match pingError drv with
    | Some message =>
        {| t_connected := false;
           t_error := Some ("Database ping failed: " ++ message);
           t_readyState := readyState s |}
    | None =>
        match countError drv with
        | Some message =>
            {| t_connected := false;
               t_error := Some ("Database query failed: " ++ message);
               t_readyState := readyState s |}
        | None =>
            {| t_connected := true; t_error := None; t_readyState := readyState s |}
        end
    end.

End Db.

(** A driver without faults. *)
Definition healthyDriver : Db.Driver :=
  {| Db.pingError := None; Db.findOneError := None; Db.countError := None |}.

(** A driver whose ping fails while its queries work. *)
Definition noPingDriver : Db.Driver :=
  {| Db.pingError := Some "no ping"; Db.findOneError := None; Db.countError := None |}.

(** ** Further vocabulary *)

(** The length ceiling of a text field (0 for the two fields without one). *)
Definition fieldMax (f : Field) : Z :=
  match f with
  | FId => 50 | FName => 100 | FRank => 50 | FUnit => 100
  | FServiceDate => 0 | FStatus => 0
  end.

Definition isTextField (f : Field) : bool :=
  match f with
  | FId | FName | FRank | FUnit => true
  | FServiceDate | FStatus => false
  end.

(** The blocks of [checkSoldier] that look at field [f]. *)
Definition fieldBlocks (rt : Runtime) (index : nat) (soldier : JsValue) (f : Field)
    : list string :=
  let v := prop soldier (fieldKey f) in
  if isTextField f then
    (checkString (index + 1) (fieldLabel f) v [] ++
     checkLength (index + 1) (fieldLabel f) (fieldMax f) v [])%list
  else
    match f with
    | FServiceDate => checkServiceDate rt (index + 1) v []
    | _ => checkStatus (index + 1) v []
    end.

(** A record whose identifier and name both show as text in its row. *)
Definition hasIdAndName (record : JsValue) : bool :=
  negb (cellText (Some (orElse (prop record "id") (JString ""))) =? "") &&
  negb (cellText (Some (orElse (prop record "name") (JString ""))) =? "").

(** Smith with a numeric identifier. *)
Definition smithNumericId : JsValue :=
  JObject [("id", JNumber 7); ("name", JString "John Smith"); ("rank", JString "Sergeant");
           ("unit", JString "Alpha Company"); ("service_date", JString "2020-01-15");
           ("status", JString "Active")].


(** Smith with a rank of 51 characters. *)
Definition smithLongRank : JsValue :=
  mkSoldier "A-001" "John Smith" "Sergeant Major of the Army of the Northern Command!"
    "Alpha Company" "2020-01-15" "Active".

(** A single record in place of the collection. *)
Definition singleTree (record : JsValue) : JsValue :=
  JObject [("army_records", JObject [("soldier", record)])].

(** The identifier of a stored record. *)
Definition docId (d : Soldier.Doc) : string := Soldier.id (Soldier.fields d).

(** The stored record never lost: [d'] stands where [d] stood, with the same
    identifier and creation time. *)
Definition keeps (d d' : Soldier.Doc) : Prop :=
  docId d' = docId d /\ Soldier.created_at d' = Soldier.created_at d.

(** The documents of a page, none for a failed request. *)
Definition pageItems (r : SoldiersResponse) : list Soldier.Doc :=
  match r with
  | SoldiersPage page _ _ _ => page
  | SoldiersError => []
  end.

(** What [soldierSchema] asks of a stored record: the six paths present and
    not empty, the status one of the three literals, the service date a
    date. *)
Definition schemaOk (rt : Runtime) (f : Soldier.Fields) : bool :=
  negb (Soldier.id f =? "") && negb (Soldier.name f =? "") &&
  negb (Soldier.rank f =? "") && negb (Soldier.unit f =? "") &&
  negb (Soldier.service_date f =? "") &&
  negb (Date_isNaN rt (Soldier.service_date f)) &&
  existsb (String.eqb (Soldier.status f)) statusEnum.

Definition jonesDoc : Soldier.Doc :=
  {| Soldier.fields := candidateFields jones;
     Soldier.created_at := 9; Soldier.updated_at := 9 |}.

Definition worldWithTwo : World :=
  {| soldiersDb := [smithDoc; jonesDoc]; logsDb := []; uploadsDir := ["upload-1"];
     correctedDir := []; invalidDir := []; excelExports := []; console := []; now := 100 |}.

(** The second page of one record each. *)
Definition secondPageOfOne : SoldiersQuery :=
  {| q_page := Some 2; q_limit := Some 1; q_status := None; q_unit := None |}.

Definition firstPageOfOne : SoldiersQuery :=
  {| q_page := None; q_limit := Some 1; q_status := None; q_unit := None |}.

Definition logEntryAt (t : nat) : ProcessingLog :=
  {| log_filename := "records.xml"; log_status := "corrected"; valid_count := 1;
     invalid_count := 0; log_errors := []; processed_at := t |}.

Definition worldWithLogs : World :=
  {| soldiersDb := []; logsDb := [logEntryAt 3; logEntryAt 8; logEntryAt 5];
     uploadsDir := []; correctedDir := []; invalidDir := []; excelExports := [];
     console := []; now := 100 |}.

(** The file area fails when the uploaded file is moved. *)
Definition moveFault : Faults :=
  {| readFileFails := false; writeFileFails := false; moveFails := true;
     logCreateFails := false; storeFails := fun _ => false |}.

(** A reader that rejects every text. *)
Definition failingReader : Runtime :=
  nodeRuntime (fun _ => ParseThrows "Unexpected end of input") (fun _ => "<army_records/>").

(** ** The rules of the data model, field by field *)






(** ** A writer and a reader of XML text *)

(** The writer and the reader of the server are libraries.  What the
    re-upload route needs of them is that the reader reads the text the
    writer wrote for [data] under the root element [army_records] as a tree
    whose [army_records] holds the members of [data], and no others. *)
Definition readsTheRootWritten (rt : Runtime) (data : JsValue) : Prop :=
  exists tree members,
    XMLParser_parse rt (js2xmlparser_parse rt data) = Parsed tree /\
    prop tree "army_records" = Some (JObject members) /\
    forall key, prop data key = None -> assoc key members = None.

(** A writer of nested elements with text, without attributes: an object is
    an element with a child for each member, an array a run of elements of
    the same name, any other value the text of an element. *)
Fixpoint escapeText (s : string) : string :=
  match s with
  | EmptyString => ""
  | String c rest =>
      (if Ascii.eqb c "&" then "&amp;"
       else if Ascii.eqb c "<" then "&lt;"
       else String c "") ++ escapeText rest
  end.

Fixpoint writeElement (name : string) (v : JsValue) : string :=
  match v with
  | JObject members =>
      "<" ++ name ++ ">" ++
      String.concat "" (List.map (fun member => writeElement (fst member) (snd member)) members) ++
      "</" ++ name ++ ">"
  | JArray xs => String.concat "" (List.map (writeElement name) xs)
  | _ => "<" ++ name ++ ">" ++ escapeText (ToString v) ++ "</" ++ name ++ ">"
  end.

(** [parse(root, data)] of the writer. *)
Definition writeXml (root : string) (data : JsValue) : string := writeElement root data.

(** The members of an element from its children in document order: children
    of the same name become one array. *)
Fixpoint addMember (key : string) (v : JsValue) (members : list (string * JsValue))
    : list (string * JsValue) :=
  match members with
  | [] => [(key, v)]
  | (k, x) :: rest =>
      if String.eqb k key then
        (k, match x with
            | JArray xs => JArray (xs ++ [v])
            | _ => JArray [x; v]
            end) :: rest
      else (k, x) :: addMember key v rest
  end.

Fixpoint unescapeText (cs : list ascii) : string :=
  match cs with
  | [] => EmptyString
  | "&" :: "a" :: "m" :: "p" :: ";" :: rest => String "&" (unescapeText rest)
  | "&" :: "l" :: "t" :: ";" :: rest => String "<" (unescapeText rest)
  | c :: rest => String c (unescapeText rest)
  end%char.

Fixpoint splitAt (stop : ascii) (cs : list ascii) : list ascii * list ascii :=
  match cs with
  | [] => ([], [])
  | c :: rest =>
      if Ascii.eqb c stop then ([], cs)
      else let '(before, after) := splitAt stop rest in (c :: before, after)
  end.

Fixpoint dropPrefix (prefix cs : list ascii) : option (list ascii) :=
  match prefix, cs with
  | [], _ => Some cs
  | p :: prefix', c :: cs' => if Ascii.eqb p c then dropPrefix prefix' cs' else None
  | _ :: _, [] => None
  end.

(** The value of an element with the children [members] and the text
    [text]: the members, or for an element without children its text. *)
Definition elementValue (members : list (string * JsValue)) (text : list ascii) : JsValue :=
  match members with
  | [] => JString (unescapeText (rev (dropWhile isWhiteSpace
                                        (rev (dropWhile isWhiteSpace text)))))
  | _ => JObject members
  end.

(** Reads children and text up to the end tag of the element they are in:
    the members, the text and what follows [</]. *)
Fixpoint readContent (fuel : nat) (cs : list ascii) (members : list (string * JsValue))
    (text : list ascii) : option (list (string * JsValue) * list ascii * list ascii) :=
  match fuel with
  | O => None
  | S fuel' =>
      match cs with
      | [] => None
      | c :: rest =>
          if negb (Ascii.eqb c "<") then readContent fuel' rest members (text ++ [c])
          else
            match rest with
            | slash :: afterSlash =>
                if Ascii.eqb slash "/" then Some (members, text, afterSlash)
                else
                  let '(name, afterName) := splitAt ">" rest in
                  match afterName with
                  | _ :: body =>
                      match readContent fuel' body [] [] with
                      | Some (inner, innerText, afterBody) =>
                          match dropPrefix (name ++ [">"%char]) afterBody with
                          | Some following =>
                              readContent fuel' following
                                (addMember (string_of_list_ascii name)
                                   (elementValue inner innerText) members)
                                text
                          | None => None
                          end
                      | None => None
                      end
                  | [] => None
                  end
            | [] => None
            end
      end
  end.

(** [parse(text)] of the reader: the tree with the root element as its
    member.  The text of an element is kept as it is; the reader of the
    server also reads the text of a number as a number. *)
Definition readXml (text : string) : ParseResult :=
  match readContent (S (String.length text)) (list_ascii_of_string (text ++ "</")) [] [] with
  | Some (members, _, []) => Parsed (JObject members)
  | _ => ParseThrows "Unexpected end of input"
  end.

(** A runtime with this writer and this reader. *)
Definition xmlRuntime : Runtime := nodeRuntime readXml (writeXml "army_records").

(** The spreadsheet of the two records of an accepted batch. *)
Definition sheetOfTwo : Worksheet :=
  [headerRow;
   sheetRow "A-001" "John Smith" "Sergeant" "Alpha Company" "2020-01-15" "Active";
   sheetRow "A-002" "Mary Jones" "Captain" "Bravo Company" "2019-06-30" "Retired"].

(** The worksheet written for the candidates of the verdict on [xmlData]. *)
Definition writtenSheet (rt : Runtime) (xmlData : JsValue) : Worksheet :=
  createInvalidExcel_sheet (soldiers (validateAgainstXSD rt xmlData))
    (errors (validateAgainstXSD rt xmlData)).

(** * Properties *)

(** ** Text *)

Lemma append_nil_r (s : string) : s ++ "" = s.
Proof. induction s as [|c s IH]; simpl; [reflexivity | now rewrite IH]. Qed.

Lemma append_assoc (a b c : string) : (a ++ b) ++ c = a ++ b ++ c.
Proof. induction a as [|x a IH]; simpl; [reflexivity | now rewrite IH]. Qed.

Lemma append_inj_l (p a b : string) : p ++ a = p ++ b -> a = b.
Proof.
  induction p as [|c p IH]; simpl; intros H; [exact H |].
  injection H as H. now apply IH.
Qed.

Lemma prefix_append (n r : string) : String.prefix n (n ++ r) = true.
Proof.
  induction n as [|c n IH]; simpl.
  - now destruct r.
  - destruct (ascii_dec c c) as [_|ne]; [exact IH | now elim ne].
Qed.

Lemma prefix_nonempty_of_empty (n : string) : n <> "" -> String.prefix n "" = false.
Proof. destruct n; [now intros H; elim H | reflexivity]. Qed.

Lemma includes_of_prefix (s n : string) : String.prefix n s = true -> includes s n = true.
Proof. intros H. destruct s; cbn [includes]; rewrite H; reflexivity. Qed.

Lemma includes_here (n r : string) : includes (n ++ r) n = true.
Proof. apply includes_of_prefix, prefix_append. Qed.

Lemma includes_later (a s n : string) : includes s n = true -> includes (a ++ s) n = true.
Proof.
  intros H. induction a as [|c a IH]; [exact H |].
  change (String c a ++ s) with (String c (a ++ s)). cbn [includes].
  rewrite IH. apply orb_true_r.
Qed.

Lemma includes_nonempty (s n : string) : n <> "" -> includes s n = true -> s <> "".
Proof.
  intros Hn H ->. cbn [includes] in H.
  rewrite (prefix_nonempty_of_empty n Hn) in H. discriminate.
Qed.

Lemma concat_nonempty (sep x : string) (l : list string) :
  x <> "" -> String.concat sep (x :: l) <> "".
Proof.
  intros Hx. destruct x as [|c x]; [now elim Hx |].
  destruct l; simpl; discriminate.
Qed.

(** ** The validator reports per candidate, block by block *)

Section ValidatorFacts.

Variable rt : Runtime.

Lemma checkString_app i l v errs :
  checkString i l v errs = (errs ++ checkString i l v [])%list.
Proof.
  unfold checkString, push.
  destruct (negb (truthy v)); [reflexivity |].
  destruct (negb (typeof v =? "string")); [reflexivity | now rewrite app_nil_r].
Qed.

Lemma checkServiceDate_app i v errs :
  checkServiceDate rt i v errs = (errs ++ checkServiceDate rt i v [])%list.
Proof.
  unfold checkServiceDate, push.
  destruct (negb (truthy v)); [reflexivity |].
  destruct (negb (dateRegex_test (ToStringOpt v))); [reflexivity |].
  destruct (Date_isNaN rt (ToStringOpt v)); [reflexivity | now rewrite app_nil_r].
Qed.

Lemma checkStatus_app i v errs :
  checkStatus i v errs = (errs ++ checkStatus i v [])%list.
Proof.
  unfold checkStatus, push.
  destruct (negb (truthy v)); [reflexivity |].
  destruct (negb (statusEnum_includes v)); [reflexivity | now rewrite app_nil_r].
Qed.

Lemma checkLength_app i l m v errs :
  checkLength i l m v errs = (errs ++ checkLength i l m v [])%list.
Proof.
  unfold checkLength, push.
  destruct (truthy v && length_gt v m); [reflexivity | now rewrite app_nil_r].
Qed.

Lemma checkSoldier_app index soldier errs :
  checkSoldier rt index soldier errs = (errs ++ soldierViolations rt index soldier)%list.
Proof.
  unfold checkSoldier, soldierViolations. cbv zeta.
  rewrite (checkLength_app _ "Unit"), (checkLength_app _ "Rank"),
    (checkLength_app _ "Name"), (checkLength_app _ "ID"),
    checkStatus_app, checkServiceDate_app,
    (checkString_app _ "Unit"), (checkString_app _ "Rank"),
    (checkString_app _ "Name"), (checkString_app _ "ID").
  now rewrite <- !app_assoc.
Qed.

Lemma forEachSoldier_app l : forall index errs,
  forEachSoldier rt index l errs = (errs ++ violationsFrom rt index l)%list.
Proof.
  induction l as [|s l IH]; intros index errs; simpl.
  - now rewrite app_nil_r.
  - now rewrite IH, checkSoldier_app, <- app_assoc.
Qed.

Lemma violationsFrom_app l1 : forall l2 index,
  violationsFrom rt index (l1 ++ l2) =
  (violationsFrom rt index l1 ++ violationsFrom rt (List.length l1 + index) l2)%list.
Proof.
  induction l1 as [|s l1 IH]; intros l2 index; simpl; [reflexivity |].
  rewrite IH, <- app_assoc. do 3 f_equal. lia.
Qed.

(** The verdict on a tree with the root present and at least one candidate. *)
Lemma validate_checked xmlData :
  truthy (prop xmlData "army_records") = true ->
  candidates xmlData <> [] ->
  validateAgainstXSD rt xmlData =
  {| isValid := (List.length (violationsFrom rt 0 (candidates xmlData)) =? 0)%nat;
     errors := violationsFrom rt 0 (candidates xmlData);
     soldiers := candidates xmlData |}.
Proof.
  intros Hroot Hne. unfold validateAgainstXSD. fold (candidates xmlData).
  rewrite Hroot. simpl negb. cbv iota.
  destruct (candidates xmlData) as [|s l] eqn:E; [now elim Hne |].
  cbn [List.length Nat.eqb]. cbv zeta.
  now rewrite forEachSoldier_app.
Qed.

(** An accepted verdict comes from the third branch only. *)
Lemma valid_checked xmlData :
  isValid (validateAgainstXSD rt xmlData) = true ->
  truthy (prop xmlData "army_records") = true /\
  candidates xmlData <> [] /\
  violationsFrom rt 0 (candidates xmlData) = [] /\
  soldiers (validateAgainstXSD rt xmlData) = candidates xmlData.
Proof.
  intros H.
  destruct (truthy (prop xmlData "army_records")) eqn:Hroot.
  - assert (Hne : candidates xmlData <> []).
    { intros E. unfold validateAgainstXSD in H. fold (candidates xmlData) in H.
      rewrite Hroot, E in H. discriminate. }
    rewrite (validate_checked _ Hroot Hne) in H |- *. simpl in H |- *.
    repeat split; try assumption.
    destruct (violationsFrom rt 0 (candidates xmlData)); [reflexivity | discriminate].
  - unfold validateAgainstXSD in H. rewrite Hroot in H. discriminate.
Qed.

(** A rejected verdict always carries at least one violation. *)
Lemma rejected_has_errors xmlData :
  isValid (validateAgainstXSD rt xmlData) = false ->
  errors (validateAgainstXSD rt xmlData) <> [].
Proof.
  unfold validateAgainstXSD.
  destruct (negb (truthy (prop xmlData "army_records"))); [intros _; discriminate |].
  destruct (List.length _ =? 0)%nat; [intros _; discriminate |].
  cbv zeta. simpl.
  destruct (forEachSoldier rt 0 _ []); simpl; [discriminate | intros _; discriminate].
Qed.

End ValidatorFacts.

(** ** Field blocks *)

Lemma validText_blocks i l max v :
  validText max v = true ->
  checkString i l v [] = [] /\ checkLength i l max v [] = [].
Proof.
  destruct v as [[s| | | |]|]; try discriminate. unfold validText.
  intros H. apply andb_true_iff in H as [Hs Hl].
  unfold checkString, checkLength, length_gt. simpl. rewrite Hs. simpl.
  apply Z.leb_le in Hl. apply Z.ltb_ge in Hl. rewrite Hl. now split.
Qed.

Lemma falsy_blocks i l max v :
  truthy v = false ->
  checkString i l v [] = [violation i ("Missing required field: " ++ l)] /\
  checkLength i l max v [] = [].
Proof.
  intros H. unfold checkString, checkLength. rewrite H. now split.
Qed.

Lemma statusEnum_truthy v : statusEnum_includes v = true -> truthy v = true.
Proof.
  destruct v as [[s| | | |]|]; try discriminate. simpl.
  destruct s; [discriminate | reflexivity].
Qed.

Lemma nth_error_firstn_skipn {A : Type} (l : list A) : forall k x,
  nth_error l k = Some x -> l = (firstn k l ++ x :: skipn (S k) l)%list.
Proof.
  induction l as [|a l IH]; intros [|k] x H; simpl in *; try discriminate.
  - now injection H as ->.
  - f_equal. now apply IH.
Qed.

Lemma firstn_length_nth_error {A : Type} (l : list A) : forall k x,
  nth_error l k = Some x -> List.length (firstn k l) = k.
Proof.
  intros k x H. apply firstn_length_le.
  apply Nat.lt_le_incl, nth_error_Some. rewrite H. discriminate.
Qed.

(** What a candidate lacking one field, the others valid, contributes. *)
Lemma missing_field_violations rt k soldier f :
  truthy (prop soldier (fieldKey f)) = false ->
  othersValid rt f soldier = true ->
  soldierViolations rt k soldier =
  [violation (k + 1) ("Missing required field: " ++ fieldLabel f)].
Proof.
  intros Hmiss Hothers.
  unfold othersValid, allFields in Hothers. cbn [forallb] in Hothers.
  repeat (apply andb_true_iff in Hothers as [?H Hothers]).
  unfold soldierViolations. cbv zeta.
  destruct f; cbn [Field_eqb orb fieldValid fieldKey fieldLabel] in *;
    repeat match goal with
      | H : validText ?m ?v = true |- _ =>
          let H1 := fresh in let H2 := fresh in
          pose proof (fun l => proj1 (validText_blocks (k + 1) l m v H)) as H1;
          pose proof (fun l => proj2 (validText_blocks (k + 1) l m v H)) as H2;
          rewrite ?H1, ?H2; clear H H1 H2
      end;
    repeat match goal with
      | H : statusEnum_includes ?v = true |- _ =>
          unfold checkStatus; rewrite (statusEnum_truthy v H), H; clear H
      | H : truthy ?v && dateRegex_test _ && negb _ = true |- _ =>
          let a := fresh in let b := fresh in let c := fresh in
          apply andb_true_iff in H as [H c]; apply andb_true_iff in H as [a b];
          apply negb_true_iff in c;
          unfold checkServiceDate; rewrite a, b, c; clear a b c
      end;
    try (rewrite (proj1 (falsy_blocks (k + 1) _ 0 _ Hmiss)),
                 ?(proj2 (falsy_blocks (k + 1) _ _ _ Hmiss)));
    try (unfold checkServiceDate, checkStatus; rewrite Hmiss);
    reflexivity.
Qed.

Lemma violationsFrom_In rt l : forall index j soldier e,
  nth_error l j = Some soldier ->
  In e (soldierViolations rt (index + j) soldier) ->
  In e (violationsFrom rt index l).
Proof.
  induction l as [|s l IH]; intros index [|j] soldier e Hj He; simpl in *;
    try discriminate; apply in_or_app.
  - injection Hj as <-. rewrite Nat.add_0_r in He. now left.
  - right. apply (IH (S index) j soldier); [assumption |].
    now replace (S index + j) with (index + S j) by lia.
Qed.

(** *** The ordinal of a violation *)

Lemma violation_inj idx a b : violation idx a = violation idx b -> a = b.
Proof.
  unfold violation. intros H.
  apply append_inj_l in H. apply append_inj_l in H. now apply append_inj_l in H.
Qed.







(** *** The blocks of the validator and the rules of the data model *)







(** *** Presence violations, counted *)










(** ** Service date: format first, then the date itself *)

(** C2 (amended): for a present service date the regular expression is tested
    first; a text that does not match gets the format violation and the date
    parser is not consulted; a text that matches gets the invalid-date
    violation exactly when the date parser rejects it; the two messages
    differ.  The text 2021-13-01 matches the expression and, under the date
    parser of Node.js, is reported as an invalid date; 2021-1-01 fails the
    format check under every runtime. *)
Theorem service_date_two_stage_check rt idx v errs :
  truthy v = true ->
  (dateRegex_test (ToStringOpt v) = false ->
   checkServiceDate rt idx v errs =
   (errs ++ [violation idx "Service Date must be in YYYY-MM-DD format"])%list) /\
  (dateRegex_test (ToStringOpt v) = true ->
   checkServiceDate rt idx v errs =
   if Date_isNaN rt (ToStringOpt v)
   then (errs ++ [violation idx ("Invalid date: " ++ ToStringOpt v)])%list
   else errs) /\
  violation idx "Service Date must be in YYYY-MM-DD format" <>
  violation idx ("Invalid date: " ++ ToStringOpt v) /\
  dateRegex_test "2021-13-01" = true /\
  (forall reader writer,
     checkServiceDate (nodeRuntime reader writer) idx (Some (JString "2021-13-01")) errs =
     (errs ++ [violation idx "Invalid date: 2021-13-01"])%list) /\
  checkServiceDate rt idx (Some (JString "2021-1-01")) errs =
  (errs ++ [violation idx "Service Date must be in YYYY-MM-DD format"])%list.
Proof.
  intros Hv. unfold checkServiceDate, push. rewrite Hv. cbn [negb].
  repeat split.
  - intros ->. reflexivity.
  - intros ->. cbn [negb]. destruct (Date_isNaN rt (ToStringOpt v)); reflexivity.
  - intros H. apply violation_inj in H. discriminate.
Qed.

Lemma service_date_two_stage_check_witness :
  checkServiceDate sampleRuntime 1
    (prop smithMonth13 "service_date") [] =
  ["XSD VIOLATION: Soldier 1 - Invalid date: 2021-13-01"].
Proof.
  exact (proj1 (proj2 (service_date_two_stage_check
           sampleRuntime 1
           (prop smithMonth13 "service_date") [] eq_refl)) eq_refl).
Defined.

(** C2, as stated, fails on both of its examples.  The expression matches
    2021-13-01, so that text does not fail the format check: the only
    violation of the record is the invalid-date one.  And under the date
    parser of Node.js day 30 of February is no invalid date: the record with
    2021-02-30 passes the format check and has no violation at all. *)
Lemma service_date_examples_of_the_claim_fail :
  dateRegex_test "2021-13-01" <> false /\
  errors (validateAgainstXSD sampleRuntime (mkBatch [smithMonth13])) =
    ["XSD VIOLATION: Soldier 1 - Invalid date: 2021-13-01"] /\
  ~ In "XSD VIOLATION: Soldier 1 - Service Date must be in YYYY-MM-DD format"
       (errors (validateAgainstXSD sampleRuntime (mkBatch [smithMonth13]))) /\
  dateRegex_test "2021-02-30" = true /\
  Date_isNaN sampleRuntime "2021-02-30" = false /\
  errors (validateAgainstXSD sampleRuntime (mkBatch [smithFebruary30])) = [] /\
  isValid (validateAgainstXSD sampleRuntime (mkBatch [smithFebruary30])) = true.
Proof.
  split; [discriminate |]. split; [reflexivity |].
  split; [cbn; intros [H | []]; discriminate |].
  repeat split.
Qed.

(** ** The annotated spreadsheet *)

Lemma recordRows_length errs records : forall index,
  List.length (recordRows index records errs) = List.length records.
Proof.
  induction records as [|r records IH]; intros index; simpl; [reflexivity |].
  now rewrite IH.
Qed.

Lemma recordRows_nth errs records : forall index k record,
  nth_error records k = Some record ->
  nth_error (recordRows index records errs) k = Some (recordRow (index + k) record errs).
Proof.
  induction records as [|r records IH]; intros index [|k] record H; simpl in *;
    try discriminate.
  - injection H as ->. now rewrite Nat.add_0_r.
  - rewrite (IH (S index) k record H). do 2 f_equal. lia.
Qed.

Lemma sheet_data_row records errs k record :
  nth_error records k = Some record ->
  nth_error (createInvalidExcel_sheet records errs) (S k) = Some (recordRow k record errs).
Proof.
  intros H. unfold createInvalidExcel_sheet. cbn [nth_error].
  rewrite nth_error_app1.
  - now rewrite (recordRows_nth errs records 0 k record H).
  - rewrite recordRows_length. apply nth_error_Some. rewrite H. discriminate.
Qed.

Lemma errorMatchesRow_nonempty k e : errorMatchesRow k e = true -> e <> "".
Proof.
  unfold errorMatchesRow. intros H.
  apply orb_true_iff in H as [H | H]; [apply orb_true_iff in H as [H | H] |].
  - eapply includes_nonempty; [| exact H]. simpl. discriminate.
  - apply andb_true_iff in H as [H _].
    eapply includes_nonempty; [| exact H]. discriminate.
  - apply andb_true_iff in H as [H _].
    eapply includes_nonempty; [| exact H]. discriminate.
Qed.

Lemma remarksFor_cases k errs :
  remarksFor k errs =
  match List.filter (errorMatchesRow k) errs with
  | [] => "General validation error"
  | matched => String.concat "; " matched
  end.
Proof.
  unfold remarksFor. destruct (List.filter (errorMatchesRow k) errs); reflexivity.
Qed.

Lemma remarksFor_nonempty k errs : remarksFor k errs <> "".
Proof.
  rewrite remarksFor_cases.
  destruct (List.filter (errorMatchesRow k) errs) as [|e l] eqn:E; [discriminate |].
  apply concat_nonempty, (errorMatchesRow_nonempty k).
  assert (Hin : In e (List.filter (errorMatchesRow k) errs)) by (rewrite E; now left).
  now apply filter_In in Hin.
Qed.

(** C10: in the worksheet built for any records and any violation list, the
    seventh cell of the data row of every record is a non-empty text: the
    matching violations joined by a semicolon and a space when there are any,
    and the fixed text General validation error when there are none. *)
Theorem remarks_cell_never_empty records errs k record :
  nth_error records k = Some record ->
  exists row remarks,
    nth_error (createInvalidExcel_sheet records errs) (S k) = Some row /\
    getCell row 7 = Some (JString remarks) /\
    remarks <> "" /\
    (List.filter (errorMatchesRow k) errs = [] -> remarks = "General validation error") /\
    (List.filter (errorMatchesRow k) errs <> [] ->
     remarks = String.concat "; " (List.filter (errorMatchesRow k) errs)).
Proof.
  intros H. exists (recordRow k record errs), (remarksFor k errs).
  split; [now apply sheet_data_row |]. split; [reflexivity |].
  split; [apply remarksFor_nonempty |].
  rewrite remarksFor_cases. split.
  - now intros ->.
  - destruct (List.filter (errorMatchesRow k) errs); [now intros E; elim E | reflexivity].
Qed.

Lemma remarks_cell_never_empty_witness :
  exists row remarks,
    nth_error (createInvalidExcel_sheet [smith; jonesMissing]
                 (violationsFrom sampleRuntime 0 [smith; jonesMissing])) 1
      = Some row /\
    getCell row 7 = Some (JString remarks) /\
    remarks = "General validation error".
Proof.
  destruct (remarks_cell_never_empty [smith; jonesMissing]
              (violationsFrom sampleRuntime 0 [smith; jonesMissing])
              0 smith eq_refl)
    as (row & remarks & Hrow & Hcell & _ & Hfallback & _).
  exists row, remarks. repeat split; try assumption.
  apply Hfallback. reflexivity.
Defined.

(** Every violation of a candidate carries the candidate's ordinal. *)

Lemma checkString_tagged i l v :
  Forall (fun e => exists body, e = violation i body) (checkString i l v []).
Proof.
  unfold checkString, push.
  destruct (negb (truthy v)); [repeat constructor; eauto |].
  destruct (negb (typeof v =? "string")); repeat constructor; eauto.
Qed.

Lemma checkServiceDate_tagged rt i v :
  Forall (fun e => exists body, e = violation i body) (checkServiceDate rt i v []).
Proof.
  unfold checkServiceDate, push.
  destruct (negb (truthy v)); [repeat constructor; eauto |].
  destruct (negb (dateRegex_test (ToStringOpt v))); [repeat constructor; eauto |].
  destruct (Date_isNaN rt (ToStringOpt v)); repeat constructor; eauto.
Qed.

Lemma checkStatus_tagged i v :
  Forall (fun e => exists body, e = violation i body) (checkStatus i v []).
Proof.
  unfold checkStatus, push.
  destruct (negb (truthy v)); [repeat constructor; eauto |].
  destruct (negb (statusEnum_includes v)); repeat constructor; eauto.
Qed.

Lemma checkLength_tagged i l m v :
  Forall (fun e => exists body, e = violation i body) (checkLength i l m v []).
Proof.
  unfold checkLength, push.
  destruct (truthy v && length_gt v m); repeat constructor; eauto.
Qed.

Lemma soldierViolations_tagged rt k soldier :
  Forall (fun e => exists body, e = violation (k + 1) body) (soldierViolations rt k soldier).
Proof.
  unfold soldierViolations. cbv zeta.
  repeat (apply Forall_app; split);
    auto using checkString_tagged, checkServiceDate_tagged, checkStatus_tagged,
      checkLength_tagged.
Qed.

Lemma violation_includes_ordinal n body :
  includes (violation n body) ("Soldier " ++ Nat_toString n) = true.
Proof.
  assert (E : violation n body =
              "XSD VIOLATION: " ++ ("Soldier " ++ Nat_toString n) ++ " - " ++ body).
  { unfold violation. rewrite append_assoc. reflexivity. }
  rewrite E. apply includes_later, includes_here.
Qed.

Lemma own_violations_match rt k soldier :
  List.filter (errorMatchesRow k) (soldierViolations rt k soldier) =
  soldierViolations rt k soldier.
Proof.
  pose proof (soldierViolations_tagged rt k soldier) as T.
  induction T as [|e l [body ->] _ IH]; [reflexivity |].
  cbn [List.filter]. unfold errorMatchesRow at 1.
  rewrite violation_includes_ordinal. cbn [orb]. now rewrite IH.
Qed.

(** With no violation of another candidate let through, the filter of row
    [k] keeps exactly the violations of candidate [k]. *)
Lemma filter_own rt k l : forall index,
  crossMatches rt k index l = [] ->
  List.filter (errorMatchesRow k) (violationsFrom rt index l) =
  match nth_error l (k - index) with
  | Some soldier => if (index <=? k)%nat then soldierViolations rt k soldier else []
  | None => []
  end.
Proof.
  induction l as [|s l IH]; intros index H.
  - simpl. now destruct (k - index).
  - cbn [crossMatches] in H. apply app_eq_nil in H as [Hs Hrest].
    cbn [violationsFrom]. rewrite filter_app, (IH _ Hrest).
    destruct (Nat.eq_dec index k) as [E | Hne].
    + subst index. rewrite Nat.eqb_refl in Hs. rewrite Nat.sub_diag. cbn [nth_error]. rewrite Nat.leb_refl, own_violations_match.
      replace (S k <=? k)%nat with false by (symmetry; apply Nat.leb_gt; lia).
      destruct (nth_error l (k - S k)); now rewrite app_nil_r.
    + apply Nat.eqb_neq in Hne. rewrite Hne in Hs. apply Nat.eqb_neq in Hne.
      rewrite Hs. cbn [app].
      destruct (Nat.leb_spec index k) as [Hle | Hgt].
      * replace (k - index) with (S (k - S index)) by lia. cbn [nth_error].
        replace (S index <=? k)%nat with true by (symmetry; apply Nat.leb_le; lia).
        reflexivity.
      * replace (S index <=? k)%nat with false by (symmetry; apply Nat.leb_gt; lia).
        destruct (nth_error l (k - S index)), (nth_error (s :: l) (k - index)); reflexivity.
Qed.

Lemma soldiers_errors rt xmlData :
  soldiers (validateAgainstXSD rt xmlData) <> [] ->
  errors (validateAgainstXSD rt xmlData) =
  violationsFrom rt 0 (soldiers (validateAgainstXSD rt xmlData)).
Proof.
  unfold validateAgainstXSD.
  destruct (negb (truthy (prop xmlData "army_records"))); [intros H; now elim H |].
  destruct (List.length _ =? 0)%nat; [intros H; now elim H |].
  cbv zeta. cbn [soldiers errors]. intros _. now rewrite forEachSoldier_app.
Qed.

(** ** Batches in which the row filter is exact *)

Lemma prefix_app_l (p q x : string) :
  String.prefix (p ++ q) x = true -> String.prefix p x = true.
Proof.
  revert x. induction p as [|a p IH]; intros x H; [now destruct x |].
  destruct x as [|b x]; cbn in *; [discriminate |].
  destruct (ascii_dec a b); [now apply IH | discriminate].
Qed.

Lemma includes_needle_prefix (x p q : string) :
  includes x p = false -> includes x (p ++ q) = false.
Proof.
  induction x as [|b x IH]; cbn [includes]; intros H.
  - apply orb_false_iff in H as [H _]. apply orb_false_iff. split; [| reflexivity].
    destruct (String.prefix (p ++ q) "") eqn:E; [| reflexivity].
    now rewrite (prefix_app_l _ _ _ E) in H.
  - apply orb_false_iff in H as [H1 H2]. apply orb_false_iff. split; [| now apply IH].
    destruct (String.prefix (p ++ q) (String b x)) eqn:E; [| reflexivity].
    now rewrite (prefix_app_l _ _ _ E) in H1.
Qed.

Lemma prefix_before_char (c : ascii) (n : string) : forall x,
  occurs c n = false ->
  String.prefix n (x ++ String c "") = true -> String.prefix n x = true.
Proof.
  induction n as [|a n IH]; intros x Hc H; [now destruct x |].
  cbn [occurs] in Hc. apply orb_false_iff in Hc as [Hca Hc].
  destruct x as [|b x]; cbn in H |- *.
  - destruct (ascii_dec a c) as [-> | _]; [| discriminate].
    now rewrite Ascii.eqb_refl in Hca.
  - destruct (ascii_dec a b); [now apply IH | discriminate].
Qed.

Lemma includes_before_char (c : ascii) (n : string) : forall x,
  n <> "" -> occurs c n = false ->
  includes x n = false -> includes (x ++ String c "") n = false.
Proof.
  intros x Hn Hc. induction x as [|b x IH]; intros H.
  - change ("" ++ String c "") with (String c ""). cbn [includes].
    rewrite (prefix_nonempty_of_empty n Hn).
    destruct (String.prefix n (String c "")) eqn:E; [| reflexivity].
    apply (prefix_before_char c n "" Hc) in E.
    now rewrite (prefix_nonempty_of_empty n Hn) in E.
  - change (String b x ++ String c "") with (String b (x ++ String c "")).
    cbn [includes] in H |- *. apply orb_false_iff in H as [H1 H2].
    rewrite (IH H2), orb_false_r.
    destruct (String.prefix n (String b (x ++ String c ""))) eqn:E; [| reflexivity].
    apply (prefix_before_char c n (String b x) Hc) in E. now rewrite E in H1.
Qed.

Lemma includes_absent_first (a : ascii) (n t : string) :
  occurs a t = false -> includes t (String a n) = false.
Proof.
  induction t as [|b t IH]; intros H; [reflexivity |].
  cbn [occurs] in H. apply orb_false_iff in H as [Hab H].
  cbn [includes String.prefix]. rewrite (IH H), orb_false_r.
  destruct (ascii_dec a b) as [-> | _]; [| reflexivity].
  now rewrite Ascii.eqb_refl in Hab.
Qed.

Lemma dateChar_not_letter (a c : ascii) :
  isDigit a = false -> isDash a = false ->
  isDigit c || isDash c = true -> Ascii.eqb a c = false.
Proof.
  intros Hd Hs H. destruct (Ascii.eqb a c) eqn:E; [| reflexivity].
  apply Ascii.eqb_eq in E. subst c. now rewrite Hd, Hs in H.
Qed.

Lemma regex_text_has_no_letter (a : ascii) (t : string) :
  isDigit a = false -> isDash a = false ->
  dateRegex_test t = true -> occurs a t = false.
Proof.
  intros Hd Hs H.
  destruct t as [|c1 [|c2 [|c3 [|c4 [|c5 [|c6 [|c7 [|c8 [|c9 [|c10 [|c11 t]]]]]]]]]]];
    try discriminate.
  cbn [dateRegex_test] in H.
  do 9 (apply andb_true_iff in H as [H ?H]).
  cbn [occurs].
  repeat match goal with
    | |- context [Ascii.eqb a ?c] =>
        rewrite (dateChar_not_letter a c Hd Hs) by (apply orb_true_iff; auto)
    end.
  reflexivity.
Qed.

Lemma invalid_date_body_plain (t : string) :
  dateRegex_test t = true -> plainText ("Invalid date: " ++ t) = true.
Proof.
  intros H. unfold plainText. cbn.
  rewrite !includes_absent_first by (apply regex_text_has_no_letter; auto).
  reflexivity.
Qed.

Lemma status_body_plain (x : string) :
  plainText x = true ->
  plainText ("Status must be one of: Active, Retired, Deceased (got: " ++ x ++ ")") = true.
Proof.
  unfold plainText. intros H.
  apply andb_true_iff in H as [H H3]. apply andb_true_iff in H as [H1 H2].
  apply negb_true_iff in H1, H2, H3. cbn.
  rewrite !includes_before_char by (assumption || discriminate || reflexivity).
  reflexivity.
Qed.

Lemma checkString_plain i l v :
  plainText ("Missing required field: " ++ l) = true ->
  plainText (l ++ " must be a string") = true ->
  Forall (fun e => exists body, e = violation i body /\ plainText body = true)
    (checkString i l v []).
Proof.
  intros H1 H2. unfold checkString, push.
  destruct (negb (truthy v)); [repeat constructor; eauto |].
  destruct (negb (typeof v =? "string")); repeat constructor; eauto.
Qed.

Lemma checkServiceDate_plain rt i v :
  Forall (fun e => exists body, e = violation i body /\ plainText body = true)
    (checkServiceDate rt i v []).
Proof.
  unfold checkServiceDate, push.
  destruct (negb (truthy v)); [repeat constructor; eauto |].
  destruct (negb (dateRegex_test (ToStringOpt v))) eqn:E; [repeat constructor; eauto |].
  apply negb_false_iff in E.
  destruct (Date_isNaN rt (ToStringOpt v)); repeat constructor.
  eauto using invalid_date_body_plain.
Qed.

Lemma checkStatus_plain i v :
  plainText (ToStringOpt v) = true ->
  Forall (fun e => exists body, e = violation i body /\ plainText body = true)
    (checkStatus i v []).
Proof.
  intros H. unfold checkStatus, push.
  destruct (negb (truthy v)); [repeat constructor; eauto |].
  destruct (negb (statusEnum_includes v)); repeat constructor.
  eauto using status_body_plain.
Qed.

Lemma checkLength_plain i l m v :
  plainText (l ++ " length exceeds maximum (" ++ Z_toString m ++ " characters)") = true ->
  Forall (fun e => exists body, e = violation i body /\ plainText body = true)
    (checkLength i l m v []).
Proof.
  intros H. unfold checkLength, push.
  destruct (truthy v && length_gt v m); repeat constructor; eauto.
Qed.

Lemma soldierViolations_plain rt j soldier :
  plainStatus soldier = true ->
  Forall (fun e => exists body, e = violation (j + 1) body /\ plainText body = true)
    (soldierViolations rt j soldier).
Proof.
  intros H. unfold soldierViolations. cbv zeta.
  repeat (apply Forall_app; split);
    first [ apply checkString_plain; reflexivity
          | apply checkServiceDate_plain
          | apply checkStatus_plain; exact H
          | apply checkLength_plain; reflexivity ].
Qed.

(** Below ten, the violation of one ordinal with a plain body does not pass
    the filter of another row. *)
Lemma plain_violation_of_other_row j k body :
  plainText body = true -> j <> k -> (j < 9)%nat -> (k < 9)%nat ->
  errorMatchesRow k (violation (j + 1) body) = false.
Proof.
  unfold plainText. intros H Hjk Hj Hk.
  apply andb_true_iff in H as [H H3]. apply andb_true_iff in H as [H1 H2].
  apply negb_true_iff in H1, H2, H3.
  assert (Hs : forall d, includes body ("Soldier " ++ d) = false).
  { intros d. change ("Soldier " ++ d) with ("Soldier" ++ " " ++ d).
    now apply includes_needle_prefix. }
  cbn [String.append] in Hs.
  unfold errorMatchesRow, violation.
  do 9 (destruct j as [|j]; [
    do 9 (destruct k as [|k]; [first [now elim Hjk | cbn; now rewrite ?Hs, ?H2, ?H3] |]); lia |]).
  lia.
Qed.

Lemma small_plain_batch_has_no_cross_matches rt k l : forall index,
  (index + List.length l <= 9)%nat -> (k < 9)%nat ->
  forallb plainStatus l = true ->
  crossMatches rt k index l = [].
Proof.
  induction l as [|s l IH]; intros index Hlen Hk Hplain; [reflexivity |].
  cbn [List.length] in Hlen. cbn [forallb] in Hplain.
  apply andb_true_iff in Hplain as [Hs Hl].
  cbn [crossMatches]. rewrite (IH (S index)) by (assumption || lia). rewrite app_nil_r.
  destruct (Nat.eqb_spec index k) as [_ | Hne]; [reflexivity |].
  pose proof (soldierViolations_plain rt index s Hs) as P.
  induction P as [|e es [body [-> Hb]] _ IHes]; [reflexivity |].
  cbn [List.filter].
  rewrite (plain_violation_of_other_row index k body Hb Hne) by lia.
  exact IHes.
Qed.

(** The worksheet written for the rejected verdict on a tree. *)
Lemma annotated_sheet_of_tree rt xmlData :
  isValid (validateAgainstXSD rt xmlData) = false ->
  let records := soldiers (validateAgainstXSD rt xmlData) in
  let errs := errors (validateAgainstXSD rt xmlData) in
  createInvalidExcel_sheet records errs =
    (headerRow :: recordRows 0 records errs ++
     [] :: summaryRow "ALL SCHEMA VIOLATIONS:" :: List.map summaryRow errs)%list /\
  List.length (recordRows 0 records errs) = List.length records /\
  forall k record,
    nth_error records k = Some record ->
    exists remarks,
      nth_error (createInvalidExcel_sheet records errs) (S k) =
        Some [Some (orElse (prop record "id") (JString ""));
              Some (orElse (prop record "name") (JString ""));
              Some (orElse (prop record "rank") (JString ""));
              Some (orElse (prop record "unit") (JString ""));
              Some (orElse (prop record "service_date") (JString ""));
              Some (orElse (prop record "status") (JString ""));
              Some (JString remarks)] /\
      (crossMatches rt k 0 records = [] ->
       remarks =
         match soldierViolations rt k record with
         | [] => "General validation error"
         | own => String.concat "; " own
         end) /\
      ((List.length records <= 9)%nat -> forallb plainStatus records = true ->
       crossMatches rt k 0 records = []).
Proof.
  intros Hrej records errs. split; [| split].
  - unfold createInvalidExcel_sheet, summaryBlock.
    pose proof (rejected_has_errors rt xmlData Hrej) as Hne. fold errs in Hne.
    destruct errs; [now elim Hne | reflexivity].
  - apply recordRows_length.
  - intros k record Hnth. exists (remarksFor k errs).
    split; [now rewrite (sheet_data_row records errs k record Hnth) |].
    split.
    + intros Hcross. rewrite remarksFor_cases. unfold errs.
      rewrite soldiers_errors.
      * fold records. rewrite (filter_own rt k records 0 Hcross), Nat.sub_0_r, Hnth.
        reflexivity.
      * fold records. intros E. rewrite E in Hnth. destruct k; discriminate.
    + intros Hlen Hplain. apply small_plain_batch_has_no_cross_matches; try assumption.
      assert (k < List.length records)%nat by (apply nth_error_Some; now rewrite Hnth).
      lia.
Qed.

(** C3 (amended): for a rejected verdict with N candidates the worksheet is
    the header, then N data rows, one per candidate in order, then a blank
    row, the heading row and one row per violation, verbatim and in order.
    Row k shows the six values of candidate k (nothing for a missing or
    empty one); and when no violation of another candidate passes the filter
    of row k, its seventh cell holds exactly the violations of candidate k,
    joined by a semicolon and a space, or the fixed text General validation
    error when candidate k has none.  No violation of another candidate passes
    the filter of any row when the batch has at most nine candidates and no
    status contains one of the three texts the filter looks for. *)
Theorem annotated_sheet_rows rt xmlContent :
  isValid (validateXML rt xmlContent) = false ->
  let records := soldiers (validateXML rt xmlContent) in
  let errs := errors (validateXML rt xmlContent) in
  createInvalidExcel_sheet records errs =
    (headerRow :: recordRows 0 records errs ++
     [] :: summaryRow "ALL SCHEMA VIOLATIONS:" :: List.map summaryRow errs)%list /\
  List.length (recordRows 0 records errs) = List.length records /\
  forall k record,
    nth_error records k = Some record ->
    exists remarks,
      nth_error (createInvalidExcel_sheet records errs) (S k) =
        Some [Some (orElse (prop record "id") (JString ""));
              Some (orElse (prop record "name") (JString ""));
              Some (orElse (prop record "rank") (JString ""));
              Some (orElse (prop record "unit") (JString ""));
              Some (orElse (prop record "service_date") (JString ""));
              Some (orElse (prop record "status") (JString ""));
              Some (JString remarks)] /\
      (crossMatches rt k 0 records = [] ->
       remarks =
         match soldierViolations rt k record with
         | [] => "General validation error"
         | own => String.concat "; " own
         end) /\
      ((List.length records <= 9)%nat -> forallb plainStatus records = true ->
       crossMatches rt k 0 records = []).
Proof.
  unfold validateXML. destruct (XMLParser_parse rt xmlContent) as [tree | message].
  - apply annotated_sheet_of_tree.
  - intros _. cbn [soldiers errors]. cbv zeta. repeat split.
    intros [|k] record H; discriminate.
Qed.

Lemma annotated_sheet_rows_witness :
  exists remarks,
    nth_error
      (createInvalidExcel_sheet
         (soldiers (validateXML (fixedRuntime (mkBatch [smith; jonesMissing]))
                      (content xmlUpload)))
         (errors (validateXML (fixedRuntime (mkBatch [smith; jonesMissing]))
                    (content xmlUpload)))) 2 =
      Some [text "A-002"; text "Mary Jones"; text "Captain"; text "Bravo Company";
            text "2019-06-30"; text "Missing in Action"; text remarks] /\
    remarks =
      "XSD VIOLATION: Soldier 2 - Status must be one of: Active, Retired, Deceased (got: Missing in Action)".
Proof.
  destruct (proj2 (proj2 (annotated_sheet_rows (fixedRuntime (mkBatch [smith; jonesMissing]))
                            (content xmlUpload) eq_refl))
              1 jonesMissing eq_refl) as (remarks & Hrow & Hremarks & Hplain).
  exists remarks. split; [exact Hrow |].
  exact (Hremarks (Hplain ltac:(cbn; lia) eq_refl)).
Defined.

(** C3, as stated, fails: in the rejected batch of ten in which only the
    tenth record has a violation, the first two records have none, yet the
    seventh cell of neither row is without text.  The second row holds the
    fixed fallback, which is no violation of the list; the first row holds
    the violation of the tenth record, since the filter of a row matches by
    text and the text of ordinal 1 begins that of ordinal 10. *)
Lemma cells_of_clean_rows_in_batch_of_ten :
  isValid (validateAgainstXSD sampleRuntime (mkBatch tenRecords)) = false /\
  soldiers (validateAgainstXSD sampleRuntime (mkBatch tenRecords)) = tenRecords /\
  errors (validateAgainstXSD sampleRuntime (mkBatch tenRecords)) =
    ["XSD VIOLATION: Soldier 10 - Missing required field: Rank"] /\
  nth_error tenRecords 0 = Some smith /\
  nth_error tenRecords 1 = Some smith /\
  soldierViolations sampleRuntime 0 smith = [] /\
  soldierViolations sampleRuntime 1 smith = [] /\
  option_map (fun row => getCell row 7)
    (nth_error
       (createInvalidExcel_sheet
          (soldiers (validateAgainstXSD sampleRuntime (mkBatch tenRecords)))
          (errors (validateAgainstXSD sampleRuntime (mkBatch tenRecords)))) 2) =
  Some (Some (JString "General validation error")) /\
  option_map (fun row => getCell row 7)
    (nth_error
       (createInvalidExcel_sheet
          (soldiers (validateAgainstXSD sampleRuntime (mkBatch tenRecords)))
          (errors (validateAgainstXSD sampleRuntime (mkBatch tenRecords)))) 1) =
  Some (Some (JString "XSD VIOLATION: Soldier 10 - Missing required field: Rank")) /\
  option_map (fun row => getCell row 7)
    (nth_error
       (createInvalidExcel_sheet
          (soldiers (validateAgainstXSD sampleRuntime (mkBatch tenRecords)))
          (errors (validateAgainstXSD sampleRuntime (mkBatch tenRecords)))) 1) <>
  Some (Some (JString (String.concat "; " (soldierViolations sampleRuntime 0 smith)))).
Proof.
  repeat (split; [reflexivity |]). discriminate.
Qed.

(** ** Reading a spreadsheet *)

Lemma getCell_past_end (row : Row) n : (List.length row < n)%nat -> getCell row n = None.
Proof.
  intros H. unfold getCell. apply nth_overflow. lia.
Qed.

Lemma cellText_empty (c : Cell) : c = None \/ c = Some (JString "") -> cellText c = "".
Proof. now intros [-> | ->]. Qed.

Lemma cellText_nonempty_has_value (row : Row) :
  cellText (getCell row 1) <> "" -> hasValues row = true.
Proof.
  unfold getCell. destruct row as [|[v|] row]; simpl; intros H; try reflexivity; now elim H.
Qed.

Lemma rowRecord_id_truthy (row : Row) :
  truthy (prop (rowRecord row) "id") = negb (cellText (getCell row 1) =? "").
Proof. reflexivity. Qed.

Lemma rowRecord_name_truthy (row : Row) :
  truthy (prop (rowRecord row) "name") = negb (cellText (getCell row 2) =? "").
Proof. reflexivity. Qed.

Lemma eachRow_data rows : forall rowNumber records,
  (1 < rowNumber)%nat ->
  eachRow rowNumber rows records =
  (records ++
   List.map rowRecord
     (List.filter
        (fun row => negb (cellText (getCell row 1) =? "") &&
                    negb (cellText (getCell row 2) =? ""))
        rows))%list.
Proof.
  induction rows as [|row rows IH]; intros rowNumber records Hn.
  - simpl. now rewrite app_nil_r.
  - cbn [eachRow List.filter]. cbv zeta.
    rewrite rowRecord_id_truthy, rowRecord_name_truthy.
    replace (1 <? rowNumber)%nat with true by (symmetry; apply Nat.ltb_lt; lia).
    rewrite andb_true_r, IH by lia.
    destruct (negb (cellText (getCell row 1) =? "")) eqn:Hid; cbn [andb].
    + rewrite cellText_nonempty_has_value.
      * destruct (negb (cellText (getCell row 2) =? "")); cbn [List.map];
          [now rewrite <- app_assoc | reflexivity].
      * apply negb_true_iff, String.eqb_neq in Hid. exact Hid.
    + now destruct (hasValues row).
Qed.

Lemma parseExcel_records_kept (worksheet : Worksheet) :
  parseExcel_records worksheet =
  List.map rowRecord
    (List.filter
       (fun row => negb (cellText (getCell row 1) =? "") &&
                   negb (cellText (getCell row 2) =? ""))
       (List.tl worksheet)).
Proof.
  unfold parseExcel_records. destruct worksheet as [|header rows]; [reflexivity |].
  cbn [eachRow List.tl]. cbv zeta.
  replace (1 <? 1)%nat with false by reflexivity. rewrite andb_false_r.
  now rewrite eachRow_data by lia.
Qed.

(** C4 (amended): the records read from a worksheet are, in order, the rows
    after the first whose identifier cell and name cell both have text; a row
    is dropped exactly when it lacks the identifier or the name.  A kept row
    maps positionally to the six fields, and an empty or missing cell reads
    as the empty text. *)
Theorem rows_kept_when_id_and_name (worksheet : Worksheet) :
  parseExcel_records worksheet =
    List.map rowRecord
      (List.filter
         (fun row => negb (cellText (getCell row 1) =? "") &&
                     negb (cellText (getCell row 2) =? ""))
         (List.tl worksheet)) /\
  (forall row,
     rowRecord row =
     JObject [("id", JString (cellText (getCell row 1)));
              ("name", JString (cellText (getCell row 2)));
              ("rank", JString (cellText (getCell row 3)));
              ("unit", JString (cellText (getCell row 4)));
              ("service_date", JString (cellText (getCell row 5)));
              ("status", JString (cellText (getCell row 6)))]) /\
  (forall (row : Row) n,
     ((List.length row < n)%nat \/ getCell row n = None \/ getCell row n = Some (JString "")) ->
     cellText (getCell row n) = "").
Proof.
  split; [| split].
  - apply parseExcel_records_kept.
  - reflexivity.
  - intros row n [H | H].
    + now rewrite getCell_past_end.
    + now apply cellText_empty.
Qed.

(** C4, as stated, fails: a row with an identifier and no name does not lack
    both, and it is dropped all the same. *)
Lemma row_with_id_and_no_name_is_dropped :
  cellText (getCell rowWithoutName 1) = "A-003" /\
  cellText (getCell rowWithoutName 2) = "" /\
  ~ (cellText (getCell rowWithoutName 1) = "" /\ cellText (getCell rowWithoutName 2) = "") /\
  parseExcel_records [headerRow; rowWithoutName] = [].
Proof.
  split; [reflexivity |]. split; [reflexivity |]. split; [| reflexivity].
  intros [H _]. discriminate.
Qed.

Lemma rows_kept_when_id_and_name_witness :
  parseExcel_records
    [headerRow;
     sheetRow "A-001" "John Smith" "Sergeant" "Alpha Company" "2020-01-15" "Active";
     sheetRow "" "" "" "" "" "";
     rowWithoutName] = [smith].
Proof.
  exact (proj1 (rows_kept_when_id_and_name
           [headerRow;
            sheetRow "A-001" "John Smith" "Sergeant" "Alpha Company" "2020-01-15" "Active";
            sheetRow "" "" "" "" "" "";
            rowWithoutName])).
Defined.

(** ** Accepted candidates *)

Lemma text_block_iff i l max v :
  checkString i l v [] = [] /\ checkLength i l max v [] = [] <-> validText max v = true.
Proof.
  split; [| apply validText_blocks].
  unfold checkString, checkLength, validText, length_gt, push.
  destruct v as [[s|n|b|xs|ps]|]; simpl.
  - destruct (s =? "") eqn:Hs; simpl; [intros [H _]; discriminate |].
    destruct (max <? Z.of_nat (String.length s))%Z eqn:Hl;
      [intros [_ H]; discriminate | intros _].
    apply Z.ltb_ge in Hl. apply Z.leb_le in Hl. now rewrite Hl.
  - destruct (negb (n =? 0)%Z); intros [H _]; discriminate.
  - destruct b; intros [H _]; discriminate.
  - intros [H _]; discriminate.
  - intros [H _]; discriminate.
  - intros [H _]; discriminate.
Qed.

Lemma date_block_iff rt i v :
  checkServiceDate rt i v [] = [] <->
  truthy v && dateRegex_test (ToStringOpt v) && negb (Date_isNaN rt (ToStringOpt v)) = true.
Proof.
  unfold checkServiceDate, push.
  destruct (truthy v), (dateRegex_test (ToStringOpt v)), (Date_isNaN rt (ToStringOpt v));
    simpl; split; intros H; try discriminate; reflexivity.
Qed.

Lemma status_block_iff i v :
  checkStatus i v [] = [] <-> statusEnum_includes v = true.
Proof.
  unfold checkStatus, push. split.
  - destruct (truthy v), (statusEnum_includes v); simpl; intros H;
      try discriminate; reflexivity.
  - intros H. now rewrite (statusEnum_truthy v H), H.
Qed.

(** A candidate contributes no violation exactly when each of its six fields
    satisfies the rule of the data model. *)
Lemma accepted_iff_valid rt k soldier :
  soldierViolations rt k soldier = [] <->
  forallb (fun f => fieldValid rt f soldier) allFields = true.
Proof.
  unfold soldierViolations, allFields. cbv zeta.
  cbn [forallb fieldValid fieldKey]. split.
  - intros H.
    apply app_eq_nil in H as [I1 H]. apply app_eq_nil in H as [N1 H].
    apply app_eq_nil in H as [R1 H]. apply app_eq_nil in H as [U1 H].
    apply app_eq_nil in H as [D H]. apply app_eq_nil in H as [S H].
    apply app_eq_nil in H as [I2 H]. apply app_eq_nil in H as [N2 H].
    apply app_eq_nil in H as [R2 U2].
    rewrite (proj1 (text_block_iff _ _ _ _) (conj I1 I2)),
            (proj1 (text_block_iff _ _ _ _) (conj N1 N2)),
            (proj1 (text_block_iff _ _ _ _) (conj R1 R2)),
            (proj1 (text_block_iff _ _ _ _) (conj U1 U2)),
            (proj1 (date_block_iff _ _ _) D),
            (proj1 (status_block_iff _ _) S).
    reflexivity.
  - intros H.
    apply andb_true_iff in H as [I H]. apply andb_true_iff in H as [N H].
    apply andb_true_iff in H as [R H]. apply andb_true_iff in H as [U H].
    apply andb_true_iff in H as [D H]. apply andb_true_iff in H as [S _].
    destruct (validText_blocks (k + 1) "ID" _ _ I) as [-> ->].
    destruct (validText_blocks (k + 1) "Name" _ _ N) as [-> ->].
    destruct (validText_blocks (k + 1) "Rank" _ _ R) as [-> ->].
    destruct (validText_blocks (k + 1) "Unit" _ _ U) as [-> ->].
    rewrite (proj2 (date_block_iff rt (k + 1) _) D),
            (proj2 (status_block_iff (k + 1) _) S).
    reflexivity.
Qed.

Lemma violationsFrom_nil_nth rt l : forall index k soldier,
  violationsFrom rt index l = [] ->
  nth_error l k = Some soldier ->
  soldierViolations rt (index + k) soldier = [].
Proof.
  induction l as [|s l IH]; intros index [|k] soldier H Hnth; simpl in *;
    try discriminate; apply app_eq_nil in H as [Hs Hl].
  - injection Hnth as <-. now rewrite Nat.add_0_r.
  - replace (index + S k) with (S index + k) by lia. now apply IH.
Qed.

Lemma violationsFrom_nil_intro rt l : forall index,
  (forall k soldier, nth_error l k = Some soldier ->
                     soldierViolations rt (index + k) soldier = []) ->
  violationsFrom rt index l = [].
Proof.
  induction l as [|s l IH]; intros index H; [reflexivity |].
  cbn [violationsFrom]. rewrite (IH (S index)).
  - rewrite <- (Nat.add_0_r index). now rewrite (H 0 s eq_refl).
  - intros k soldier Hk. replace (S index + k) with (index + S k) by lia. now apply H.
Qed.

Lemma validText_inv max v :
  validText max v = true -> exists s, v = Some (JString s) /\ s <> "".
Proof.
  destruct v as [[s| | | |]|]; try discriminate. unfold validText.
  intros H. apply andb_true_iff in H as [H _].
  exists s. split; [reflexivity |]. now apply negb_true_iff, String.eqb_neq in H.
Qed.

Lemma statusEnum_inv v :
  statusEnum_includes v = true -> exists s, v = Some (JString s) /\ s <> "".
Proof.
  destruct v as [[s| | | |]|]; try discriminate. intros H.
  exists s. split; [reflexivity |]. intros ->. discriminate.
Qed.

Lemma regex_nonempty s : dateRegex_test s = true -> s <> "".
Proof. intros H ->. discriminate. Qed.

Lemma cellText_shown (v : option JsValue) :
  truthy v = true -> cellText (Some (orElse v (JString ""))) = ToStringOpt v.
Proof.
  destruct v as [x|]; [| discriminate]. intros H. unfold orElse. rewrite H.
  unfold cellText, ToStringOpt.
  destruct (ToString x =? "") eqn:E; [| reflexivity].
  apply String.eqb_eq in E. now rewrite E.
Qed.

(** ** Tree to table and back *)

Lemma rowRecord_recordRow k record errs : rowRecord (recordRow k record errs) = reread record.
Proof. reflexivity. Qed.

Lemma accepted_fields rt k record :
  soldierViolations rt k record = [] ->
  (forall f, f <> FServiceDate ->
     exists s, prop record (fieldKey f) = Some (JString s) /\ s <> "") /\
  truthy (prop record "service_date") = true /\
  dateRegex_test (ToStringOpt (prop record "service_date")) = true /\
  Date_isNaN rt (ToStringOpt (prop record "service_date")) = false.
Proof.
  intros H. apply accepted_iff_valid in H. unfold allFields in H.
  cbn [forallb fieldValid fieldKey] in H.
  apply andb_true_iff in H as [I H]. apply andb_true_iff in H as [N H].
  apply andb_true_iff in H as [R H]. apply andb_true_iff in H as [U H].
  apply andb_true_iff in H as [D H]. apply andb_true_iff in H as [S _].
  apply andb_true_iff in D as [D D3]. apply andb_true_iff in D as [D1 D2].
  apply negb_true_iff in D3.
  split; [| now repeat split].
  intros [] Hf; cbn [fieldKey]; try (now elim Hf);
    eauto using validText_inv, statusEnum_inv.
Qed.

(** The row written for an accepted candidate reads back as an accepted
    candidate with the same six texts. *)
Lemma reread_accepted rt k j record :
  soldierViolations rt k record = [] ->
  (forall f, f <> FServiceDate -> prop (reread record) (fieldKey f) = prop record (fieldKey f)) /\
  prop (reread record) "service_date" =
    Some (JString (ToStringOpt (prop record "service_date"))) /\
  truthy (prop (reread record) "id") = true /\
  truthy (prop (reread record) "name") = true /\
  soldierViolations rt j (reread record) = [].
Proof.
  intros H. pose proof H as V. apply accepted_iff_valid in V.
  destruct (accepted_fields rt k record H) as (Htext & D1 & D2 & D3).
  destruct (Htext FId ltac:(discriminate)) as (i & Ei & Hi).
  destruct (Htext FName ltac:(discriminate)) as (n & En & Hn).
  destruct (Htext FRank ltac:(discriminate)) as (r & Er & Hr).
  destruct (Htext FUnit ltac:(discriminate)) as (u & Eu & Hu).
  destruct (Htext FStatus ltac:(discriminate)) as (s & Es & Hs).
  cbn [fieldKey] in *.
  assert (T : forall t, t <> "" -> truthy (Some (JString t)) = true).
  { intros t Ht. simpl. now apply negb_true_iff, String.eqb_neq. }
  assert (E : reread record =
              JObject [("id", JString i); ("name", JString n); ("rank", JString r);
                       ("unit", JString u);
                       ("service_date", JString (ToStringOpt (prop record "service_date")));
                       ("status", JString s)]).
  { unfold reread, rowRecord, recordRow, getCell. cbn [Nat.sub nth].
    rewrite !cellText_shown by (rewrite ?Ei, ?En, ?Er, ?Eu, ?Es; auto).
    now rewrite Ei, En, Er, Eu, Es. }
  rewrite E. split; [| split; [reflexivity | split; [| split]]].
  - intros [] Hf; cbn [fieldKey]; simpl; auto. now elim Hf.
  - simpl. now apply negb_true_iff, String.eqb_neq.
  - simpl. now apply negb_true_iff, String.eqb_neq.
  - apply accepted_iff_valid. unfold allFields in *.
    cbn [forallb fieldValid fieldKey] in *. rewrite Ei, En, Er, Eu, Es in V.
    apply andb_true_iff in V as [I V]. apply andb_true_iff in V as [N V].
    apply andb_true_iff in V as [R V]. apply andb_true_iff in V as [U V].
    apply andb_true_iff in V as [_ V].
    change (prop (JObject _) "id") with (Some (JString i)).
    change (prop (JObject _) "name") with (Some (JString n)).
    change (prop (JObject _) "rank") with (Some (JString r)).
    change (prop (JObject _) "unit") with (Some (JString u)).
    change (prop (JObject _) "status") with (Some (JString s)).
    change (prop (JObject _) "service_date")
      with (Some (JString (ToStringOpt (prop record "service_date")))).
    rewrite I, N, R, U, V. cbn [andb ToStringOpt ToString].
    rewrite D2, D3, T by now apply regex_nonempty. reflexivity.
Qed.

Lemma reread_all_kept rt errs l : forall index j,
  violationsFrom rt j l = [] ->
  List.map rowRecord
    (List.filter
       (fun row => negb (cellText (getCell row 1) =? "") &&
                   negb (cellText (getCell row 2) =? ""))
       (recordRows index l errs)) = List.map reread l.
Proof.
  induction l as [|record l IH]; intros index j H; [reflexivity |].
  cbn [violationsFrom] in H. apply app_eq_nil in H as [Hr Hl].
  cbn [recordRows List.filter].
  destruct (reread_accepted rt j 0 record Hr) as (_ & _ & Hid & Hname & _).
  rewrite <- rowRecord_recordRow with (k := index) (errs := errs) in Hid, Hname.
  rewrite rowRecord_id_truthy in Hid. rewrite rowRecord_name_truthy in Hname.
  rewrite Hid, Hname. cbn [andb List.map].
  now rewrite rowRecord_recordRow, (IH (S index) (S j) Hl).
Qed.

(** From the tree to the rows and back to a tree, without the text in
    between: for an accepted batch, the worksheet written for its candidates
    is read as the same number of records in the same order, each with the
    identifier, name, rank, unit and status of the original and the text of
    its service date, and the tree [parseExcelToXML] builds of them would be
    accepted. *)
Lemma rows_of_valid_batch_read_back rt xmlData :
  isValid (validateAgainstXSD rt xmlData) = true ->
  soldiers (validateAgainstXSD rt xmlData) <> [] /\
  parseExcel_records (writtenSheet rt xmlData) =
    List.map reread (soldiers (validateAgainstXSD rt xmlData)) /\
  validateAgainstXSD rt (parseExcel_xmlData (writtenSheet rt xmlData)) =
    {| isValid := true; errors := [];
       soldiers := List.map reread (soldiers (validateAgainstXSD rt xmlData)) |} /\
  forall k record,
    nth_error (soldiers (validateAgainstXSD rt xmlData)) k = Some record ->
    (forall f, f <> FServiceDate ->
       (exists s, prop record (fieldKey f) = Some (JString s)) /\
       prop (reread record) (fieldKey f) = prop record (fieldKey f)) /\
    prop (reread record) "service_date" =
      Some (JString (ToStringOpt (prop record "service_date"))).
Proof.
  intros Hvalid. unfold writtenSheet.
  destruct (valid_checked rt xmlData Hvalid) as (Hroot & Hne & Hnil & Hsold).
  assert (Herrs : errors (validateAgainstXSD rt xmlData) = []).
  { rewrite (validate_checked rt _ Hroot Hne). exact Hnil. }
  assert (Hread : parseExcel_records
                    (createInvalidExcel_sheet (soldiers (validateAgainstXSD rt xmlData))
                       (errors (validateAgainstXSD rt xmlData))) =
                  List.map reread (soldiers (validateAgainstXSD rt xmlData))).
  { rewrite parseExcel_records_kept.
    unfold createInvalidExcel_sheet. cbn [List.tl]. rewrite Herrs.
    cbn [summaryBlock List.length Nat.ltb Nat.leb]. rewrite app_nil_r.
    rewrite Hsold. apply (reread_all_kept rt [] _ 0 0 Hnil). }
  split; [now rewrite Hsold |]. split; [exact Hread |]. split.
  - rewrite validate_checked.
    + unfold candidates, parseExcel_xmlData.
      cbn [prop assoc String.eqb Ascii.eqb Bool.eqb optProp coerceSoldiers].
      rewrite Hread.
      rewrite (violationsFrom_nil_intro rt
                 (List.map reread (soldiers (validateAgainstXSD rt xmlData))) 0);
        [reflexivity |].
      intros k r Hk. rewrite nth_error_map in Hk.
      destruct (nth_error (soldiers (validateAgainstXSD rt xmlData)) k) as [record|] eqn:Ek;
        [| discriminate].
      injection Hk as <-. rewrite Hsold in Ek.
      pose proof (violationsFrom_nil_nth rt _ 0 k record Hnil Ek) as Hacc.
      apply (reread_accepted rt _ _ record Hacc).
    + reflexivity.
    + unfold candidates, parseExcel_xmlData.
      cbn [prop assoc String.eqb Ascii.eqb Bool.eqb optProp coerceSoldiers].
      rewrite Hread, Hsold.
      destruct (candidates xmlData); [now elim Hne | discriminate].
  - intros k record Hk. rewrite Hsold in Hk.
    pose proof (violationsFrom_nil_nth rt _ 0 k record Hnil Hk) as Hacc.
    destruct (reread_accepted rt _ 0 record Hacc) as (Hsame & Hdate & _).
    destruct (accepted_fields rt _ record Hacc) as (Htext & _).
    split; [| exact Hdate].
    intros f Hf. split; [| now apply Hsame].
    destruct (Htext f Hf) as (s & Es & _). now exists s.
Qed.

(** The tree read from the text written for the rows of a worksheet has no
    candidate: the writer puts the tree built from the rows, which names its
    root itself, inside the root element, and the validator looks for the
    candidates one level too high. *)
Lemma written_tree_has_no_candidate rt (sheet : Worksheet) :
  readsTheRootWritten rt (parseExcel_xmlData sheet) ->
  validateXML rt (js2xmlparser_parse rt (parseExcel_xmlData sheet)) =
  {| isValid := false;
     errors := ["XSD VIOLATION: At least one soldier record is required"];
     soldiers := [] |}.
Proof.
  intros (tree & members & Eread & Eroot & Hkeys).
  unfold validateXML. rewrite Eread. unfold validateAgainstXSD. rewrite Eroot.
  cbn [truthy negb optProp prop]. rewrite (Hkeys "soldier" eq_refl). reflexivity.
Qed.

(** C9 (the code departs from the claim): the rows written for an accepted
    batch are read back record for record, but [parseExcelToXML] hands the
    tree of these records to the writer together with the name of the root
    that the tree already holds; for a writer and a reader that put the
    members of what is written inside the root element and read them back
    there, the validator finds no candidate in the text: the round trip of a
    valid batch is rejected and returns no record. *)
Theorem valid_batch_is_lost_on_the_way_back rt xmlData :
  isValid (validateAgainstXSD rt xmlData) = true ->
  readsTheRootWritten rt (parseExcel_xmlData (writtenSheet rt xmlData)) ->
  soldiers (validateAgainstXSD rt xmlData) <> [] /\
  parseExcel_records (writtenSheet rt xmlData) =
    List.map reread (soldiers (validateAgainstXSD rt xmlData)) /\
  validateXML rt (js2xmlparser_parse rt (parseExcel_xmlData (writtenSheet rt xmlData))) =
    {| isValid := false;
       errors := ["XSD VIOLATION: At least one soldier record is required"];
       soldiers := [] |}.
Proof.
  intros Hvalid Hroot.
  destruct (rows_of_valid_batch_read_back rt xmlData Hvalid) as (Hne & Hread & _).
  split; [exact Hne |]. split; [exact Hread |].
  now apply written_tree_has_no_candidate.
Qed.

Lemma valid_batch_is_lost_on_the_way_back_witness :
  parseExcel_records (writtenSheet xmlRuntime (mkBatch [smith; jones])) = [smith; jones] /\
  validateXML xmlRuntime
    (js2xmlparser_parse xmlRuntime
       (parseExcel_xmlData (writtenSheet xmlRuntime (mkBatch [smith; jones])))) =
    {| isValid := false;
       errors := ["XSD VIOLATION: At least one soldier record is required"];
       soldiers := [] |}.
Proof.
  refine (proj2 (valid_batch_is_lost_on_the_way_back xmlRuntime (mkBatch [smith; jones])
                   eq_refl _)).
  exists (JObject [("army_records", mkBatch [smith; jones])]),
         [("army_records", JObject [("soldier", JArray [smith; jones])])].
  split; [vm_compute; reflexivity |]. split; [reflexivity |].
  intros key. unfold parseExcel_xmlData. cbn [prop assoc].
  destruct (String.eqb key "army_records"); [discriminate | reflexivity].
Defined.

(** ** The store *)

Lemma findIndex_found key db : forall i,
  findIndex key db = Some i ->
  exists existing,
    nth_error db i = Some existing /\ Soldier.id (Soldier.fields existing) = key.
Proof.
  induction db as [|d db IH]; intros i H; simpl in H; [discriminate |].
  destruct (Soldier.id (Soldier.fields d) =? key) eqn:E.
  - injection H as <-. exists d. split; [reflexivity | now apply String.eqb_eq].
  - destruct (findIndex key db) as [j|]; [| discriminate].
    injection H as <-. apply (IH j eq_refl).
Qed.

Lemma findIndex_none key db :
  findIndex key db = None ->
  forall d, In d db -> Soldier.id (Soldier.fields d) <> key.
Proof.
  induction db as [|x db IH]; intros H d Hin; simpl in *; [contradiction |].
  destruct (Soldier.id (Soldier.fields x) =? key) eqn:E; [discriminate |].
  destruct (findIndex key db); [discriminate |].
  destruct Hin as [<- | Hin]; [now apply String.eqb_neq | now apply IH].
Qed.

Lemma replaceAt_length d db : forall i, List.length (replaceAt i d db) = List.length db.
Proof.
  induction db as [|x db IH]; intros [|i]; simpl; try reflexivity. now rewrite IH.
Qed.

Lemma replaceAt_same d db : forall i x,
  nth_error db i = Some x -> nth_error (replaceAt i d db) i = Some d.
Proof.
  induction db as [|y db IH]; intros [|i] x H; simpl in *; try discriminate.
  - reflexivity.
  - now apply (IH i x).
Qed.

Lemma replaceAt_other d db : forall i n,
  n <> i -> nth_error (replaceAt i d db) n = nth_error db n.
Proof.
  induction db as [|y db IH]; intros [|i] [|n] H; simpl; try reflexivity.
  - now elim H.
  - apply IH. intros ->. now elim H.
Qed.

Section StoreFacts.

Variable rt : Runtime.
Variable faults : Faults.

(** Validation on [save()] passes for an accepted candidate, whatever the
    document held before. *)
Lemma castDoc_accepted j soldier old :
  soldierViolations rt j soldier = [] ->
  castDoc rt old soldier = Some (candidateFields soldier).
Proof.
  intros H. pose proof H as V. apply accepted_iff_valid in V.
  destruct (accepted_fields rt j soldier H) as (Htext & D1 & D2 & D3).
  destruct (Htext FId ltac:(discriminate)) as (i & Ei & Hi).
  destruct (Htext FName ltac:(discriminate)) as (n & En & Hn).
  destruct (Htext FRank ltac:(discriminate)) as (r & Er & Hr).
  destruct (Htext FUnit ltac:(discriminate)) as (u & Eu & Hu).
  destruct (Htext FStatus ltac:(discriminate)) as (s & Es & Hs).
  cbn [fieldKey] in *.
  unfold allFields in V. cbn [forallb fieldValid fieldKey] in V.
  rewrite Es in V. do 5 (apply andb_true_iff in V as [_ V]).
  apply andb_true_iff in V as [V _]. cbn [statusEnum_includes] in V.
  unfold castDoc, candidateFields. rewrite Ei, En, Er, Eu, Es.
  destruct (prop soldier "service_date") as [d|] eqn:Ed; [| discriminate].
  cbn [assignString assignDate castString required inEnum ToStringOpt ToString] in *.
  rewrite D3. cbn [required].
  apply String.eqb_neq in Hi, Hn, Hr, Hu, Hs. rewrite Hi, Hn, Hr, Hu, Hs.
  apply regex_nonempty, String.eqb_neq in D2. rewrite D2.
  cbn [inEnum]. now rewrite V.
Qed.

(** The [try] block either returns a document and leaves everything but the
    soldier collection as it was, or throws and leaves the world as it was. *)
Lemma saveSoldier_cases k soldier w :
  (exists doc w', saveSoldier rt faults k soldier w = (Returned doc, w') /\
                  sameOutsideStore w w') \/
  (exists e, saveSoldier rt faults k soldier w = (Thrown e, w)).
Proof.
  unfold saveSoldier, Soldier_findOne, bind, getWorld, ret, throw, setSoldiersDb.
  destruct (storeFails faults k); [right; eauto |].
  destruct (prop soldier "id") as [v|].
  - destruct (castString v) as [s|]; [| right; eauto].
    destruct (findIndex s (soldiersDb w)) as [i|].
    + destruct (nth_error (soldiersDb w) i) as [existing|]; [| right; eauto].
      destruct (castDoc rt (Some (Soldier.fields existing)) soldier); [| right; eauto].
      left. do 2 eexists. split; [reflexivity |]. now repeat split.
    + destruct (castDoc rt None soldier); [| right; eauto].
      left. do 2 eexists. split; [reflexivity |]. now repeat split.
  - destruct (castDoc rt None soldier); [| right; eauto].
    left. do 2 eexists. split; [reflexivity |]. now repeat split.
Qed.

Lemma saveSoldier_fault k soldier w :
  storeFails faults k = true ->
  exists e, saveSoldier rt faults k soldier w = (Thrown e, w).
Proof.
  intros H. unfold saveSoldier, Soldier_findOne, bind, throw. rewrite H. eauto.
Qed.

Lemma saveSoldier_accepted k j soldier w :
  soldierViolations rt j soldier = [] ->
  storeFails faults k = false ->
  exists doc w',
    saveSoldier rt faults k soldier w = (Returned doc, w') /\
    Soldier.fields doc = candidateFields soldier.
Proof.
  intros Hacc Hok.
  destruct (accepted_fields rt j soldier Hacc) as (Htext & _).
  destruct (Htext FId ltac:(discriminate)) as (i & Ei & _). cbn [fieldKey] in Ei.
  unfold saveSoldier, Soldier_findOne, bind, getWorld, ret, throw, setSoldiersDb.
  rewrite Hok, Ei. cbn [castString].
  destruct (findIndex i (soldiersDb w)) as [n|] eqn:Efind.
  - destruct (findIndex_found _ _ _ Efind) as (existing & Hnth & _).
    rewrite Hnth, (castDoc_accepted j soldier _ Hacc). eauto.
  - rewrite (castDoc_accepted j soldier _ Hacc). eauto.
Qed.

(** What the [try] block does for an accepted candidate whose store
    operations do not fail.  If a stored record has the identifier, the
    first such record is replaced in place by one with the candidate's six
    fields and the clock as its update time; the collection keeps its length
    and every other record.  Otherwise a fresh record with the candidate's
    six fields is added at the end. *)
Lemma saveSoldier_upserts k j soldier w :
  soldierViolations rt j soldier = [] ->
  storeFails faults k = false ->
  prop soldier "id" = Some (JString (Soldier.id (candidateFields soldier))) /\
  match findIndex (Soldier.id (candidateFields soldier)) (soldiersDb w) with
  | Some i =>
      exists existing w',
        nth_error (soldiersDb w) i = Some existing /\
        Soldier.id (Soldier.fields existing) = Soldier.id (candidateFields soldier) /\
        saveSoldier rt faults k soldier w =
          (Returned {| Soldier.fields := candidateFields soldier;
                       Soldier.created_at := Soldier.created_at existing;
                       Soldier.updated_at := now w |}, w') /\
        List.length (soldiersDb w') = List.length (soldiersDb w) /\
        nth_error (soldiersDb w') i =
          Some {| Soldier.fields := candidateFields soldier;
                  Soldier.created_at := Soldier.created_at existing;
                  Soldier.updated_at := now w |} /\
        (forall n, n <> i -> nth_error (soldiersDb w') n = nth_error (soldiersDb w) n)
  | None =>
      exists w',
        (forall d, In d (soldiersDb w) ->
           Soldier.id (Soldier.fields d) <> Soldier.id (candidateFields soldier)) /\
        saveSoldier rt faults k soldier w =
          (Returned {| Soldier.fields := candidateFields soldier;
                       Soldier.created_at := now w;
                       Soldier.updated_at := now w |}, w') /\
        soldiersDb w' =
          (soldiersDb w ++
           [{| Soldier.fields := candidateFields soldier;
               Soldier.created_at := now w;
               Soldier.updated_at := now w |}])%list
  end.
Proof.
  intros Hacc Hok.
  destruct (accepted_fields rt j soldier Hacc) as (Htext & _).
  destruct (Htext FId ltac:(discriminate)) as (i & Ei & _). cbn [fieldKey] in Ei.
  assert (Eid : Soldier.id (candidateFields soldier) = i).
  { unfold candidateFields. cbn [Soldier.id]. now rewrite Ei. }
  rewrite Eid. split; [exact Ei |].
  unfold saveSoldier, Soldier_findOne, bind, getWorld, ret, throw, setSoldiersDb.
  rewrite Hok, Ei. cbn [castString].
  destruct (findIndex i (soldiersDb w)) as [n|] eqn:Efind.
  - destruct (findIndex_found _ _ _ Efind) as (existing & Hnth & Hid).
    rewrite Hnth, (castDoc_accepted j soldier _ Hacc).
    exists existing. eexists. split; [reflexivity |]. split; [exact Hid |].
    split; [reflexivity |]. cbn [soldiersDb].
    split; [apply replaceAt_length |].
    split; [apply (replaceAt_same _ _ _ _ Hnth) |].
    intros m Hm. now apply replaceAt_other.
  - rewrite (castDoc_accepted j soldier _ Hacc).
    eexists. split; [apply (findIndex_none _ _ Efind) |].
    split; reflexivity.
Qed.

End StoreFacts.

(** ** Faults of the store stay with their candidate *)

Section LoopFacts.

Variable rt : Runtime.
Variable faults : Faults.

Lemma saveLoop_outcomes soldiers : forall k savedRecords w,
  exists outcomes w',
    saveLoop rt faults k soldiers savedRecords w =
      (Returned (savedRecords ++ stored outcomes)%list, w') /\
    List.length outcomes = List.length soldiers /\
    console w' = (console w ++ loggedFailures soldiers outcomes)%list /\
    (forall n soldier,
       nth_error soldiers n = Some soldier ->
       storeFails faults (k + n) = true ->
       nth_error outcomes n = Some None) /\
    (forall n soldier j,
       nth_error soldiers n = Some soldier ->
       soldierViolations rt j soldier = [] ->
       storeFails faults (k + n) = false ->
       exists doc,
         nth_error outcomes n = Some (Some doc) /\
         Soldier.fields doc = candidateFields soldier).
Proof.
  induction soldiers as [|s rest IH]; intros k savedRecords w.
  - exists [], w. cbn. rewrite !app_nil_r.
    repeat split; intros [|n] ? *; discriminate.
  - cbn [saveLoop]. unfold bind at 1. unfold tryCatch.
    destruct (saveSoldier_cases rt faults k s w) as [(doc & w1 & E & Hframe) | (e & E)].
    + unfold bind at 1. rewrite E. unfold ret at 1.
      destruct (IH (S k) (savedRecords ++ [doc])%list w1)
        as (outcomes & w' & Eloop & Hlen & Hcon & Hfail & Hacc).
      exists (Some doc :: outcomes), w'.
      split; [rewrite Eloop; cbn; now rewrite <- app_assoc |].
      split; [cbn; now rewrite Hlen |].
      split; [rewrite Hcon; destruct Hframe as (_ & _ & _ & _ & _ & -> & _); reflexivity |].
      split.
      * intros [|n] soldier Hn Hf; cbn in Hn.
        -- injection Hn as <-. rewrite Nat.add_0_r in Hf.
           destruct (saveSoldier_fault rt faults k s w Hf) as (e & E').
           rewrite E in E'. discriminate.
        -- cbn. apply (Hfail n soldier Hn). now replace (S k + n) with (k + S n) by lia.
      * intros [|n] soldier j Hn Hv Hok; cbn in Hn.
        -- injection Hn as <-. rewrite Nat.add_0_r in Hok.
           destruct (saveSoldier_accepted rt faults k j s w Hv Hok) as (doc' & w2 & E' & Hfields).
           rewrite E in E'. injection E' as <- <-. exists doc. now split.
        -- cbn. apply (Hacc n soldier j Hn Hv). now replace (S k + n) with (k + S n) by lia.
    + unfold bind at 1. rewrite E.
      unfold bind at 1. unfold console_error at 1. unfold ret at 1.
      match goal with
      | |- context [saveLoop rt faults (S k) rest savedRecords ?w2] =>
          destruct (IH (S k) savedRecords w2)
            as (outcomes & w' & Eloop & Hlen & Hcon & Hfail & Hacc)
      end.
      exists (None :: outcomes), w'.
      split; [rewrite Eloop; reflexivity |].
      split; [cbn; now rewrite Hlen |].
      split; [rewrite Hcon; cbn; now rewrite <- app_assoc |].
      split.
      * intros [|n] soldier Hn Hf; cbn in Hn; [reflexivity |].
        cbn. apply (Hfail n soldier Hn). now replace (S k + n) with (k + S n) by lia.
      * intros [|n] soldier j Hn Hv Hok; cbn in Hn.
        -- injection Hn as <-. rewrite Nat.add_0_r in Hok.
           destruct (saveSoldier_accepted rt faults k j s w Hv Hok) as (doc' & w2 & E' & _).
           rewrite E in E'. discriminate.
        -- cbn. apply (Hacc n soldier j Hn Hv). now replace (S k + n) with (k + S n) by lia.
Qed.

(** C7: [saveToMongoDB] never throws, and every candidate of the batch has
    its own outcome, in order: a saved document, or a line on the error
    console that names its identifier.  A candidate whose store operation
    fails is logged, and this changes nothing for the others: every accepted
    candidate whose own store operation does not fail is saved with its six
    fields. *)
Theorem store_faults_do_not_abort_batch soldiers w :
  exists outcomes w',
    saveToMongoDB rt faults soldiers w = (Returned (stored outcomes), w') /\
    List.length outcomes = List.length soldiers /\
    console w' = (console w ++ loggedFailures soldiers outcomes)%list /\
    (forall k soldier,
       nth_error soldiers k = Some soldier ->
       storeFails faults k = true ->
       nth_error outcomes k = Some None /\
       In (savingError soldier) (console w')) /\
    (forall k soldier j,
       nth_error soldiers k = Some soldier ->
       soldierViolations rt j soldier = [] ->
       storeFails faults k = false ->
       exists doc,
         nth_error outcomes k = Some (Some doc) /\
         In doc (stored outcomes) /\
         Soldier.fields doc = candidateFields soldier).
Proof.
  destruct (saveLoop_outcomes soldiers 0 [] w)
    as (outcomes & w' & Eloop & Hlen & Hcon & Hfail & Hacc).
  exists outcomes, w'. split; [exact Eloop |]. split; [exact Hlen |].
  split; [exact Hcon |]. split.
  - intros k soldier Hk Hf. pose proof (Hfail k soldier Hk Hf) as Hnone.
    split; [exact Hnone |].
    rewrite Hcon. apply in_or_app. right. unfold loggedFailures.
    apply in_flat_map. exists (soldier, None). split; [| now left].
    clear - Hk Hnone. revert k outcomes Hk Hnone.
    induction soldiers as [|s rest IH]; intros [|k] [|o outcomes] Hk Hn;
      cbn in *; try discriminate.
    + injection Hk as ->. injection Hn as ->. now left.
    + right. now apply (IH k).
  - intros k soldier j Hk Hv Hok.
    destruct (Hacc k soldier j Hk Hv Hok) as (doc & Hdoc & Hfields).
    exists doc. split; [exact Hdoc |]. split; [| exact Hfields].
    unfold stored. apply in_flat_map. exists (Some doc).
    split; [now apply nth_error_In with k | now left].
Qed.

End LoopFacts.

Lemma store_faults_do_not_abort_batch_witness :
  saveToMongoDB sampleRuntime (storeFaultAt 0) [smith; jones] emptyWorld =
  (Returned [{| Soldier.fields := candidateFields jones;
                Soldier.created_at := 100; Soldier.updated_at := 100 |}],
   {| soldiersDb := [{| Soldier.fields := candidateFields jones;
                        Soldier.created_at := 100; Soldier.updated_at := 100 |}];
      logsDb := []; uploadsDir := ["upload-1"]; correctedDir := []; invalidDir := [];
      excelExports := []; console := ["Error saving soldier A-001:"]; now := 100 |}) /\
  In (savingError smith) ["Error saving soldier A-001:"].
Proof.
  split; [reflexivity |].
  destruct (store_faults_do_not_abort_batch sampleRuntime (storeFaultAt 0)
              [smith; jones] emptyWorld)
    as (outcomes & w' & Erun & _ & _ & Hfail & _).
  injection Erun as _ <-.
  exact (proj2 (Hfail 0 smith eq_refl eq_refl)).
Defined.

(** ** The routes *)

Section RouteFacts.

Variable rt : Runtime.
Variable faults : Faults.

Ltac run_route :=
  unfold upload_xml, reupload_corrected, parseExcelToXML, fs_readFile, createInvalidExcel,
    xlsx_writeFile, fs_move, ProcessingLog_create, console_error, tryCatch, bind, ret, throw.

(** C1: a submission whose verdict is a rejection leaves the soldier
    collection as it was, on the upload route and on the re-upload route,
    whichever file-system or ledger operation fails on the way. *)
Theorem rejected_batch_persists_nothing w :
  (forall file : UploadedFile string,
     isValid (validateXML rt (content file)) = false ->
     soldiersDb (snd (upload_xml rt faults (Some file) w)) = soldiersDb w) /\
  (forall (file : UploadedFile (option Worksheet)) sheet,
     content file = Some sheet ->
     isValid (validateXML rt (js2xmlparser_parse rt (parseExcel_xmlData sheet))) = false ->
     soldiersDb (snd (reupload_corrected rt faults (Some file) w)) = soldiersDb w).
Proof.
  split.
  - intros file Hrej. run_route.
    destruct (readFileFails faults); [reflexivity |]. rewrite Hrej.
    destruct (writeFileFails faults), (moveFails faults), (logCreateFails faults);
      reflexivity.
  - intros file sheet Hsheet Hrej. run_route. rewrite Hsheet.
    destruct (readFileFails faults); [reflexivity |]. rewrite Hrej.
    destruct (writeFileFails faults), (moveFails faults); reflexivity.
Qed.

(** C5, on the code: a rejected re-upload leaves the ledger as it was; no
    entry is created for it. *)
Theorem rejected_reupload_writes_no_log (file : UploadedFile (option Worksheet)) sheet w :
  content file = Some sheet ->
  isValid (validateXML rt (js2xmlparser_parse rt (parseExcel_xmlData sheet))) = false ->
  logsDb (snd (reupload_corrected rt faults (Some file) w)) = logsDb w.
Proof.
  intros Hsheet Hrej. run_route. rewrite Hsheet.
  destruct (readFileFails faults); [reflexivity |]. rewrite Hrej.
  destruct (writeFileFails faults), (moveFails faults); reflexivity.
Qed.

(** The sibling route does create the entry: a rejected upload, when no
    operation fails, adds exactly one entry with outcome [invalid], no
    accepted record and the whole violation list. *)
Lemma rejected_upload_writes_one_log (file : UploadedFile string) w :
  isValid (validateXML rt (content file)) = false ->
  readFileFails faults = false -> writeFileFails faults = false ->
  moveFails faults = false -> logCreateFails faults = false ->
  logsDb (snd (upload_xml rt faults (Some file) w)) =
  (logsDb w ++
   [{| log_filename := originalname file; log_status := "invalid";
       valid_count := 0;
       invalid_count := List.length (soldiers (validateXML rt (content file)));
       log_errors := errors (validateXML rt (content file));
       processed_at := now w |}])%list.
Proof.
  intros Hrej H1 H2 H3 H4. run_route. now rewrite H1, Hrej, H2, H3, H4.
Qed.

End RouteFacts.

Lemma rejected_batch_persists_nothing_witness :
  soldiersDb
    (snd (upload_xml (fixedRuntime (mkBatch [smithPromoted; jonesMissing])) noFaults
            (Some xmlUpload) worldWithSmith)) = [smithDoc].
Proof.
  exact (proj1 (rejected_batch_persists_nothing
                  (fixedRuntime (mkBatch [smithPromoted; jonesMissing])) noFaults
                  worldWithSmith) xmlUpload eq_refl).
Defined.

Lemma rejected_reupload_writes_no_log_witness :
  logsDb
    (snd (reupload_corrected (fixedRuntime (mkBatch [jonesMissing])) noFaults
            (Some (excelUpload
                     [headerRow;
                      sheetRow "A-002" "Mary Jones" "Captain" "Bravo Company" "2019-06-30"
                        "Missing in Action"]))
            emptyWorld)) = [].
Proof.
  exact (rejected_reupload_writes_no_log (fixedRuntime (mkBatch [jonesMissing])) noFaults
           (excelUpload
              [headerRow;
               sheetRow "A-002" "Mary Jones" "Captain" "Bravo Company" "2019-06-30"
                 "Missing in Action"])
           [headerRow;
            sheetRow "A-002" "Mary Jones" "Captain" "Bravo Company" "2019-06-30"
              "Missing in Action"]
           emptyWorld eq_refl eq_refl).
Defined.

(** * Further properties of the validator *)

Lemma violationsFrom_In_inv rt l : forall index e,
  In e (violationsFrom rt index l) ->
  exists k soldier,
    nth_error l k = Some soldier /\ In e (soldierViolations rt (index + k) soldier).
Proof.
  induction l as [|s l IH]; intros index e H; [contradiction |].
  cbn [violationsFrom] in H. apply in_app_or in H as [H | H].
  - exists 0, s. rewrite Nat.add_0_r. now split.
  - destruct (IH (S index) e H) as (k & soldier & Hk & He).
    exists (S k), soldier. split; [exact Hk |].
    now replace (index + S k) with (S index + k) by lia.
Qed.

Lemma candidates_root_truthy xmlData v :
  optProp (prop xmlData "army_records") "soldier" = Some v ->
  truthy (prop xmlData "army_records") = true.
Proof.
  destruct (prop xmlData "army_records") as [[s|n|b|xs|ps]|]; simpl;
    try discriminate; reflexivity.
Qed.

(** What a candidate contributes when five of its fields are valid: the
    blocks of the sixth. *)
Lemma soldierViolations_one_field rt k soldier f :
  othersValid rt f soldier = true ->
  soldierViolations rt k soldier = fieldBlocks rt k soldier f.
Proof.
  intros Hothers.
  unfold othersValid, allFields in Hothers. cbn [forallb] in Hothers.
  repeat (apply andb_true_iff in Hothers as [?H Hothers]).
  unfold soldierViolations, fieldBlocks. cbv zeta.
  destruct f; cbn [Field_eqb orb fieldValid fieldKey fieldLabel fieldMax isTextField] in *;
    repeat match goal with
      | H : validText ?m ?v = true |- _ =>
          let H1 := fresh in let H2 := fresh in
          pose proof (fun l => proj1 (validText_blocks (k + 1) l m v H)) as H1;
          pose proof (fun l => proj2 (validText_blocks (k + 1) l m v H)) as H2;
          rewrite ?H1, ?H2; clear H H1 H2
      end;
    repeat match goal with
      | H : statusEnum_includes ?v = true |- _ =>
          rewrite (proj2 (status_block_iff (k + 1) v) H); clear H
      | H : truthy ?v && dateRegex_test _ && negb _ = true |- _ =>
          rewrite (proj2 (date_block_iff rt (k + 1) v) H); clear H
      end;
    cbn [app]; rewrite ?app_nil_r; reflexivity.
Qed.

(** X1: a tree is accepted exactly when its root is present, it has at
    least one candidate, and every candidate satisfies the rule of each of
    its six fields; an accepted verdict has no violation and returns the
    candidates. *)
Theorem accepted_iff_all_fields_valid rt xmlData :
  (isValid (validateAgainstXSD rt xmlData) = true <->
   truthy (prop xmlData "army_records") = true /\
   candidates xmlData <> [] /\
   forall soldier, In soldier (candidates xmlData) ->
                   forallb (fun f => fieldValid rt f soldier) allFields = true) /\
  (isValid (validateAgainstXSD rt xmlData) = true ->
   errors (validateAgainstXSD rt xmlData) = [] /\
   soldiers (validateAgainstXSD rt xmlData) = candidates xmlData).
Proof.
  split; [split |].
  - intros H. destruct (valid_checked rt xmlData H) as (Hroot & Hne & Hnil & _).
    repeat split; try assumption.
    intros soldier Hin. apply In_nth_error in Hin as [k Hk].
    apply (accepted_iff_valid rt k). exact (violationsFrom_nil_nth rt _ 0 k soldier Hnil Hk).
  - intros (Hroot & Hne & Hall). rewrite (validate_checked rt _ Hroot Hne). cbn [isValid].
    rewrite (violationsFrom_nil_intro rt (candidates xmlData) 0); [reflexivity |].
    intros k soldier Hk. apply accepted_iff_valid, Hall. now apply nth_error_In with k.
  - intros H. destruct (valid_checked rt xmlData H) as (Hroot & Hne & Hnil & Hsold).
    split; [| exact Hsold]. now rewrite (validate_checked rt _ Hroot Hne).
Qed.

Lemma accepted_iff_all_fields_valid_witness :
  isValid (validateAgainstXSD sampleRuntime (mkBatch [smith; jones])) = true /\
  errors (validateAgainstXSD sampleRuntime (mkBatch [smith; jones])) = [].
Proof.
  assert (H : isValid (validateAgainstXSD sampleRuntime (mkBatch [smith; jones])) = true).
  { apply (proj1 (accepted_iff_all_fields_valid sampleRuntime (mkBatch [smith; jones]))).
    split; [reflexivity |]. split; [discriminate |].
    intros soldier [<- | [<- | []]]; reflexivity. }
  split; [exact H |].
  exact (proj1 (proj2 (accepted_iff_all_fields_valid sampleRuntime (mkBatch [smith; jones])) H)).
Defined.

(** X2: whatever the file holds, the verdict of [validateXML] is an
    acceptance exactly when its violation list is empty, and a verdict
    without candidates is a rejection with exactly one violation. *)
Theorem verdict_is_consistent rt xmlContent :
  (isValid (validateXML rt xmlContent) = true <-> errors (validateXML rt xmlContent) = []) /\
  (soldiers (validateXML rt xmlContent) = [] ->
   isValid (validateXML rt xmlContent) = false /\
   exists e, errors (validateXML rt xmlContent) = [e]).
Proof.
  assert (One : forall e : string,
            (false = true <-> [e] = []) /\
            (@nil JsValue = [] -> false = false /\ exists e', [e] = [e'])).
  { intros e. split; [split; discriminate | intros _; split; eauto]. }
  unfold validateXML. destruct (XMLParser_parse rt xmlContent) as [tree | message].
  - unfold validateAgainstXSD.
    destruct (negb (truthy (prop tree "army_records"))); [apply One |].
    destruct (List.length (coerceSoldiers (optProp (prop tree "army_records") "soldier")) =? 0)%nat
      eqn:E; [apply One |].
    cbv zeta. cbn [isValid errors soldiers]. split.
    + destruct (forEachSoldier rt 0 _ []); split; intros H; try discriminate; reflexivity.
    + intros H. rewrite H in E. discriminate.
  - apply One.
Qed.

Lemma verdict_is_consistent_witness :
  isValid (validateXML (nodeRuntime (fun _ => ParseThrows "Unexpected end") (fun _ => ""))
             "<army_records>") = false /\
  exists e,
    errors (validateXML (nodeRuntime (fun _ => ParseThrows "Unexpected end") (fun _ => ""))
              "<army_records>") = [e].
Proof.
  exact (proj2 (verdict_is_consistent
                  (nodeRuntime (fun _ => ParseThrows "Unexpected end") (fun _ => ""))
                  "<army_records>") eq_refl).
Defined.

(** X3: a single record in place of the collection is validated as the
    collection of that one record: for a tree whose [soldier] is no array
    and not empty, the verdict is the verdict on the batch of that record. *)
Theorem single_record_is_batch_of_one rt xmlData v :
  optProp (prop xmlData "army_records") "soldier" = Some v ->
  (forall xs, v <> JArray xs) ->
  truthy (Some v) = true ->
  validateAgainstXSD rt xmlData = validateAgainstXSD rt (mkBatch [v]) /\
  soldiers (validateAgainstXSD rt xmlData) = [v].
Proof.
  intros Hv Hna Ht.
  assert (Hc : candidates xmlData = [v]).
  { unfold candidates. rewrite Hv. unfold coerceSoldiers. rewrite Ht.
    destruct v; try reflexivity. now elim (Hna xs). }
  assert (Hne : candidates xmlData <> []) by (rewrite Hc; discriminate).
  rewrite (validate_checked rt _ (candidates_root_truthy _ _ Hv) Hne), Hc.
  assert (Hb : candidates (mkBatch [v]) = [v]) by reflexivity.
  rewrite (validate_checked rt (mkBatch [v]) eq_refl ltac:(rewrite Hb; discriminate)), Hb.
  split; reflexivity.
Qed.

Lemma single_record_is_batch_of_one_witness :
  validateAgainstXSD sampleRuntime (singleTree jonesMissing) =
  validateAgainstXSD sampleRuntime (mkBatch [jonesMissing]).
Proof.
  refine (proj1 (single_record_is_batch_of_one sampleRuntime (singleTree jonesMissing)
                   jonesMissing eq_refl _ eq_refl)).
  intros xs. discriminate.
Defined.

(** X4: every violation of a verdict with candidates carries the ordinal of
    one of them: it is a violation of the candidate at some position k below
    the number of candidates, tagged k + 1. *)
Theorem every_violation_is_tagged rt xmlData e :
  soldiers (validateAgainstXSD rt xmlData) <> [] ->
  In e (errors (validateAgainstXSD rt xmlData)) ->
  exists k soldier body,
    nth_error (soldiers (validateAgainstXSD rt xmlData)) k = Some soldier /\
    (k < List.length (soldiers (validateAgainstXSD rt xmlData)))%nat /\
    e = violation (k + 1) body /\
    In e (soldierViolations rt k soldier).
Proof.
  intros Hne Hin. rewrite (soldiers_errors rt xmlData Hne) in Hin.
  destruct (violationsFrom_In_inv rt _ 0 e Hin) as (k & soldier & Hk & He).
  cbn [Nat.add] in He.
  pose proof (soldierViolations_tagged rt k soldier) as T.
  rewrite Forall_forall in T. destruct (T e He) as [body ->].
  exists k, soldier, body. repeat split; try assumption.
  apply nth_error_Some. rewrite Hk. discriminate.
Qed.

Lemma every_violation_is_tagged_witness :
  exists k soldier body,
    nth_error (soldiers (validateAgainstXSD sampleRuntime (mkBatch [smith; jonesMissing]))) k
      = Some soldier /\
    (k < 2)%nat /\
    "XSD VIOLATION: Soldier 2 - Status must be one of: Active, Retired, Deceased (got: Missing in Action)"
      = violation (k + 1) body.
Proof.
  destruct (every_violation_is_tagged sampleRuntime (mkBatch [smith; jonesMissing])
              "XSD VIOLATION: Soldier 2 - Status must be one of: Active, Retired, Deceased (got: Missing in Action)"
              ltac:(discriminate) ltac:(now left))
    as (k & soldier & body & Hk & Hlt & He & _).
  exists k, soldier, body. repeat split; assumption.
Defined.



(** X6: the length ceilings are inclusive: a candidate whose other five
    fields are valid and whose identifier, name, rank or unit is a non-empty
    text contributes no violation when the text has at most 50, 100, 50 or
    100 characters, and exactly the length violation of that field when it
    has more. *)
Theorem length_ceiling_is_inclusive rt k soldier f s :
  isTextField f = true ->
  prop soldier (fieldKey f) = Some (JString s) ->
  s <> "" ->
  othersValid rt f soldier = true ->
  soldierViolations rt k soldier =
  if (Z.of_nat (String.length s) <=? fieldMax f)%Z then []
  else [violation (k + 1)
          (fieldLabel f ++ " length exceeds maximum (" ++ Z_toString (fieldMax f) ++
           " characters)")].
Proof.
  intros Hf Hv Hs Ho. rewrite (soldierViolations_one_field rt k soldier f Ho).
  unfold fieldBlocks. rewrite Hf, Hv.
  unfold checkString, checkLength, length_gt. cbn [truthy typeof optProp prop].
  apply String.eqb_neq in Hs. rewrite Hs. cbn.
  rewrite Z.leb_antisym. now destruct (fieldMax f <? Z.of_nat (String.length s))%Z.
Qed.

Lemma length_ceiling_is_inclusive_witness :
  soldierViolations sampleRuntime 0 smithLongRank =
  ["XSD VIOLATION: Soldier 1 - Rank length exceeds maximum (50 characters)"].
Proof.
  exact (length_ceiling_is_inclusive sampleRuntime 0 smithLongRank FRank
           "Sergeant Major of the Army of the Northern Command!"
           eq_refl eq_refl ltac:(discriminate) eq_refl).
Defined.

(** X7: an identifier, name, rank or unit that is a number other than 0 or
    the boolean true, as delivered for numeric or boolean text, is reported
    once as not being a string, when the other five fields are valid. *)
Theorem scalar_in_text_field_is_not_a_string rt k soldier f v :
  isTextField f = true ->
  prop soldier (fieldKey f) = Some v ->
  (exists n, v = JNumber n /\ n <> 0%Z) \/ v = JBoolean true ->
  othersValid rt f soldier = true ->
  soldierViolations rt k soldier =
  [violation (k + 1) (fieldLabel f ++ " must be a string")].
Proof.
  intros Hf Hv Hscalar Ho. rewrite (soldierViolations_one_field rt k soldier f Ho).
  unfold fieldBlocks. rewrite Hf, Hv.
  unfold checkString, checkLength, length_gt.
  destruct Hscalar as [(n & -> & Hn) | ->]; cbn.
  - apply Z.eqb_neq in Hn. now rewrite Hn.
  - reflexivity.
Qed.

Lemma scalar_in_text_field_is_not_a_string_witness :
  soldierViolations sampleRuntime 0 smithNumericId =
  ["XSD VIOLATION: Soldier 1 - ID must be a string"].
Proof.
  refine (scalar_in_text_field_is_not_a_string sampleRuntime 0 smithNumericId FId
            (JNumber 7) eq_refl eq_refl _ eq_refl).
  left. exists 7%Z. split; [reflexivity | discriminate].
Defined.

(** * Further properties of the spreadsheets *)

Lemma summaryBlock_has_no_record errs :
  List.filter
    (fun row => negb (cellText (getCell row 1) =? "") &&
                negb (cellText (getCell row 2) =? ""))
    (summaryBlock errs) = [].
Proof.
  unfold summaryBlock. destruct (0 <? List.length errs)%nat; [| reflexivity].
  cbn [List.filter]. change (cellText (getCell [] 1)) with "".
  change (cellText (getCell (summaryRow "ALL SCHEMA VIOLATIONS:") 1)) with "".
  cbn [String.eqb negb andb].
  induction errs as [|e errs IH]; [reflexivity |]. cbn [List.map List.filter].
  change (cellText (getCell (summaryRow e) 1)) with "". cbn [String.eqb negb andb].
  exact IH.
Qed.

Lemma recordRows_kept errs records : forall index,
  List.map rowRecord
    (List.filter
       (fun row => negb (cellText (getCell row 1) =? "") &&
                   negb (cellText (getCell row 2) =? ""))
       (recordRows index records errs)) =
  List.map reread (List.filter hasIdAndName records).
Proof.
  induction records as [|r records IH]; intros index; [reflexivity |].
  cbn [recordRows List.filter].
  change (negb (cellText (getCell (recordRow index r errs) 1) =? "") &&
          negb (cellText (getCell (recordRow index r errs) 2) =? ""))
    with (hasIdAndName r).
  destruct (hasIdAndName r); cbn [List.map]; now rewrite IH.
Qed.

(** X8: reading an annotated spreadsheet back gives, in order, exactly the
    records whose identifier and name show as text in their rows; the blank
    row, the heading and the violation rows of the summary block never
    become candidates, whatever the records and the violation list are. *)
Theorem annotated_sheet_reads_back_its_records records errs :
  parseExcel_records (createInvalidExcel_sheet records errs) =
  List.map reread (List.filter hasIdAndName records).
Proof.
  rewrite parseExcel_records_kept. unfold createInvalidExcel_sheet. cbn [List.tl].
  rewrite filter_app, map_app, summaryBlock_has_no_record, recordRows_kept.
  apply app_nil_r.
Qed.

(** X9: every record read from a worksheet has the six fields as texts, with
    a non-empty identifier and a non-empty name, and there is at most one
    record per row after the first. *)
Theorem read_records_are_six_texts (worksheet : Worksheet) record :
  In record (parseExcel_records worksheet) ->
  (exists i n r u d s,
     record = mkSoldier i n r u d s /\ i <> "" /\ n <> "") /\
  (List.length (parseExcel_records worksheet) <= List.length worksheet - 1)%nat.
Proof.
  rewrite parseExcel_records_kept. intros Hin. split.
  - apply in_map_iff in Hin as (row & <- & Hrow). apply filter_In in Hrow as [_ Hkeep].
    apply andb_true_iff in Hkeep as [Hi Hn].
    apply negb_true_iff, String.eqb_neq in Hi, Hn.
    unfold rowRecord, mkSoldier. do 6 eexists. split; [reflexivity |]. now split.
  - rewrite length_map. etransitivity; [apply filter_length_le |].
    destruct worksheet; cbn; lia.
Qed.

Lemma read_records_are_six_texts_witness :
  exists i n r u d s,
    smith = mkSoldier i n r u d s /\ i <> "" /\ n <> "".
Proof.
  exact (proj1 (read_records_are_six_texts
                  [headerRow;
                   sheetRow "A-001" "John Smith" "Sergeant" "Alpha Company" "2020-01-15" "Active";
                   rowWithoutName]
                  smith ltac:(now left))).
Defined.

(** * Further properties of the store *)

Lemma replaceAt_ids i doc db : forall existing,
  nth_error db i = Some existing -> docId doc = docId existing ->
  List.map docId (replaceAt i doc db) = List.map docId db.
Proof.
  revert i. induction db as [|x db IH]; intros [|i] existing H E; simpl in *;
    try discriminate.
  - injection H as ->. now rewrite E.
  - f_equal. now apply (IH i existing).
Qed.

Lemma replaceAt_In_other i doc db : forall existing d,
  nth_error db i = Some existing -> In d db -> docId d <> docId existing ->
  In d (replaceAt i doc db).
Proof.
  revert i. induction db as [|x db IH]; intros [|i] existing d H Hin Hne; simpl in *;
    try discriminate.
  - injection H as ->. destruct Hin as [-> | Hin]; [now elim Hne | now right].
  - destruct Hin as [-> | Hin]; [now left | right; now apply (IH i existing)].
Qed.

Lemma replaceAt_In_inv i doc db : forall d,
  In d (replaceAt i doc db) -> d = doc \/ In d db.
Proof.
  revert i. induction db as [|x db IH]; intros [|i] d H; simpl in *; try contradiction.
  - destruct H as [<- | H]; auto.
  - destruct H as [<- | H]; [auto |]. destruct (IH i d H); auto.
Qed.

Lemma findIndex_In key db :
  In key (List.map docId db) -> exists i, findIndex key db = Some i.
Proof.
  induction db as [|d db IH]; intros H; [contradiction |]. cbn [findIndex].
  fold (docId d). destruct (docId d =? key) eqn:E; [eauto |].
  destruct H as [H | H]; [apply String.eqb_neq in E; now elim E |].
  destruct (IH H) as [i ->]. cbn. eauto.
Qed.

Lemma findIndex_first key db : forall i,
  findIndex key db = Some i ->
  forall j d, (j < i)%nat -> nth_error db j = Some d -> docId d <> key.
Proof.
  induction db as [|x db IH]; intros i H j d Hj Hd; simpl in H; [discriminate |].
  fold (docId x) in H. destruct (docId x =? key) eqn:E.
  - injection H as <-. lia.
  - destruct (findIndex key db) as [n|]; [| discriminate]. injection H as <-.
    destruct j as [|j]; simpl in Hd.
    + injection Hd as <-. now apply String.eqb_neq.
    + apply (IH n eq_refl j d); [lia | exact Hd].
Qed.

Lemma findIndex_replaceAt key db doc : forall i existing,
  findIndex key db = Some i -> nth_error db i = Some existing -> docId doc = key ->
  findIndex key (replaceAt i doc db) = Some i.
Proof.
  induction db as [|x db IH]; intros i existing H Hn Hd; simpl in H; [discriminate |].
  fold (docId x) in H. destruct (docId x =? key) eqn:E.
  - injection H as <-. cbn. fold (docId doc). rewrite Hd, String.eqb_refl. reflexivity.
  - destruct (findIndex key db) as [n|] eqn:F; [| discriminate]. injection H as <-.
    cbn in Hn |- *. fold (docId x). rewrite E, (IH n existing eq_refl Hn Hd). reflexivity.
Qed.

Lemma findIndex_appended key db doc :
  findIndex key db = None -> docId doc = key ->
  findIndex key (db ++ [doc]) = Some (List.length db) /\
  nth_error (db ++ [doc]) (List.length db) = Some doc.
Proof.
  intros H Hd. split.
  - induction db as [|x db IH]; cbn in H |- *.
    + fold (docId doc). now rewrite Hd, String.eqb_refl.
    + fold (docId x) in H |- *. destruct (docId x =? key); [discriminate |].
      destruct (findIndex key db); [discriminate |]. now rewrite IH.
  - rewrite nth_error_app2, Nat.sub_diag by lia. reflexivity.
Qed.

Section StoreInvariants.

Variable rt : Runtime.
Variable faults : Faults.

Lemma castDoc_id old soldier f v key :
  castDoc rt old soldier = Some f ->
  prop soldier "id" = Some v -> castString v = Some key ->
  Soldier.id f = key /\ key <> "".
Proof.
  unfold castDoc. intros H Hv Hk. rewrite Hv in H. cbn [assignString] in H.
  rewrite Hk in H. cbn [required] in H.
  destruct (key =? "") eqn:E; [discriminate |].
  repeat match type of H with
    | context [match ?x with _ => _ end] => destruct x; try discriminate
    end.
  injection H as <-. split; [reflexivity | now apply String.eqb_neq].
Qed.

Lemma castDoc_needs_id old soldier f :
  castDoc rt old soldier = Some f -> old = None -> prop soldier "id" <> None.
Proof.
  unfold castDoc. intros H -> E. rewrite E in H. discriminate.
Qed.

(** What the [try] block did when it returned: an upsert under the text of
    the candidate's identifier. *)
Lemma saveSoldier_returned k soldier w doc w' :
  saveSoldier rt faults k soldier w = (Returned doc, w') ->
  docId doc <> "" /\
  ((exists i existing,
      findIndex (docId doc) (soldiersDb w) = Some i /\
      nth_error (soldiersDb w) i = Some existing /\
      keeps existing doc /\
      soldiersDb w' = replaceAt i doc (soldiersDb w)) \/
   (findIndex (docId doc) (soldiersDb w) = None /\
    soldiersDb w' = (soldiersDb w ++ [doc])%list)).
Proof.
  unfold saveSoldier, Soldier_findOne, bind, getWorld, ret, throw, setSoldiersDb.
  destruct (storeFails faults k); [discriminate |].
  destruct (prop soldier "id") as [v|] eqn:Hv.
  - destruct (castString v) as [key|] eqn:Hk; [| discriminate].
    destruct (findIndex key (soldiersDb w)) as [i|] eqn:Hfind.
    + destruct (findIndex_found _ _ _ Hfind) as (existing & Hnth & Hid).
      rewrite Hnth.
      destruct (castDoc rt (Some (Soldier.fields existing)) soldier) as [f|] eqn:Hcast;
        [| discriminate].
      destruct (castDoc_id _ _ _ _ _ Hcast Hv Hk) as [Hf Hne].
      intros H. injection H as <- <-. unfold docId at 1 2. cbn [Soldier.fields soldiersDb].
      rewrite Hf. split; [exact Hne |]. left. exists i, existing.
      repeat split; try assumption. unfold docId. cbn. now rewrite Hf, Hid.
    + destruct (castDoc rt None soldier) as [f|] eqn:Hcast; [| discriminate].
      destruct (castDoc_id _ _ _ _ _ Hcast Hv Hk) as [Hf Hne].
      intros H. injection H as <- <-. unfold docId. cbn [Soldier.fields soldiersDb].
      rewrite Hf. split; [exact Hne |]. right. now split.
  - destruct (castDoc rt None soldier) as [f|] eqn:Hcast; [| discriminate].
    now elim (castDoc_needs_id _ _ _ Hcast eq_refl).
Qed.

(** A property of the collection kept by every returning [try] block is kept
    by the whole loop. *)
Lemma saveLoop_preserves (P : list Soldier.Doc -> Prop) :
  (forall k soldier w doc w',
     P (soldiersDb w) -> saveSoldier rt faults k soldier w = (Returned doc, w') ->
     P (soldiersDb w')) ->
  forall soldiers k savedRecords w,
    P (soldiersDb w) ->
    P (soldiersDb (snd (saveLoop rt faults k soldiers savedRecords w))).
Proof.
  intros Hstep soldiers. induction soldiers as [|s rest IH]; intros k savedRecords w Hw;
    [exact Hw |].
  cbn [saveLoop]. unfold bind at 1. unfold tryCatch.
  destruct (saveSoldier_cases rt faults k s w) as [(doc & w1 & E & _) | (e & E)].
  - unfold bind at 1. rewrite E. unfold ret at 1. apply IH. exact (Hstep _ _ _ _ _ Hw E).
  - unfold bind at 1. rewrite E. unfold bind at 1. unfold console_error at 1.
    unfold ret at 1. apply IH. exact Hw.
Qed.

(** X10: identifiers stay unique: if no two stored records share an
    identifier before [saveToMongoDB], none do after it, whatever the
    candidates are and whichever store operations fail. *)
Theorem identifiers_stay_unique soldiers w :
  NoDup (List.map docId (soldiersDb w)) ->
  NoDup (List.map docId (soldiersDb (snd (saveToMongoDB rt faults soldiers w)))).
Proof.
  intros Hw. unfold saveToMongoDB.
  apply (saveLoop_preserves (fun db => NoDup (List.map docId db))); [| exact Hw].
  intros k soldier w0 doc w' Hnd E.
  destruct (saveSoldier_returned _ _ _ _ _ E)
    as [_ [(i & existing & _ & Hnth & [Hid _] & ->) | [Hnone ->]]].
  - now rewrite (replaceAt_ids i doc _ existing Hnth Hid).
  - rewrite map_app. cbn [List.map].
    apply (Permutation_NoDup (Permutation_cons_append _ _)).
    constructor; [| exact Hnd].
    intros Hin. apply in_map_iff in Hin as (d & Hd & Hin).
    exact (findIndex_none _ _ Hnone d Hin Hd).
Qed.

End StoreInvariants.

Lemma identifiers_stay_unique_witness :
  NoDup
    (List.map docId
       (soldiersDb (snd (saveToMongoDB sampleRuntime noFaults [smithPromoted; jones; smith]
                           worldWithSmith)))).
Proof.
  apply (identifiers_stay_unique sampleRuntime noFaults [smithPromoted; jones; smith]
           worldWithSmith).
  cbn. constructor; [intros [] | constructor].
Defined.

Lemma replaceAt_map {B : Type} (g : Soldier.Doc -> B) i doc db : forall existing,
  nth_error db i = Some existing -> g doc = g existing ->
  List.map g (replaceAt i doc db) = List.map g db.
Proof.
  revert i. induction db as [|x db IH]; intros [|i] existing H E; simpl in *;
    try discriminate.
  - injection H as ->. now rewrite E.
  - f_equal. now apply (IH i existing).
Qed.

Lemma replaceAt_In_cases i doc db : forall existing d,
  nth_error db i = Some existing -> In d db ->
  In d (replaceAt i doc db) \/ d = existing.
Proof.
  revert i. induction db as [|x db IH]; intros [|i] existing d H Hin; simpl in *;
    try discriminate.
  - injection H as ->. destruct Hin as [-> | Hin]; auto.
  - destruct Hin as [-> | Hin]; [auto |].
    destruct (IH i existing d H Hin); auto.
Qed.

Section StoreLookups.

Variable rt : Runtime.
Variable faults : Faults.

Lemma saveSoldier_then_found k soldier w doc w' :
  saveSoldier rt faults k soldier w = (Returned doc, w') ->
  exists i,
    findIndex (docId doc) (soldiersDb w') = Some i /\
    nth_error (soldiersDb w') i = Some doc.
Proof.
  intros E.
  destruct (saveSoldier_returned rt faults _ _ _ _ _ E)
    as [_ [(i & existing & Hfind & Hnth & _ & ->) | [Hnone ->]]].
  - exists i. split.
    + now apply (findIndex_replaceAt _ _ _ i existing).
    + apply (replaceAt_same _ _ _ _ Hnth).
  - exists (List.length (soldiersDb w)). now apply findIndex_appended.
Qed.

Lemma saveLoop_step_returned k soldier rest savedRecords w doc w1 :
  saveSoldier rt faults k soldier w = (Returned doc, w1) ->
  saveLoop rt faults k (soldier :: rest) savedRecords w =
  saveLoop rt faults (S k) rest (savedRecords ++ [doc])%list w1.
Proof.
  intros E. cbn [saveLoop]. unfold bind at 1. unfold tryCatch.
  unfold bind at 1. rewrite E. reflexivity.
Qed.

Lemma saveLoop_step_thrown k soldier rest savedRecords w e :
  saveSoldier rt faults k soldier w = (Thrown e, w) ->
  soldiersDb (snd (saveLoop rt faults k (soldier :: rest) savedRecords w)) =
  soldiersDb
    (snd (saveLoop rt faults (S k) rest savedRecords
            (snd (console_error (savingError soldier) w)))).
Proof.
  intros E. cbn [saveLoop]. unfold bind at 1. unfold tryCatch.
  unfold bind at 1. rewrite E. reflexivity.
Qed.

Lemma saveLoop_length soldiers : forall k savedRecords w,
  (List.length (soldiersDb (snd (saveLoop rt faults k soldiers savedRecords w))) <=
   List.length (soldiersDb w) + List.length soldiers)%nat.
Proof.
  induction soldiers as [|s rest IH]; intros k savedRecords w; [cbn; lia |].
  destruct (saveSoldier_cases rt faults k s w) as [(doc & w1 & E & _) | (e & E)].
  - rewrite (saveLoop_step_returned _ _ rest savedRecords _ _ _ E).
    etransitivity; [apply IH |]. cbn [List.length].
    destruct (saveSoldier_returned rt faults _ _ _ _ _ E)
      as [_ [(i & existing & _ & _ & _ & ->) | [_ ->]]].
    + rewrite replaceAt_length. lia.
    + rewrite length_app. cbn. lia.
  - rewrite (saveLoop_step_thrown _ _ rest savedRecords _ _ E).
    etransitivity; [apply IH |]. cbn. lia.
Qed.

Lemma nth_error_appended {A : Type} (l : list A) x i d :
  nth_error l i = Some d -> nth_error (l ++ [x]) i = Some d.
Proof.
  intros H. rewrite nth_error_app1; [exact H |].
  apply nth_error_Some. rewrite H. discriminate.
Qed.

(** X11: [saveToMongoDB] never loses a record: every record stored before
    is still stored after, at its place and under its identifier, and the
    collection grows by at most one record per candidate; whatever the
    candidates are and whichever store operations fail.  When no candidate
    has a child named [created_at], every record also keeps its creation
    time. *)
Theorem store_never_loses_a_record soldiers w :
  (forall i d,
     nth_error (soldiersDb w) i = Some d ->
     exists d',
       nth_error (soldiersDb (snd (saveToMongoDB rt faults soldiers w))) i = Some d' /\
       docId d' = docId d /\
       (Forall (fun soldier => prop soldier "created_at" = None) soldiers ->
        Soldier.created_at d' = Soldier.created_at d)) /\
  (List.length (soldiersDb w) <=
   List.length (soldiersDb (snd (saveToMongoDB rt faults soldiers w))))%nat /\
  (List.length (soldiersDb (snd (saveToMongoDB rt faults soldiers w))) <=
   List.length (soldiersDb w) + List.length soldiers)%nat.
Proof.
  unfold saveToMongoDB. split; [| split].
  - assert (H : forall i d,
               nth_error (soldiersDb w) i = Some d ->
               exists d',
                 nth_error (soldiersDb (snd (saveLoop rt faults 0 soldiers [] w))) i =
                   Some d' /\ keeps d d').
    { apply (saveLoop_preserves rt faults
               (fun db => forall i d, nth_error (soldiersDb w) i = Some d ->
                                      exists d', nth_error db i = Some d' /\ keeps d d')).
      - intros k soldier w0 doc w' Hkeep E i d Hd.
        destruct (Hkeep i d Hd) as (d1 & Hnth1 & Hk1).
        destruct (saveSoldier_returned rt faults _ _ _ _ _ E)
          as [_ [(i0 & existing & _ & Hnth & Hk & ->) | [_ ->]]].
        + destruct (Nat.eq_dec i i0) as [-> | Hne].
          * exists doc. split; [apply (replaceAt_same _ _ _ _ Hnth) |].
            rewrite Hnth in Hnth1. injection Hnth1 as <-.
            destruct Hk1 as [A B], Hk as [C D]. split; congruence.
          * exists d1. split; [| exact Hk1]. now rewrite replaceAt_other.
        + exists d1. split; [now apply nth_error_appended | exact Hk1].
      - intros i d Hd. exists d. now repeat split. }
    intros i d Hd. destruct (H i d Hd) as (d' & Hnth & Hid & Hcreated).
    exists d'. split; [exact Hnth |]. split; [exact Hid |]. intros _. exact Hcreated.
  - apply (saveLoop_preserves rt faults
             (fun db => (List.length (soldiersDb w) <= List.length db)%nat)); [| lia].
    intros k soldier w0 doc w' Hle E.
    destruct (saveSoldier_returned rt faults _ _ _ _ _ E)
      as [_ [(i & existing & _ & _ & _ & ->) | [_ ->]]].
    + now rewrite replaceAt_length.
    + rewrite length_app. lia.
  - apply saveLoop_length.
Qed.

(** X12: looking a saved record up finds it: after the [try] block has saved
    an accepted candidate, the first stored record with the candidate's
    identifier holds the candidate's six fields. *)
Theorem saved_record_is_found k j soldier w :
  soldierViolations rt j soldier = [] ->
  storeFails faults k = false ->
  exists doc w' i,
    saveSoldier rt faults k soldier w = (Returned doc, w') /\
    Soldier.fields doc = candidateFields soldier /\
    findIndex (Soldier.id (candidateFields soldier)) (soldiersDb w') = Some i /\
    nth_error (soldiersDb w') i = Some doc.
Proof.
  intros Hacc Hok.
  destruct (saveSoldier_accepted rt faults k j soldier w Hacc Hok) as (doc & w' & E & Hf).
  destruct (saveSoldier_then_found _ _ _ _ _ E) as (i & Hfind & Hnth).
  exists doc, w', i. repeat split; try assumption.
  unfold docId in Hfind. now rewrite Hf in Hfind.
Qed.

(** X13: saving an accepted candidate a second time changes no field of any
    stored record and adds no record: in any later world that holds the
    collection left by the first save, the second save leaves the fields of
    the collection, record by record, as they are. *)
Theorem saving_twice_changes_no_field k1 k2 j soldier w w2 :
  soldierViolations rt j soldier = [] ->
  storeFails faults k1 = false ->
  storeFails faults k2 = false ->
  soldiersDb w2 = soldiersDb (snd (saveSoldier rt faults k1 soldier w)) ->
  List.map Soldier.fields (soldiersDb (snd (saveSoldier rt faults k2 soldier w2))) =
  List.map Soldier.fields (soldiersDb w2).
Proof.
  intros Hacc H1 H2 Hdb.
  destruct (saveSoldier_accepted rt faults k1 j soldier w Hacc H1) as (doc & w1 & E1 & Hf1).
  destruct (saveSoldier_then_found _ _ _ _ _ E1) as (i & Hfind & Hnth).
  rewrite E1 in Hdb. cbn [snd] in Hdb.
  destruct (saveSoldier_accepted rt faults k2 j soldier w2 Hacc H2) as (doc2 & w3 & E2 & Hf2).
  rewrite E2. cbn [snd].
  assert (Hid : docId doc2 = docId doc) by (unfold docId; now rewrite Hf1, Hf2).
  destruct (saveSoldier_returned rt faults _ _ _ _ _ E2)
    as [_ [(i' & existing & Hfind' & Hnth' & _ & ->) | [Hnone _]]].
  - rewrite Hid, Hdb, Hfind in Hfind'. injection Hfind' as <-.
    rewrite Hdb, Hnth in Hnth'. injection Hnth' as <-.
    apply (replaceAt_map Soldier.fields i doc2 _ doc); [now rewrite Hdb | now rewrite Hf1, Hf2].
  - rewrite Hid, Hdb, Hfind in Hnone. discriminate.
Qed.

Lemma saveLoop_keeps_other_records soldiers : forall k savedRecords w d,
  (forall n, storeFails faults n = false) ->
  (forall s, In s soldiers -> soldierViolations rt 0 s = []) ->
  (forall s, In s soldiers -> Soldier.id (candidateFields s) <> docId d) ->
  In d (soldiersDb w) ->
  In d (soldiersDb (snd (saveLoop rt faults k soldiers savedRecords w))).
Proof.
  induction soldiers as [|s rest IH]; intros k savedRecords w d Hok Hacc Hother Hin;
    [exact Hin |].
  destruct (saveSoldier_accepted rt faults k 0 s w (Hacc s (or_introl eq_refl)) (Hok k))
    as (doc & w1 & E & Hf).
  rewrite (saveLoop_step_returned _ _ rest savedRecords _ _ _ E).
  apply IH; try assumption; try (intros s' Hs'; auto using in_cons).
  destruct (saveSoldier_returned rt faults _ _ _ _ _ E)
    as [_ [(i & existing & _ & Hnth & [Hid _] & ->) | [_ ->]]].
  - apply (replaceAt_In_other i doc _ existing d Hnth Hin).
    rewrite <- Hid. unfold docId at 2. rewrite Hf.
    intros Heq. exact (Hother s (or_introl eq_refl) (eq_sym Heq)).
  - apply in_or_app. now left.
Qed.

(** X14: within an accepted batch saved without store faults the last
    submission of an identifier wins: for a candidate after which no
    candidate of the batch has the same identifier, the collection holds at
    the end a record with that candidate's six fields. *)
Theorem last_submission_wins before candidate after w :
  (forall n, storeFails faults n = false) ->
  (forall s, In s (before ++ candidate :: after) -> soldierViolations rt 0 s = []) ->
  (forall s, In s after ->
     Soldier.id (candidateFields s) <> Soldier.id (candidateFields candidate)) ->
  exists doc,
    In doc (soldiersDb (snd (saveToMongoDB rt faults (before ++ candidate :: after) w))) /\
    Soldier.fields doc = candidateFields candidate.
Proof.
  intros Hok Hacc Hlast. unfold saveToMongoDB.
  generalize 0 as k. generalize (@nil Soldier.Doc) as savedRecords. revert w.
  induction before as [|b before IH]; intros w savedRecords k.
  - cbn [app] in *.
    destruct (saveSoldier_accepted rt faults k 0 candidate w
                (Hacc candidate (or_introl eq_refl)) (Hok k)) as (doc & w1 & E & Hf).
    rewrite (saveLoop_step_returned _ _ after savedRecords _ _ _ E).
    exists doc. split; [| exact Hf].
    destruct (saveSoldier_then_found _ _ _ _ _ E) as (i & _ & Hnth).
    apply saveLoop_keeps_other_records; try assumption.
    + intros s Hs. apply Hacc. now right.
    + intros s Hs. unfold docId. rewrite Hf. now apply Hlast.
    + now apply nth_error_In with i.
  - cbn [app] in *.
    destruct (saveSoldier_accepted rt faults k 0 b w (Hacc b (or_introl eq_refl)) (Hok k))
      as (doc & w1 & E & _).
    rewrite (saveLoop_step_returned _ _ _ savedRecords _ _ _ E).
    apply IH. intros s Hs. apply Hacc. now right.
Qed.

End StoreLookups.

(** ** Upserts of a batch *)

Lemma firstn_next {A : Type} (l : list A) : forall n x,
  nth_error l n = Some x -> firstn (S n) l = (firstn n l ++ [x])%list.
Proof.
  induction l as [|a l IH]; intros [|n] x H; cbn in H; try discriminate.
  - now injection H as ->.
  - cbn [firstn app]. f_equal. now apply IH.
Qed.

Section Upserts.

Variable rt : Runtime.
Variable faults : Faults.

(** The loop on a batch continued by more candidates. *)
Lemma saveLoop_continued l1 l2 : forall k savedRecords w saved1 w1,
  saveLoop rt faults k l1 savedRecords w = (Returned saved1, w1) ->
  saveLoop rt faults k (l1 ++ l2) savedRecords w =
  saveLoop rt faults (k + List.length l1) l2 saved1 w1.
Proof.
  induction l1 as [|s l1 IH]; intros k savedRecords w saved1 w1 H.
  - cbn in H. injection H as <- <-. cbn [app List.length]. now rewrite Nat.add_0_r.
  - cbn [app List.length].
    replace (k + S (List.length l1))%nat with (S k + List.length l1)%nat by lia.
    destruct (saveSoldier_cases rt faults k s w) as [(doc & w2 & E & _) | (e & E)].
    + rewrite (saveLoop_step_returned rt faults _ _ l1 savedRecords _ _ _ E) in H.
      rewrite (saveLoop_step_returned rt faults _ _ (l1 ++ l2) savedRecords _ _ _ E).
      now apply IH.
    + assert (Hstep : forall rest,
                saveLoop rt faults k (s :: rest) savedRecords w =
                saveLoop rt faults (S k) rest savedRecords
                  (snd (console_error (savingError s) w))).
      { intros rest. cbn [saveLoop]. unfold bind at 1. unfold tryCatch.
        unfold bind at 1. rewrite E. reflexivity. }
      rewrite Hstep in H. rewrite Hstep. now apply IH.
Qed.

(** C6: [saveToMongoDB] upserts by identifier.  Take the collection as the
    candidates before the [n]-th one of a batch have left it.  If that
    candidate is accepted and its store operations do not fail, the batch up
    to it returns one more record, with the candidate's six fields, and
    leaves a collection in which, if a record had the identifier, the first
    such record is replaced in place by the returned one, the update time
    set to the clock, the number of records and every other record as they
    were; otherwise the returned record is added at the end.  Nothing but
    the collection changes, and the whole batch goes on from there with the
    candidates that follow.  For a candidate without children named
    [created_at] and [updated_at], an updated record keeps its creation
    time and a fresh one has the clock as both time stamps. *)
Theorem upsert_by_identifier soldiers n soldier j w :
  nth_error soldiers n = Some soldier ->
  soldierViolations rt j soldier = [] ->
  storeFails faults n = false ->
  exists savedRecords before doc after,
    saveToMongoDB rt faults (firstn n soldiers) w = (Returned savedRecords, before) /\
    saveToMongoDB rt faults (firstn (S n) soldiers) w =
      (Returned (savedRecords ++ [doc])%list, after) /\
    saveToMongoDB rt faults soldiers w =
      saveLoop rt faults (S n) (skipn (S n) soldiers) (savedRecords ++ [doc])%list after /\
    Soldier.fields doc = candidateFields soldier /\
    prop soldier "id" = Some (JString (docId doc)) /\
    sameOutsideStore before after /\
    ((exists i existing,
        findIndex (docId doc) (soldiersDb before) = Some i /\
        nth_error (soldiersDb before) i = Some existing /\
        docId existing = docId doc /\
        List.length (soldiersDb after) = List.length (soldiersDb before) /\
        nth_error (soldiersDb after) i = Some doc /\
        (forall m, m <> i ->
           nth_error (soldiersDb after) m = nth_error (soldiersDb before) m) /\
        Soldier.updated_at doc = now before /\
        (prop soldier "created_at" = None ->
         Soldier.created_at doc = Soldier.created_at existing)) \/
     (findIndex (docId doc) (soldiersDb before) = None /\
      (forall d, In d (soldiersDb before) -> docId d <> docId doc) /\
      soldiersDb after = (soldiersDb before ++ [doc])%list /\
      (prop soldier "created_at" = None -> prop soldier "updated_at" = None ->
       Soldier.created_at doc = now before /\ Soldier.updated_at doc = now before))).
Proof.
  intros Hnth Hacc Hok.
  destruct (saveLoop_outcomes rt faults (firstn n soldiers) 0 [] w)
    as (outcomes & before & Erun & _).
  cbn [app] in Erun.
  assert (Enext : forall doc after,
            saveSoldier rt faults n soldier before = (Returned doc, after) ->
            saveToMongoDB rt faults (firstn (S n) soldiers) w =
              (Returned (stored outcomes ++ [doc])%list, after)).
  { intros doc after E. unfold saveToMongoDB.
    rewrite (firstn_next _ _ _ Hnth), (saveLoop_continued _ _ _ _ _ _ _ Erun).
    rewrite (firstn_length_nth_error _ _ _ Hnth). cbn [Nat.add].
    now rewrite (saveLoop_step_returned rt faults _ _ _ _ _ _ _ E). }
  assert (Eall : forall doc after,
            saveSoldier rt faults n soldier before = (Returned doc, after) ->
            saveToMongoDB rt faults soldiers w =
              saveLoop rt faults (S n) (skipn (S n) soldiers)
                (stored outcomes ++ [doc])%list after).
  { intros doc after E. pose proof (Enext doc after E) as Hrun.
    unfold saveToMongoDB in Hrun |- *.
    rewrite <- (firstn_skipn (S n) soldiers) at 1.
    rewrite (saveLoop_continued _ _ _ _ _ _ _ Hrun).
    rewrite (firstn_next _ _ _ Hnth), length_app, (firstn_length_nth_error _ _ _ Hnth).
    cbn [List.length Nat.add]. now rewrite Nat.add_1_r. }
  assert (Hsame : forall doc after,
            saveSoldier rt faults n soldier before = (Returned doc, after) ->
            sameOutsideStore before after).
  { intros doc after E.
    destruct (saveSoldier_cases rt faults n soldier before)
      as [(doc' & after' & E' & Hs) | (e & E')]; rewrite E in E'; [| discriminate].
    now injection E' as <- <-. }
  exists (stored outcomes), before.
  destruct (saveSoldier_upserts rt faults n j soldier before Hacc Hok) as [Hid Hupsert].
  destruct (findIndex (Soldier.id (candidateFields soldier)) (soldiersDb before))
    as [i|] eqn:Efind.
  - destruct Hupsert as (existing & after & Hex & Hexid & E & Hlen & Hat & Hother).
    do 2 eexists. split; [exact Erun |]. split; [exact (Enext _ _ E) |].
    split; [exact (Eall _ _ E) |].
    split; [reflexivity |]. split; [exact Hid |]. split; [exact (Hsame _ _ E) |].
    left. exists i, existing. unfold docId. cbn [Soldier.fields Soldier.updated_at
                                                 Soldier.created_at].
    repeat split; assumption.
  - destruct Hupsert as (after & Hnone & E & Hdb).
    do 2 eexists. split; [exact Erun |]. split; [exact (Enext _ _ E) |].
    split; [exact (Eall _ _ E) |].
    split; [reflexivity |]. split; [exact Hid |]. split; [exact (Hsame _ _ E) |].
    right. unfold docId. cbn [Soldier.fields Soldier.updated_at Soldier.created_at].
    repeat split; assumption.
Qed.

End Upserts.

Lemma upsert_by_identifier_witness :
  exists doc after,
    saveToMongoDB sampleRuntime noFaults [jones; smithPromoted] worldWithSmith =
      (Returned ([{| Soldier.fields := candidateFields jones;
                     Soldier.created_at := 100; Soldier.updated_at := 100 |}] ++ [doc])%list,
       after) /\
    Soldier.fields doc = candidateFields smithPromoted /\
    List.length (soldiersDb after) = 2 /\
    nth_error (soldiersDb after) 0 = Some doc /\
    Soldier.updated_at doc = 100 /\ Soldier.created_at doc = 7.
Proof.
  destruct (upsert_by_identifier sampleRuntime noFaults [jones; smithPromoted] 1
              smithPromoted 0 worldWithSmith eq_refl eq_refl eq_refl)
    as (savedRecords & before & doc & after & Ebefore & Eafter & _ & Hfields & _ & _ &
        Hcases).
  injection Ebefore as <- <-.
  exists doc, after. split; [exact Eafter |]. split; [exact Hfields |].
  destruct Hcases as [(i & existing & Hfind & Hex & _ & Hlen & Hat & _ & Hup & Hcr) |
                      (Hnone & _)].
  - unfold docId in Hfind. rewrite Hfields in Hfind.
    injection Hfind as <-. injection Hex as <-.
    split; [exact Hlen |]. split; [exact Hat |]. split; [exact Hup |].
    exact (Hcr eq_refl).
  - unfold docId in Hnone. rewrite Hfields in Hnone. discriminate Hnone.
Defined.

Lemma saved_record_is_found_witness :
  exists doc w' i,
    saveSoldier sampleRuntime noFaults 0 jones worldWithSmith = (Returned doc, w') /\
    Soldier.fields doc = candidateFields jones /\
    findIndex "A-002" (soldiersDb w') = Some i /\
    nth_error (soldiersDb w') i = Some doc.
Proof.
  exact (saved_record_is_found sampleRuntime noFaults 0 0 jones worldWithSmith
           eq_refl eq_refl).
Defined.

Lemma saving_twice_changes_no_field_witness :
  List.map Soldier.fields
    (soldiersDb
       (snd (saveSoldier sampleRuntime noFaults 0 jones
               (snd (saveSoldier sampleRuntime noFaults 0 jones worldWithSmith))))) =
  [Soldier.fields smithDoc; candidateFields jones].
Proof.
  exact (saving_twice_changes_no_field sampleRuntime noFaults 0 0 0 jones worldWithSmith
           (snd (saveSoldier sampleRuntime noFaults 0 jones worldWithSmith))
           eq_refl eq_refl eq_refl eq_refl).
Defined.

Lemma last_submission_wins_witness :
  exists doc,
    In doc (soldiersDb (snd (saveToMongoDB sampleRuntime noFaults
                               ([smith] ++ smithPromoted :: [jones]) worldWithSmith))) /\
    Soldier.fields doc = candidateFields smithPromoted.
Proof.
  apply (last_submission_wins sampleRuntime noFaults [smith] smithPromoted [jones]
           worldWithSmith).
  - reflexivity.
  - intros s [<- | [<- | [<- | []]]]; reflexivity.
  - intros s [<- | []]. discriminate.
Defined.

(** * Further properties of the routes *)

Lemma stored_logged_length soldiers : forall outcomes,
  List.length outcomes = List.length soldiers ->
  List.length (stored outcomes) + List.length (loggedFailures soldiers outcomes) =
  List.length soldiers.
Proof.
  induction soldiers as [|s rest IH]; intros [|o outcomes] H; cbn in H; try discriminate;
    [reflexivity |].
  injection H as H. specialize (IH outcomes H).
  change (stored (o :: outcomes))
    with ((match o with Some d => [d] | None => [] end) ++ stored outcomes)%list.
  change (loggedFailures (s :: rest) (o :: outcomes))
    with ((match o with None => [savingError s] | Some _ => [] end) ++
          loggedFailures rest outcomes)%list.
  rewrite !length_app. destruct o; cbn [List.length]; lia.
Qed.

Lemma all_stored_length (outcomes : list (option Soldier.Doc)) :
  (forall n, (n < List.length outcomes)%nat -> exists doc, nth_error outcomes n = Some (Some doc)) ->
  List.length (stored outcomes) = List.length outcomes.
Proof.
  induction outcomes as [|o outcomes IH]; intros H; [reflexivity |].
  destruct (H 0 ltac:(cbn; lia)) as [doc Hd]. cbn in Hd. injection Hd as ->.
  change (stored (Some doc :: outcomes)) with (doc :: stored outcomes).
  cbn [List.length]. f_equal. apply IH.
  intros n Hn. apply (H (S n)). cbn. lia.
Qed.

Lemma findExport_appended name sheet exports :
  findExport name (exports ++ [(name, sheet)]) = Some sheet.
Proof.
  induction exports as [|[n s] exports IH]; cbn.
  - now rewrite String.eqb_refl.
  - now rewrite IH.
Qed.

Lemma removeName_not_In n l : ~ In n (removeName n l).
Proof.
  unfold removeName. intros H. apply filter_In in H as [_ H].
  now rewrite String.eqb_refl in H.
Qed.

Section RouteRuns.

Variable rt : Runtime.
Variable faults : Faults.

Ltac run_handler :=
  unfold upload_xml, reupload_corrected, parseExcelToXML, fs_readFile, createInvalidExcel,
    xlsx_writeFile, fs_move, ProcessingLog_create, console_error, tryCatch, bind, ret, throw.

Lemma saveLoop_step_failed k soldier rest savedRecords w e :
  saveSoldier rt faults k soldier w = (Thrown e, w) ->
  saveLoop rt faults k (soldier :: rest) savedRecords w =
  saveLoop rt faults (S k) rest savedRecords (snd (console_error (savingError soldier) w)).
Proof.
  intros E. cbn [saveLoop]. unfold bind at 1. unfold tryCatch.
  unfold bind at 1. rewrite E. reflexivity.
Qed.

(** The loop changes the soldier collection and the console only. *)
Lemma saveLoop_frame soldiers : forall k savedRecords w,
  logsDb (snd (saveLoop rt faults k soldiers savedRecords w)) = logsDb w /\
  uploadsDir (snd (saveLoop rt faults k soldiers savedRecords w)) = uploadsDir w /\
  correctedDir (snd (saveLoop rt faults k soldiers savedRecords w)) = correctedDir w /\
  invalidDir (snd (saveLoop rt faults k soldiers savedRecords w)) = invalidDir w /\
  excelExports (snd (saveLoop rt faults k soldiers savedRecords w)) = excelExports w /\
  now (snd (saveLoop rt faults k soldiers savedRecords w)) = now w.
Proof.
  induction soldiers as [|s rest IH]; intros k savedRecords w; [now repeat split |].
  destruct (saveSoldier_cases rt faults k s w) as [(doc & w1 & E & Hframe) | (e & E)].
  - rewrite (saveLoop_step_returned rt faults _ _ rest savedRecords _ _ _ E).
    destruct Hframe as (A & B & C & D & F & _ & G).
    destruct (IH (S k) (savedRecords ++ [doc])%list w1) as (A' & B' & C' & D' & F' & G').
    repeat split; congruence.
  - rewrite (saveLoop_step_failed _ _ rest savedRecords _ _ E).
    destruct (IH (S k) savedRecords (snd (console_error (savingError s) w)))
      as (A' & B' & C' & D' & F' & G').
    repeat split; first [exact A' | exact B' | exact C' | exact D' | exact F' | exact G'].
Qed.

(** X15: an accepted upload on which no file or ledger operation fails
    answers with the number of saved records, appends exactly one ledger
    entry with outcome [corrected], that number and no violation, moves the
    file from the uploads to the corrected area and writes no spreadsheet;
    the saved records and the candidates logged on the error console add up
    to the candidates of the batch. *)
Theorem accepted_upload_is_logged_once (file : UploadedFile string) w :
  isValid (validateXML rt (content file)) = true ->
  readFileFails faults = false -> moveFails faults = false ->
  logCreateFails faults = false ->
  exists savedRecords w1 w',
    saveToMongoDB rt faults (soldiers (validateXML rt (content file))) w =
      (Returned savedRecords, w1) /\
    upload_xml rt faults (Some file) w =
      (Returned (Success "File validated against XSD schema successfully"
                   (filename file) "corrected" (List.length savedRecords) 0), w') /\
    soldiersDb w' = soldiersDb w1 /\
    logsDb w' =
      (logsDb w ++
       [{| log_filename := originalname file; log_status := "corrected";
           valid_count := List.length savedRecords; invalid_count := 0;
           log_errors := []; processed_at := now w |}])%list /\
    uploadsDir w' = removeName (filename file) (uploadsDir w) /\
    correctedDir w' = (correctedDir w ++ [filename file])%list /\
    invalidDir w' = invalidDir w /\
    excelExports w' = excelExports w /\
    List.length savedRecords + (List.length (console w') - List.length (console w)) =
      List.length (soldiers (validateXML rt (content file))).
Proof.
  intros Hvalid H1 H2 H3.
  destruct (saveLoop_outcomes rt faults (soldiers (validateXML rt (content file))) 0 [] w)
    as (outcomes & w1 & Erun & Hlen & Hcon & _ & _).
  fold (saveToMongoDB rt faults (soldiers (validateXML rt (content file))) w) in Erun.
  cbn [app] in Erun.
  pose proof (saveLoop_frame (soldiers (validateXML rt (content file))) 0 [] w) as F.
  fold (saveToMongoDB rt faults (soldiers (validateXML rt (content file))) w) in F.
  rewrite Erun in F. cbn [snd] in F.
  destruct F as (A & B & C & D & E & G).
  exists (stored outcomes), w1. eexists. split; [exact Erun |].
  split.
  { run_handler. rewrite H1, Hvalid, Erun, H2, H3. reflexivity. }
  cbn [soldiersDb logsDb uploadsDir correctedDir invalidDir excelExports console].
  rewrite A, B, C, D, E, G, Hcon, length_app.
  repeat split.
  pose proof (stored_logged_length _ _ Hlen). lia.
Qed.

(** X16: a rejected upload on which no operation fails answers with the
    name of the annotated spreadsheet, and a download of that name returns
    exactly the worksheet built from the candidates and violations of the
    verdict; the file has left the uploads area for the invalid area. *)
Theorem rejected_upload_can_be_downloaded (file : UploadedFile string) w :
  isValid (validateXML rt (content file)) = false ->
  readFileFails faults = false -> writeFileFails faults = false ->
  moveFails faults = false -> logCreateFails faults = false ->
  exists w',
    upload_xml rt faults (Some file) w =
      (Returned (ValidationFailed "XSD Schema validation failed" (filename file) "invalid"
                   (Some (0, List.length (soldiers (validateXML rt (content file)))))
                   (errors (validateXML rt (content file)))
                   (excelName (filename file))), w') /\
    download_invalid (excelName (filename file)) w' =
      Download (createInvalidExcel_sheet (soldiers (validateXML rt (content file)))
                  (errors (validateXML rt (content file)))) /\
    invalidDir w' = (invalidDir w ++ [filename file])%list /\
    ~ In (filename file) (uploadsDir w').
Proof.
  intros Hrej H1 H2 H3 H4. eexists. split.
  { run_handler. rewrite H1, Hrej, H2, H3, H4. reflexivity. }
  unfold download_invalid. cbn [excelExports invalidDir uploadsDir].
  rewrite findExport_appended. repeat split. apply removeName_not_In.
Qed.

(** X17: the accepted branch is not atomic: when the move of the file fails
    after an accepted batch was saved, the request answers with a server
    error, the records saved by [saveToMongoDB] stay in the collection, and
    no ledger entry is written. *)
Theorem move_fault_after_save_keeps_records (file : UploadedFile string) w :
  isValid (validateXML rt (content file)) = true ->
  readFileFails faults = false -> moveFails faults = true ->
  fst (upload_xml rt faults (Some file) w) = Returned InternalServerError /\
  soldiersDb (snd (upload_xml rt faults (Some file) w)) =
    soldiersDb (snd (saveToMongoDB rt faults (soldiers (validateXML rt (content file))) w)) /\
  logsDb (snd (upload_xml rt faults (Some file) w)) = logsDb w /\
  correctedDir (snd (upload_xml rt faults (Some file) w)) = correctedDir w.
Proof.
  intros Hvalid H1 H2.
  destruct (saveLoop_outcomes rt faults (soldiers (validateXML rt (content file))) 0 [] w)
    as (outcomes & w1 & Erun & _).
  fold (saveToMongoDB rt faults (soldiers (validateXML rt (content file))) w) in Erun.
  pose proof (saveLoop_frame (soldiers (validateXML rt (content file))) 0 [] w) as F.
  fold (saveToMongoDB rt faults (soldiers (validateXML rt (content file))) w) in F.
  rewrite Erun in F |- *. cbn [snd] in F.
  destruct F as (A & _ & C & _).
  run_handler. rewrite H1, Hvalid, Erun, H2.
  cbn [fst snd soldiersDb logsDb correctedDir]. now rewrite A, C.
Qed.

(** X18: the re-upload route rejects every worksheet.  The writer is given
    the name of the root element together with a tree that already holds
    the root; for a writer and a reader that put the members of what is
    written inside the root element and read them back there, and when no
    file operation fails, every re-upload is answered as still invalid with
    the one violation that no soldier record was found, stores nothing,
    writes no ledger entry, moves the file to the invalid area, and leaves
    for download a spreadsheet of the header and the summary block only. *)
Theorem reupload_is_always_rejected (file : UploadedFile (option Worksheet)) sheet w :
  content file = Some sheet ->
  readsTheRootWritten rt (parseExcel_xmlData sheet) ->
  readFileFails faults = false -> writeFileFails faults = false ->
  moveFails faults = false ->
  exists w',
    reupload_corrected rt faults (Some file) w =
      (Returned (ValidationFailed "Corrected file still has XSD schema violations"
                   (filename file) "invalid" None
                   ["XSD VIOLATION: At least one soldier record is required"]
                   (excelName (filename file))), w') /\
    soldiersDb w' = soldiersDb w /\
    logsDb w' = logsDb w /\
    correctedDir w' = correctedDir w /\
    invalidDir w' = (invalidDir w ++ [filename file])%list /\
    download_invalid (excelName (filename file)) w' =
      Download [headerRow; []; summaryRow "ALL SCHEMA VIOLATIONS:";
                summaryRow "XSD VIOLATION: At least one soldier record is required"].
Proof.
  intros Hsheet Hroot H1 H2 H3. eexists. split.
  { run_handler. rewrite Hsheet, H1, (written_tree_has_no_candidate rt sheet Hroot).
    cbn [isValid soldiers errors]. rewrite H2, H3. reflexivity. }
  unfold download_invalid. cbn [excelExports soldiersDb logsDb correctedDir invalidDir].
  rewrite findExport_appended. repeat split.
Qed.

(** X19: a file the XML reader cannot parse is rejected with the parse error
    as its only violation and without candidates: when no operation fails,
    the ledger entry counts no record, and the annotated spreadsheet holds
    the header and the summary block only. *)
Theorem unparsable_upload_is_rejected (file : UploadedFile string) message w :
  XMLParser_parse rt (content file) = ParseThrows message ->
  readFileFails faults = false -> writeFileFails faults = false ->
  moveFails faults = false -> logCreateFails faults = false ->
  exists w',
    upload_xml rt faults (Some file) w =
      (Returned (ValidationFailed "XSD Schema validation failed" (filename file) "invalid"
                   (Some (0, 0)) ["XML PARSE ERROR: " ++ message]
                   (excelName (filename file))), w') /\
    soldiersDb w' = soldiersDb w /\
    logsDb w' =
      (logsDb w ++
       [{| log_filename := originalname file; log_status := "invalid";
           valid_count := 0; invalid_count := 0;
           log_errors := [("XML PARSE ERROR: " ++ message)%string];
           processed_at := now w |}])%list /\
    download_invalid (excelName (filename file)) w' =
      Download [headerRow; []; summaryRow "ALL SCHEMA VIOLATIONS:";
                summaryRow ("XML PARSE ERROR: " ++ message)].
Proof.
  intros Hparse H1 H2 H3 H4. eexists. split.
  { run_handler. unfold validateXML. rewrite H1, Hparse. cbn [isValid soldiers errors].
    rewrite H2, H3, H4. reflexivity. }
  unfold download_invalid. cbn [excelExports soldiersDb logsDb].
  rewrite findExport_appended. repeat split.
Qed.

(** X20: the ledger is insert-only: after a request to either route,
    whatever the file and whichever operations fail, the ledger is the
    ledger before the request with at most one entry appended. *)
Theorem ledger_is_insert_only w :
  (forall req_file,
     logsDb (snd (upload_xml rt faults req_file w)) = logsDb w \/
     exists entry, logsDb (snd (upload_xml rt faults req_file w)) = (logsDb w ++ [entry])%list) /\
  (forall req_file,
     logsDb (snd (reupload_corrected rt faults req_file w)) = logsDb w \/
     exists entry,
       logsDb (snd (reupload_corrected rt faults req_file w)) = (logsDb w ++ [entry])%list).
Proof.
  assert (Hsave : forall l,
            exists saved w1, saveToMongoDB rt faults l w = (Returned saved, w1) /\
                             logsDb w1 = logsDb w).
  { intros l. destruct (saveLoop_outcomes rt faults l 0 [] w) as (outcomes & w1 & Erun & _).
    fold (saveToMongoDB rt faults l w) in Erun.
    pose proof (saveLoop_frame l 0 [] w) as F. fold (saveToMongoDB rt faults l w) in F.
    rewrite Erun in F. cbn [snd] in F. destruct F as (A & _).
    eauto. }
  split; intros [file|]; try (left; reflexivity); run_handler.
  - destruct (readFileFails faults); [left; reflexivity |].
    destruct (isValid (validateXML rt (content file))).
    + destruct (Hsave (soldiers (validateXML rt (content file)))) as (saved & w1 & -> & A).
      destruct (moveFails faults); [left; exact A |].
      destruct (logCreateFails faults); [left; exact A |].
      right. cbn [snd logsDb]. rewrite A. eauto.
    + destruct (writeFileFails faults); [left; reflexivity |].
      destruct (moveFails faults); [left; reflexivity |].
      destruct (logCreateFails faults); [left; reflexivity |].
      right. cbn [snd logsDb]. eauto.
  - destruct (readFileFails faults); [left; reflexivity |].
    destruct (content file) as [sheet|]; [| left; reflexivity].
    destruct (isValid (validateXML rt (js2xmlparser_parse rt (parseExcel_xmlData sheet)))).
    + destruct (Hsave (soldiers (validateXML rt
                         (js2xmlparser_parse rt (parseExcel_xmlData sheet)))))
        as (saved & w1 & -> & A).
      destruct (moveFails faults); [left; exact A |].
      destruct (logCreateFails faults); [left; exact A |].
      right. cbn [snd logsDb]. rewrite A. eauto.
    + destruct (writeFileFails faults); [left; reflexivity |].
      destruct (moveFails faults); left; reflexivity.
Qed.

End RouteRuns.

Lemma accepted_upload_is_logged_once_witness :
  exists (savedRecords : list Soldier.Doc) w',
    upload_xml (fixedRuntime (mkBatch [smith; jones])) (storeFaultAt 1) (Some xmlUpload)
      emptyWorld =
      (Returned (Success "File validated against XSD schema successfully" "upload-1"
                   "corrected" (List.length savedRecords) 0), w') /\
    List.length savedRecords + (List.length (console w') - 0) = 2.
Proof.
  destruct (accepted_upload_is_logged_once (fixedRuntime (mkBatch [smith; jones]))
              (storeFaultAt 1) xmlUpload emptyWorld eq_refl eq_refl eq_refl eq_refl)
    as (savedRecords & w1 & w' & _ & Eup & _ & _ & _ & _ & _ & _ & Hcount).
  exists savedRecords, w'. split; [exact Eup | exact Hcount].
Defined.

Lemma rejected_upload_can_be_downloaded_witness :
  exists w',
    download_invalid "upload-1_schema_errors.xlsx" w' =
      Download (createInvalidExcel_sheet [smith; jonesMissing]
                  (violationsFrom sampleRuntime 0 [smith; jonesMissing])) /\
    ~ In "upload-1" (uploadsDir w').
Proof.
  destruct (rejected_upload_can_be_downloaded (fixedRuntime (mkBatch [smith; jonesMissing]))
              noFaults xmlUpload emptyWorld eq_refl eq_refl eq_refl eq_refl eq_refl)
    as (w' & _ & Hdown & _ & Hgone).
  exists w'. split; [exact Hdown | exact Hgone].
Defined.

Lemma move_fault_after_save_keeps_records_witness :
  fst (upload_xml (fixedRuntime (mkBatch [smith; jones])) moveFault (Some xmlUpload)
         emptyWorld) = Returned InternalServerError /\
  List.length
    (soldiersDb (snd (upload_xml (fixedRuntime (mkBatch [smith; jones])) moveFault
                        (Some xmlUpload) emptyWorld))) = 2.
Proof.
  destruct (move_fault_after_save_keeps_records (fixedRuntime (mkBatch [smith; jones]))
              moveFault xmlUpload emptyWorld eq_refl eq_refl eq_refl)
    as (Hresp & Hdb & _).
  split; [exact Hresp |]. rewrite Hdb. reflexivity.
Defined.

Lemma reupload_is_always_rejected_witness :
  exists w',
    reupload_corrected xmlRuntime noFaults (Some (excelUpload sheetOfTwo)) emptyWorld =
      (Returned (ValidationFailed "Corrected file still has XSD schema violations"
                   "upload-1" "invalid" None
                   ["XSD VIOLATION: At least one soldier record is required"]
                   "upload-1_schema_errors.xlsx"), w') /\
    soldiersDb w' = [] /\ logsDb w' = [].
Proof.
  destruct (reupload_is_always_rejected xmlRuntime noFaults (excelUpload sheetOfTwo)
              sheetOfTwo emptyWorld eq_refl) as (w' & Eup & Hdb & Hlogs & _);
    try reflexivity.
  - exists (JObject [("army_records", mkBatch [smith; jones])]),
           [("army_records", JObject [("soldier", JArray [smith; jones])])].
    split; [vm_compute; reflexivity |]. split; [reflexivity |].
    intros key. unfold parseExcel_xmlData. cbn [prop assoc].
    destruct (String.eqb key "army_records"); [discriminate | reflexivity].
  - exists w'. split; [exact Eup |]. split; [exact Hdb | exact Hlogs].
Defined.

Lemma unparsable_upload_is_rejected_witness :
  exists w',
    upload_xml failingReader noFaults (Some xmlUpload) emptyWorld =
      (Returned (ValidationFailed "XSD Schema validation failed" "upload-1" "invalid"
                   (Some (0, 0)) ["XML PARSE ERROR: Unexpected end of input"]
                   "upload-1_schema_errors.xlsx"), w') /\
    soldiersDb w' = [].
Proof.
  destruct (unparsable_upload_is_rejected failingReader noFaults xmlUpload
              "Unexpected end of input" emptyWorld eq_refl eq_refl eq_refl eq_refl eq_refl)
    as (w' & Eup & Hdb & _).
  exists w'. split; [exact Eup | exact Hdb].
Defined.

Lemma store_never_loses_a_record_witness :
  exists d',
    nth_error (soldiersDb (snd (saveToMongoDB sampleRuntime noFaults [smithPromoted; jones]
                                  worldWithSmith))) 0 = Some d' /\
    docId d' = "A-001" /\ Soldier.created_at d' = 7.
Proof.
  destruct (proj1 (store_never_loses_a_record sampleRuntime noFaults [smithPromoted; jones]
                     worldWithSmith) 0 smithDoc eq_refl) as (d' & Hnth & Hid & Hcreated).
  exists d'. split; [exact Hnth |]. split; [exact Hid |].
  apply Hcreated. repeat constructor.
Defined.

(** * Further properties of the listings *)

Lemma insertDesc_perm {A : Type} (key : A -> nat) x l :
  Permutation (insertDesc key x l) (x :: l).
Proof.
  induction l as [|y rest IH]; cbn; [reflexivity |].
  destruct (key y <=? key x)%nat; [reflexivity |].
  etransitivity; [apply perm_skip, IH | apply perm_swap].
Qed.

Lemma sortDesc_perm {A : Type} (key : A -> nat) l : Permutation (sortDesc key l) l.
Proof.
  induction l as [|x rest IH]; cbn; [constructor |].
  etransitivity; [apply insertDesc_perm | now constructor].
Qed.

Lemma insertDesc_descending {A : Type} (key : A -> nat) x l :
  descending key l -> descending key (insertDesc key x l).
Proof.
  unfold descending. induction 1 as [|y rest Hs IH Hall]; cbn.
  - constructor; constructor.
  - destruct (key y <=? key x)%nat eqn:E.
    + apply Nat.leb_le in E. constructor; [now constructor |].
      constructor; [exact E |]. eapply Forall_impl; [| exact Hall]. cbn. intros; lia.
    + apply Nat.leb_gt in E. constructor; [exact IH |].
      apply (Permutation_Forall (Permutation_sym (insertDesc_perm key x rest))).
      constructor; [lia | exact Hall].
Qed.

Lemma sortDesc_descending {A : Type} (key : A -> nat) l : descending key (sortDesc key l).
Proof.
  induction l as [|x rest IH]; cbn; [constructor |]. now apply insertDesc_descending.
Qed.

Lemma descending_app {A : Type} (key : A -> nat) l1 l2 :
  descending key (l1 ++ l2) ->
  descending key l1 /\ descending key l2 /\
  forall a b, In a l1 -> In b l2 -> (key b <= key a)%nat.
Proof.
  unfold descending. induction l1 as [|x l1 IH]; cbn; intros H.
  - split; [constructor | split; [exact H | intros a b []]].
  - inversion H as [|? ? Hs Hall]; subst. destruct (IH Hs) as (S1 & S2 & Hcross).
    apply Forall_app in Hall as [Hall1 Hall2].
    split; [now constructor | split; [exact S2 |]].
    intros a b [<- | Ha] Hb.
    + rewrite Forall_forall in Hall2. now apply Hall2.
    + now apply Hcross.
Qed.

Lemma In_window {A : Type} (l : list A) a n d :
  In d (firstn n (skipn a l)) -> In d (firstn (a + n) l) /\ In d l.
Proof.
  intros H. rewrite firstn_skipn_comm in H.
  assert (In d (firstn (a + n) l)) as H1.
  { rewrite <- (firstn_skipn a (firstn (a + n) l)). apply in_or_app. now right. }
  split; [exact H1 |]. rewrite <- (firstn_skipn (a + n) l). apply in_or_app. now left.
Qed.

Lemma window_descending {A : Type} (key : A -> nat) l a n :
  descending key l -> descending key (firstn n (skipn a l)).
Proof.
  intros H. rewrite <- (firstn_skipn a l) in H. apply descending_app in H as (_ & H & _).
  rewrite <- (firstn_skipn n (skipn a l)) in H. now apply descending_app in H as (H & _).
Qed.

Lemma windows_ordered {A : Type} (key : A -> nat) l a b n d1 d2 :
  descending key l -> (a + n <= b)%nat ->
  In d1 (firstn n (skipn a l)) -> In d2 (skipn b l) -> (key d2 <= key d1)%nat.
Proof.
  intros H Hab H1 H2. rewrite <- (firstn_skipn b l) in H.
  apply descending_app in H as (_ & _ & Hcross). apply Hcross; [| exact H2].
  apply In_window in H1 as [H1 _].
  replace (a + n)%nat with (Nat.min (a + n) b) in H1 by lia.
  rewrite <- firstn_firstn in H1.
  rewrite <- (firstn_skipn (a + n) (firstn b l)). apply in_or_app. now left.
Qed.

Lemma ceilDiv_spec total limit p :
  (0 < limit)%nat ->
  (p <= ceilDiv total limit)%nat <-> (p = 0 \/ (p - 1) * limit < total)%nat.
Proof.
  intros Hl. unfold ceilDiv.
  pose proof (Nat.Div0.mul_div_le (total + limit - 1) limit) as Hle.
  split.
  - intros H. destruct p as [|p]; [now left |]. right. nia.
  - intros [-> | H]; [lia |]. apply Nat.div_le_lower_bound; [lia |]. nia.
Qed.

(** X21: [/api/logs] lists the newest entries of the ledger: at most 50, all
    of them when the ledger has no more, each one an entry of the ledger,
    newest first; and no entry left out is newer than a listed one. *)
Theorem logs_are_the_newest_fifty w :
  exists logs,
    logs_route false w = LogsList logs /\
    List.length logs = Nat.min 50 (List.length (logsDb w)) /\
    descending processed_at logs /\
    (forall e, In e logs -> In e (logsDb w)) /\
    (forall e left_out,
       In e logs -> In left_out (logsDb w) -> ~ In left_out logs ->
       (processed_at left_out <= processed_at e)%nat).
Proof.
  exists (firstn 50 (sortDesc processed_at (logsDb w))). split; [reflexivity |].
  pose proof (sortDesc_perm processed_at (logsDb w)) as Hperm.
  pose proof (sortDesc_descending processed_at (logsDb w)) as Hsorted.
  split; [| split; [| split]].
  - now rewrite length_firstn, (Permutation_length Hperm).
  - exact (window_descending processed_at _ 0 50 Hsorted).
  - intros e He. apply (Permutation_in _ Hperm).
    exact (proj2 (In_window _ 0 50 e He)).
  - intros e left_out He Hin Hout.
    apply (windows_ordered processed_at _ 0 50 50 e left_out Hsorted); [lia | exact He |].
    apply (Permutation_in _ (Permutation_sym Hperm)) in Hin.
    rewrite <- (firstn_skipn 50 (sortDesc processed_at (logsDb w))) in Hin.
    apply in_app_or in Hin as [Hin | Hin]; [now elim Hout | exact Hin].
Qed.

(** X22: a page of [/api/soldiers] is a window of the matching records: for
    a page number from 1 and a positive limit, the answer holds the records
    of the window of [limit] records that starts after [(page - 1) * limit]
    matching records, as many as the matches leave there, newest first,
    each one a stored record that passes the filter; [total] counts all
    matches, whatever the page. *)
Theorem soldiers_page_is_a_window regex q w matches :
  queryFilter regex q = Some matches ->
  (1 <= queryPage q)%nat -> (0 < queryLimit q)%nat ->
  exists page,
    soldiers_route regex false q w =
      SoldiersPage page
        (Some (ceilDiv (List.length (List.filter matches (soldiersDb w))) (queryLimit q)))
        (queryPage q) (List.length (List.filter matches (soldiersDb w))) /\
    List.length page =
      Nat.min (queryLimit q)
        (List.length (List.filter matches (soldiersDb w)) - (queryPage q - 1) * queryLimit q) /\
    descending Soldier.created_at page /\
    (forall d, In d page -> In d (soldiersDb w) /\ matches d = true).
Proof.
  intros Hq Hp Hl. unfold soldiers_route. rewrite Hq. cbv zeta.
  replace (queryPage q =? 0)%nat with false by (symmetry; apply Nat.eqb_neq; lia).
  replace (queryLimit q =? 0)%nat with false by (symmetry; apply Nat.eqb_neq; lia).
  cbn [andb]. eexists. split; [reflexivity |].
  pose proof (sortDesc_perm Soldier.created_at (List.filter matches (soldiersDb w))) as Hperm.
  split; [| split].
  - now rewrite length_firstn, length_skipn, (Permutation_length Hperm).
  - apply window_descending, sortDesc_descending.
  - intros d Hd. apply In_window in Hd as [_ Hd].
    apply (Permutation_in _ Hperm) in Hd. now apply filter_In in Hd.
Qed.

Lemma soldiers_page_is_a_window_witness :
  exists page,
    soldiers_route (fun _ => None) false secondPageOfOne worldWithTwo =
      SoldiersPage page (Some 2) 2 2 /\
    List.length page = 1.
Proof.
  destruct (soldiers_page_is_a_window (fun _ => None) secondPageOfOne worldWithTwo _ eq_refl
              ltac:(cbn; lia) ltac:(cbn; lia)) as (page & E & Hlen & _).
  exists page. split; [exact E | exact Hlen].
Defined.

(** X23: [totalPages] is the number of the last page that holds a record:
    whenever [/api/soldiers] answers with a page count, the page of the
    answer is not empty exactly when its number is at most that count, and
    the count is the least number of pages of [limit] records that hold all
    matches. *)
Theorem page_count_is_last_page_with_records regex q w page totalPages current total :
  soldiers_route regex false q w = SoldiersPage page (Some totalPages) current total ->
  (page <> [] <-> (current <= totalPages)%nat) /\
  (total <= totalPages * queryLimit q)%nat /\
  ((0 < total)%nat -> ((totalPages - 1) * queryLimit q < total)%nat).
Proof.
  unfold soldiers_route. destruct (queryFilter regex q) as [matches|]; [| discriminate].
  cbv zeta. cbn [andb].
  destruct (queryLimit q =? 0)%nat eqn:El.
  { destruct ((queryPage q =? 0)%nat && (0 <? queryLimit q)%nat); discriminate. }
  apply Nat.eqb_neq in El.
  destruct (queryPage q =? 0)%nat eqn:Ep.
  { replace (0 <? queryLimit q)%nat with true by (symmetry; apply Nat.ltb_lt; lia).
    discriminate. }
  apply Nat.eqb_neq in Ep. cbn [andb]. intros H. injection H as <- <- <- <-.
  pose proof (sortDesc_perm Soldier.created_at (List.filter matches (soldiersDb w))) as Hperm.
  set (found := List.filter matches (soldiersDb w)) in *.
  assert (Hlen : List.length
                   (firstn (queryLimit q)
                      (skipn ((queryPage q - 1) * queryLimit q)
                         (sortDesc Soldier.created_at found))) =
                 Nat.min (queryLimit q)
                   (List.length found - (queryPage q - 1) * queryLimit q)).
  { now rewrite length_firstn, length_skipn, (Permutation_length Hperm). }
  split; [| split].
  - rewrite (ceilDiv_spec (List.length found) (queryLimit q) (queryPage q)) by lia.
    split.
    + intros Hne. right.
      destruct (firstn (queryLimit q)
                  (skipn ((queryPage q - 1) * queryLimit q)
                     (sortDesc Soldier.created_at found))); [now elim Hne |].
      cbn [List.length] in Hlen. lia.
    + intros [H0 | Hlt] Hnil; [lia |]. rewrite Hnil in Hlen. cbn [List.length] in Hlen. lia.
  - pose proof (proj2 (ceilDiv_spec (List.length found) (queryLimit q)
                         (S (ceilDiv (List.length found) (queryLimit q)))
                         ltac:(lia))) as H.
    destruct (Nat.le_gt_cases (List.length found)
                (ceilDiv (List.length found) (queryLimit q) * queryLimit q)) as [Hle | Hgt];
      [exact Hle |].
    assert (S (ceilDiv (List.length found) (queryLimit q)) <=
            ceilDiv (List.length found) (queryLimit q))%nat; [| lia].
    apply H. right. cbn [Nat.sub]. rewrite Nat.sub_0_r. exact Hgt.
  - intros Hpos.
    pose proof (proj1 (ceilDiv_spec (List.length found) (queryLimit q)
                         (ceilDiv (List.length found) (queryLimit q))
                         ltac:(lia)) (Nat.le_refl _)) as [H0 | H]; [| exact H].
    rewrite H0. cbn. exact Hpos.
Qed.

Lemma page_count_is_last_page_with_records_witness :
  ([smithDoc] <> [] <-> (2 <= 2)%nat) /\
  (2 <= 2 * queryLimit secondPageOfOne)%nat /\
  ((0 < 2)%nat -> ((2 - 1) * queryLimit secondPageOfOne < 2)%nat).
Proof.
  exact (page_count_is_last_page_with_records (fun _ => None) secondPageOfOne worldWithTwo
           [smithDoc] 2 2 2 eq_refl).
Defined.

(** X24: the pages of [/api/soldiers] follow the order of creation: under
    the same filter and the same positive limit, no record of a later page
    was created after a record of an earlier page. *)
Theorem later_pages_hold_older_records regex q1 q2 w d1 d2 :
  q_limit q2 = q_limit q1 -> q_status q2 = q_status q1 -> q_unit q2 = q_unit q1 ->
  (0 < queryLimit q1)%nat -> (queryPage q1 < queryPage q2)%nat ->
  In d1 (pageItems (soldiers_route regex false q1 w)) ->
  In d2 (pageItems (soldiers_route regex false q2 w)) ->
  (Soldier.created_at d2 <= Soldier.created_at d1)%nat.
Proof.
  intros Hlimit Hstatus Hunit Hl Hp.
  assert (queryLimit q2 = queryLimit q1) as El by (unfold queryLimit; now rewrite Hlimit).
  assert (queryFilter regex q2 = queryFilter regex q1) as Ef
    by (unfold queryFilter; now rewrite Hstatus, Hunit).
  unfold soldiers_route. rewrite Ef, El.
  destruct (queryFilter regex q1) as [matches|]; [| intros []].
  cbv zeta.
  replace (queryLimit q1 =? 0)%nat with false by (symmetry; apply Nat.eqb_neq; lia).
  replace (0 <? queryLimit q1)%nat with true by (symmetry; apply Nat.ltb_lt; lia).
  replace (queryPage q2 =? 0)%nat with false by (symmetry; apply Nat.eqb_neq; lia).
  destruct (queryPage q1 =? 0)%nat eqn:Ep; cbn [andb pageItems]; [intros [] |].
  apply Nat.eqb_neq in Ep. intros H1 H2.
  apply (windows_ordered Soldier.created_at
           (sortDesc Soldier.created_at (List.filter matches (soldiersDb w)))
           ((queryPage q1 - 1) * queryLimit q1) ((queryPage q2 - 1) * queryLimit q1)
           (queryLimit q1) d1 d2).
  - apply sortDesc_descending.
  - nia.
  - exact H1.
  - rewrite <- (firstn_skipn (queryLimit q1)
                  (skipn ((queryPage q2 - 1) * queryLimit q1)
                     (sortDesc Soldier.created_at (List.filter matches (soldiersDb w))))).
    apply in_or_app. now left.
Qed.

Lemma later_pages_hold_older_records_witness :
  (Soldier.created_at smithDoc <= Soldier.created_at jonesDoc)%nat.
Proof.
  apply (later_pages_hold_older_records (fun _ => None) firstPageOfOne secondPageOfOne
           worldWithTwo jonesDoc smithDoc eq_refl eq_refl eq_refl).
  - cbn. lia.
  - cbn. lia.
  - cbn. now left.
  - cbn. now left.
Defined.

Lemma ledgerCount_app status logs entry :
  ledgerCount status (logs ++ [entry]) =
  (ledgerCount status logs + (if String.eqb (log_status entry) status then 1 else 0))%nat.
Proof.
  unfold ledgerCount. rewrite filter_app, length_app. cbn [List.filter].
  now destruct (String.eqb (log_status entry) status).
Qed.

Lemma ledgerCount_split logs :
  Forall (fun e => log_status e = "invalid" \/ log_status e = "corrected") logs ->
  List.length logs = (ledgerCount "invalid" logs + ledgerCount "corrected" logs)%nat.
Proof.
  unfold ledgerCount. induction 1 as [|e logs [He | He] _ IH]; [reflexivity | |];
    cbn [List.filter List.length]; rewrite He; cbn; lia.
Qed.

Section LedgerRuns.

Variable rt : Runtime.
Variable faults : Faults.

Ltac run_route :=
  unfold upload_xml, reupload_corrected, parseExcelToXML, fs_readFile, createInvalidExcel,
    xlsx_writeFile, fs_move, ProcessingLog_create, console_error, tryCatch, bind, ret, throw.

Ltac held :=
  unfold ledgerHeld in *; cbn [snd logsDb invalidDir correctedDir];
  repeat match goal with H : _ = _ |- _ => rewrite H end;
  rewrite ?ledgerCount_app, ?length_app; cbn [log_status String.eqb Ascii.eqb Bool.eqb];
  cbn [List.length];
  repeat split; try lia; try tauto;
  try (apply Forall_app; split; [tauto | constructor; [cbn; tauto | constructor]]).

(** X25: every ledger entry has its file.  If the ledger holds no more
    entries of an outcome than the holding area of that outcome holds files,
    and entries of the two outcomes only, the same is true after a request
    to either route, whatever the file and whichever operations fail; the
    total [/api/records] reports is then never below the number of ledger
    entries. *)
Theorem ledger_entries_have_held_files w :
  ledgerHeld w ->
  (forall req_file, ledgerHeld (snd (upload_xml rt faults req_file w))) /\
  (forall req_file, ledgerHeld (snd (reupload_corrected rt faults req_file w))) /\
  (forall validatedFiles,
     (List.length (logsDb w) <= r_total (records_route validatedFiles w))%nat).
Proof.
  intros Hw.
  assert (Hsave : forall l,
            exists saved w1, saveToMongoDB rt faults l w = (Returned saved, w1) /\
                             logsDb w1 = logsDb w /\ correctedDir w1 = correctedDir w /\
                             invalidDir w1 = invalidDir w).
  { intros l. destruct (saveLoop_outcomes rt faults l 0 [] w) as (outcomes & w1 & Erun & _).
    fold (saveToMongoDB rt faults l w) in Erun.
    pose proof (saveLoop_frame rt faults l 0 [] w) as F.
    fold (saveToMongoDB rt faults l w) in F.
    rewrite Erun in F. cbn [snd] in F. destruct F as (A & _ & C & D & _).
    eauto 6. }
  split; [| split].
  - intros [file|]; [| exact Hw]. run_route.
    destruct (readFileFails faults); [exact Hw |].
    destruct (isValid (validateXML rt (content file))).
    + destruct (Hsave (soldiers (validateXML rt (content file))))
        as (saved & w1 & -> & A & C & D).
      destruct (moveFails faults); [held |].
      destruct (logCreateFails faults); held.
    + destruct (writeFileFails faults); [exact Hw |].
      destruct (moveFails faults); [exact Hw |].
      destruct (logCreateFails faults); held.
  - intros [file|]; [| exact Hw]. run_route.
    destruct (readFileFails faults); [exact Hw |].
    destruct (content file) as [sheet|]; [| exact Hw].
    destruct (isValid (validateXML rt (js2xmlparser_parse rt (parseExcel_xmlData sheet)))).
    + destruct (Hsave (soldiers (validateXML rt
                         (js2xmlparser_parse rt (parseExcel_xmlData sheet)))))
        as (saved & w1 & -> & A & C & D).
      destruct (moveFails faults); [held |].
      destruct (logCreateFails faults); held.
    + destruct (writeFileFails faults); [exact Hw |].
      destruct (moveFails faults); [exact Hw | held].
  - intros validatedFiles. destruct Hw as (Hi & Hc & Hall).
    rewrite (ledgerCount_split _ Hall). cbn [records_route r_total]. lia.
Qed.

End LedgerRuns.

Lemma ledger_entries_have_held_files_witness :
  ledgerHeld (snd (upload_xml (fixedRuntime (mkBatch [smith; jonesMissing])) noFaults
                     (Some xmlUpload) emptyWorld)).
Proof.
  apply (proj1 (ledger_entries_have_held_files
                  (fixedRuntime (mkBatch [smith; jonesMissing])) noFaults emptyWorld
                  ltac:(repeat split; cbn; try lia; constructor))).
Defined.

(** * Further properties of the export *)





(** * Further properties of the schema of the store *)

Section StoreSchema.

Variable rt : Runtime.
Variable faults : Faults.

Lemma required_nonempty s t : required s = Some t -> s = Some t /\ (t =? "") = false.
Proof.
  destruct s as [x|]; cbn; [| discriminate].
  destruct (x =? "") eqn:E; [discriminate |]. intros H. injection H as <-. now split.
Qed.

Lemma castDoc_schema old soldier f :
  castDoc rt old soldier = Some f ->
  (forall o, old = Some o -> schemaOk rt o = true) ->
  schemaOk rt f = true.
Proof.
  unfold castDoc. intros H Hold.
  destruct (required (assignString (option_map Soldier.id old) (prop soldier "id")))
    as [i|] eqn:Ei; [| discriminate].
  destruct (required (assignString (option_map Soldier.name old) (prop soldier "name")))
    as [n|] eqn:En; [| discriminate].
  destruct (required (assignString (option_map Soldier.rank old) (prop soldier "rank")))
    as [r|] eqn:Er; [| discriminate].
  destruct (required (assignString (option_map Soldier.unit old) (prop soldier "unit")))
    as [u|] eqn:Eu; [| discriminate].
  destruct (required (assignDate rt (option_map Soldier.service_date old)
                        (prop soldier "service_date")))
    as [d|] eqn:Ed; [| discriminate].
  destruct (inEnum (required (assignString (option_map Soldier.status old)
                                (prop soldier "status"))))
    as [s|] eqn:Es; [| discriminate].
  injection H as <-. unfold schemaOk. cbn [Soldier.id Soldier.name Soldier.rank Soldier.unit
                                           Soldier.service_date Soldier.status].
  apply required_nonempty in Ei as [_ ->], En as [_ ->], Er as [_ ->], Eu as [_ ->].
  apply required_nonempty in Ed as [Ed ->]. cbn [negb andb].
  assert (Date_isNaN rt d = false) as ->.
  { unfold assignDate in Ed. destruct (prop soldier "service_date") as [x|].
    - destruct (Date_isNaN rt (ToString x)) eqn:E; [discriminate |].
      injection Ed as <-. exact E.
    - destruct old as [o|]; [| discriminate]. cbn in Ed. injection Ed as <-.
      specialize (Hold o eq_refl). unfold schemaOk in Hold.
      apply andb_true_iff in Hold as [Hold _]. apply andb_true_iff in Hold as [_ Hold].
      now apply negb_true_iff in Hold. }
  cbn [negb andb].
  unfold inEnum in Es.
  destruct (required (assignString (option_map Soldier.status old) (prop soldier "status")))
    as [t|]; [| discriminate].
  destruct (existsb (String.eqb t) statusEnum) eqn:E; [| discriminate].
  injection Es as <-. exact E.
Qed.

Lemma saveSoldier_schema k soldier w doc w' :
  saveSoldier rt faults k soldier w = (Returned doc, w') ->
  Forall (fun d => schemaOk rt (Soldier.fields d) = true) (soldiersDb w) ->
  schemaOk rt (Soldier.fields doc) = true.
Proof.
  unfold saveSoldier, Soldier_findOne, bind, getWorld, ret, throw, setSoldiersDb.
  intros H Hdb. rewrite Forall_forall in Hdb.
  destruct (storeFails faults k); [discriminate |].
  assert (Hnew : forall f, castDoc rt None soldier = Some f -> schemaOk rt f = true).
  { intros f Hf. apply (castDoc_schema _ _ _ Hf). discriminate. }
  destruct (prop soldier "id") as [v|].
  - destruct (castString v) as [key|]; [| discriminate].
    destruct (findIndex key (soldiersDb w)) as [i|].
    + destruct (nth_error (soldiersDb w) i) as [existing|] eqn:Hnth; [| discriminate].
      destruct (castDoc rt (Some (Soldier.fields existing)) soldier) as [f|] eqn:Hcast;
        [| discriminate].
      injection H as <- _. cbn [Soldier.fields].
      apply (castDoc_schema _ _ _ Hcast). intros o Ho. injection Ho as <-.
      apply Hdb. now apply nth_error_In with i.
    + destruct (castDoc rt None soldier) as [f|] eqn:Hcast; [| discriminate].
      injection H as <- _. now apply Hnew.
  - destruct (castDoc rt None soldier) as [f|] eqn:Hcast; [| discriminate].
    injection H as <- _. now apply Hnew.
Qed.

(** X27: the store holds schema-valid records only: if every stored record
    has its six fields not empty, a service date that is a date and a status
    of the enumeration, so has every record after [saveToMongoDB], whatever
    the candidates are, validated or not, and whichever store operations
    fail. *)
Theorem stored_records_satisfy_the_schema soldiers w :
  Forall (fun d => schemaOk rt (Soldier.fields d) = true) (soldiersDb w) ->
  Forall (fun d => schemaOk rt (Soldier.fields d) = true)
    (soldiersDb (snd (saveToMongoDB rt faults soldiers w))).
Proof.
  intros Hw. unfold saveToMongoDB.
  apply (saveLoop_preserves rt faults
           (fun db => Forall (fun d => schemaOk rt (Soldier.fields d) = true) db));
    [| exact Hw].
  intros k soldier w0 doc w' Hdb E.
  pose proof (saveSoldier_schema _ _ _ _ _ E Hdb) as Hdoc.
  destruct (saveSoldier_returned rt faults _ _ _ _ _ E)
    as [_ [(i & existing & _ & _ & _ & ->) | [_ ->]]].
  - apply Forall_forall. intros d Hd. apply replaceAt_In_inv in Hd as [-> | Hd];
      [exact Hdoc |]. rewrite Forall_forall in Hdb. now apply Hdb.
  - apply Forall_app. split; [exact Hdb | now constructor].
Qed.

End StoreSchema.

Lemma stored_records_satisfy_the_schema_witness :
  Forall (fun d => schemaOk sampleRuntime (Soldier.fields d) = true)
    (soldiersDb (snd (saveToMongoDB sampleRuntime noFaults [smithNoRank; jones; smithMonth13]
                        worldWithSmith))).
Proof.
  apply (stored_records_satisfy_the_schema sampleRuntime noFaults
           [smithNoRank; jones; smithMonth13] worldWithSmith).
  repeat constructor.
Defined.

(** * Further properties of the connection status *)

(** X28: the status [/api/db-status] reports is that of the connection at
    the request and nothing of the status before it: it says connected
    exactly when the connection is ready and the ping or, failing that, a
    query succeeds; it carries an error exactly when it says not connected;
    and its time stamp is the time of the request. *)
Theorem db_status_reflects_the_connection drv clock s :
  (Db.connected (fst (Db.db_status drv clock s)) = true <->
   Db.readyState s = 1 /\ (Db.pingError drv = None \/ Db.findOneError drv = None)) /\
  (Db.connected (fst (Db.db_status drv clock s)) = true <->
   Db.error (fst (Db.db_status drv clock s)) = None) /\
  Db.lastChecked (fst (Db.db_status drv clock s)) = Some clock /\
  (forall previous,
     fst (Db.db_status drv clock
            {| Db.readyState := Db.readyState s; Db.status := previous |}) =
     fst (Db.db_status drv clock s)).
Proof.
  unfold Db.db_status, Db.updateDbStatus. cbn [fst Db.readyState].
  destruct (Db.readyState s =? 1)%nat eqn:E; cbn [negb].
  - apply Nat.eqb_eq in E.
    destruct (Db.pingError drv) as [p|]; [destruct (Db.findOneError drv) as [f|] |];
      cbn [Db.status Db.connected Db.error Db.lastChecked];
      (repeat split; try tauto; try discriminate; auto).
    intros [_ [H | H]]; discriminate.
  - apply Nat.eqb_neq in E. cbn [Db.status Db.connected Db.error Db.lastChecked].
    repeat split; try tauto; try discriminate.
Qed.

Lemma db_status_reflects_the_connection_witness :
  Db.connected (fst (Db.db_status noPingDriver 5
                       {| Db.readyState := 1; Db.status := Db.initialStatus |})) = true.
Proof.
  apply (proj1 (db_status_reflects_the_connection noPingDriver 5
                  {| Db.readyState := 1; Db.status := Db.initialStatus |})).
  split; [reflexivity | now right].
Defined.

(** X29: [/api/test-db] is the stricter of the two checks: whenever it
    answers connected, [/api/db-status] reports connected at that moment;
    the two disagree exactly when the connection is ready and either the
    ping fails while a [findOne] works, or the ping works while the count
    fails. *)
Theorem test_db_is_stricter_than_db_status drv clock s :
  (Db.t_connected (Db.test_db drv s) = true ->
   Db.connected (fst (Db.db_status drv clock s)) = true) /\
  (Db.connected (fst (Db.db_status drv clock s)) = true /\
   Db.t_connected (Db.test_db drv s) = false <->
   Db.readyState s = 1 /\
   ((Db.pingError drv <> None /\ Db.findOneError drv = None) \/
    (Db.pingError drv = None /\ Db.countError drv <> None))).
Proof.
  unfold Db.db_status, Db.updateDbStatus, Db.test_db. cbn [fst].
  destruct (Db.readyState s =? 1)%nat eqn:E; cbn [negb].
  - apply Nat.eqb_eq in E.
    destruct (Db.pingError drv) as [p|], (Db.findOneError drv) as [f|],
      (Db.countError drv) as [c|];
      cbn [Db.status Db.connected Db.t_connected];
      intuition (try discriminate; try congruence).
  - apply Nat.eqb_neq in E. cbn [Db.status Db.connected Db.t_connected].
    split; [discriminate |]. split; [intros [H _]; discriminate | intros [H _]; now elim E].
Qed.

Lemma test_db_is_stricter_than_db_status_witness :
  Db.connected (fst (Db.db_status healthyDriver 5
                       {| Db.readyState := 1; Db.status := Db.initialStatus |})) = true.
Proof.
  exact (proj1 (test_db_is_stricter_than_db_status healthyDriver 5
                  {| Db.readyState := 1; Db.status := Db.initialStatus |}) eq_refl).
Defined.
